(** * Sub-Q-learning SAC: a shallow embedding of the training protocol

    The development follows the layout of the repository:
    - [util/types.py]   the [Transition] and [TrainingState] records;
    - [sac/losses.py]   the loss functions built by [make_losses];
    - [sac/acting.py]   [actor_step], [generate_unroll] and the [Evaluator];
    - [sac/train.py]    [_init_training_state], [sgd_step], the prefill,
                        the epoch scheduler and the [train] entry point.

    Numbers.  Arrays hold exact rationals ([Q]); the rounding of the
    float32 arithmetic of the accelerator is not part of the model, so
    every numeric statement below reads in exact arithmetic and equality
    of scalars is [Qeq].  Integers of the scheduler are [Z]; Python's [//]
    and [%] are [Z.div] and [Z.modulo] (both floor).

    Effects.  Python exceptions are values of [Exn]; code that calls an
    external collaborator (environment, optimiser, replay buffer, clock,
    persistence) runs in the monad [M], which threads a [World]: the log
    of collaborator calls in program order and the wall clock. *)

From Stdlib Require Import ZArith QArith Qminmax List String Bool Lia Lqa.
Import ListNotations.

Local Open Scope string_scope.
Local Open Scope Z_scope.
Local Open Scope Q_scope.

Set Implicit Arguments.

(* ------------------------------------------------------------------ *)
(** ** Python exceptions and the result of fallible pure code *)

Inductive Exn : Type :=
| ValueError (msg : string)
| AssertionError (msg : string)
| TypeError (msg : string)
| KeyError (key : string)
| AttributeError (name : string)
| IndexError
| ZeroDivisionError
| UnboundLocalError (name : string)
| CapacityError
| ShapeError (msg : string).

Definition Result (A : Type) : Type := (Exn + A)%type.

Definition ok {A} (a : A) : Result A := inr a.
Definition throw {A} (e : Exn) : Result A := inl e.

Definition rbind {A B} (r : Result A) (k : A -> Result B) : Result B :=
  match r with
  | inl e => inl e
  | inr a => k a
  end.

Declare Scope result_scope.
Delimit Scope result_scope with result.
Notation "x <- r ;; k" := (rbind r (fun x => k))
  (at level 61, r at next level, right associativity) : result_scope.
Notation "' p <- r ;; k" := (rbind r (fun p => k))
  (at level 61, p pattern, r at next level, right associativity) : result_scope.

(* ------------------------------------------------------------------ *)
(** ** Arrays, parameter trees and dictionaries

    An array is the list of its elements.  A network's parameter pytree
    is the list of its leaves in flattening order.  A Python dict keyed by
    the reward names is the list of its items in flattening (sorted key)
    order, the "ordered array of (key, params) pairs" of the design
    notes. *)

Definition Array : Type := list Q.
Definition Params : Type := list Array.
Definition Dict (V : Type) : Type := list (string * V).

Definition keys {V} (d : Dict V) : list string := map fst d.
Definition values {V} (d : Dict V) : list V := map snd d.

Fixpoint dict_get {V} (k : string) (d : Dict V) : option V :=
  match d with
  | [] => None
  | (k', v) :: d' => if String.eqb k k' then Some v else dict_get k d'
  end.

(** [d[k]]: a missing key raises [KeyError]. *)
Definition dict_index {V} (d : Dict V) (k : string) : Result V :=
  match dict_get k d with
  | Some v => ok v
  | None => throw (KeyError k)
  end.

(** [d[k] = v]: an existing key keeps its position, a new one goes last. *)
Fixpoint dict_set {V} (k : string) (v : V) (d : Dict V) : Dict V :=
  match d with
  | [] => [(k, v)]
  | (k', v') :: d' =>
      if String.eqb k k' then (k, v) :: d' else (k', v') :: dict_set k v d'
  end.

(** [{**a, **b}]: the items of [b] are assigned over those of [a]. *)
Definition dict_update {V} (a b : Dict V) : Dict V :=
  fold_left (fun acc kv => dict_set (fst kv) (snd kv) acc) b a.

(** Element-wise combination of two sequences that must have the same
    length (two pytrees of the same structure, two arrays of the same
    shape); a mismatch is the error JAX reports when it traces the
    operation. *)
Fixpoint map2_strict {A B C} (f : A -> B -> Result C)
         (xs : list A) (ys : list B) : Result (list C) :=
  match xs, ys with
  | [], [] => ok []
  | x :: xs', y :: ys' =>
      (c <- f x y ;; cs <- map2_strict f xs' ys' ;; ok (c :: cs))%result
  | _, _ => throw (ShapeError "mismatched structure")
  end.

Definition array_map2 (f : Q -> Q -> Q) (a b : Array) : Result Array :=
  map2_strict (fun x y => ok (f x y)) a b.

Definition params_map2 (f : Q -> Q -> Q) (p q : Params) : Result Params :=
  map2_strict (array_map2 f) p q.

Fixpoint sequence {A} (rs : list (Result A)) : Result (list A) :=
  match rs with
  | [] => ok []
  | r :: rs' => (a <- r ;; l <- sequence rs' ;; ok (a :: l))%result
  end.

(** [jax.tree_multimap] over dicts keyed by the reward names: the two
    dicts must have the same key set, and values are paired by key. *)
Definition dict_zip {A B} (d1 : Dict A) (d2 : Dict B) : Result (Dict (A * B)) :=
  if Nat.eqb (List.length d1) (List.length d2)
  then sequence
         (map (fun kv => (b <- dict_index d2 (fst kv) ;;
                          ok (fst kv, (snd kv, b)))%result) d1)
  else throw (ValueError "dict key mismatch").

Definition dict_mapM {A B} (f : A -> Result B) (d : Dict A) : Result (Dict B) :=
  sequence (map (fun kv => (b <- f (snd kv) ;; ok (fst kv, b))%result) d).

(** [jax.tree_map(f, t1, t2)] on two dicts of network parameters. *)
Definition tree_map2 (f : Q -> Q -> Q)
           (t1 t2 : Dict Params) : Result (Dict Params) :=
  (z <- dict_zip t1 t2 ;;
   dict_mapM (fun pq => params_map2 f (fst pq) (snd pq)) z)%result.

(** The element of a dict of parameters at key [k], leaf [i], index [j]. *)
Definition element (t : Dict Params) (k : string) (i j : nat) : option Q :=
  match dict_get k t with
  | Some p =>
      match nth_error p i with
      | Some arr => nth_error arr j
      | None => None
      end
  | None => None
  end.

(** The shape of a parameter tree: the sizes of its leaves. *)
Definition shape (p : Params) : list nat := map (@List.length Q) p.

Definition shape_eqb (s1 s2 : list nat) : bool :=
  if list_eq_dec Nat.eq_dec s1 s2 then true else false.

(** Same pytree structure: as many keys, and under every key of [t1] the
    tree [t2] has parameters of the same shape. *)
Definition same_shape (t1 t2 : Dict Params) : bool :=
  Nat.eqb (List.length t1) (List.length t2) &&
  forallb (fun kv => match dict_get (fst kv) t2 with
                     | Some p2 => shape_eqb (shape (snd kv)) (shape p2)
                     | None => false
                     end) t1.

(* ------------------------------------------------------------------ *)
(** ** Array arithmetic used by the losses *)

Definition sum (a : Array) : Q := fold_right Qplus 0 a.

(** [jnp.mean]: the sum over the number of elements. *)
Definition mean (a : Array) : Q := sum a / inject_Z (Z.of_nat (List.length a)).

(** [jnp.min(row)]: a reduction over an empty axis is an error. *)
Definition array_min (row : Array) : Result Q :=
  match row with
  | [] => throw (ValueError "zero-size array to reduction operation min")
  | x :: r => ok (fold_left Qmin r x)
  end.

(** [jnp.min(q, axis=-1)] on a [batch x ensemble] matrix. *)
Definition min_last_axis (q : list Array) : Result Array :=
  sequence (map array_min q).

(** The soft target update of [sgd_step] (train.py, the [jax.tree_map]
    that builds [new_sub_target_q_params]). *)
Definition polyak (tau : Q) (target sub_q : Dict Params) : Result (Dict Params) :=
  tree_map2 (fun x y => x * (1 - tau) + y * tau) target sub_q.

(** [n] successive target updates against the same [sub_q]. *)
Fixpoint polyak_iter (tau : Q) (n : nat) (target sub_q : Dict Params)
  : Result (Dict Params) :=
  match n with
  | O => ok target
  | S n' => (t <- polyak_iter tau n' target sub_q ;; polyak tau t sub_q)%result
  end.

(* ------------------------------------------------------------------ *)
(** ** util/types.py *)

Definition PRNGKey : Type := (Z * Z)%type.
(** Batched observations, actions and distribution parameters: one row
    per environment of the batch. *)
Definition Obs : Type := list Array.
Definition Act : Type := list Array.
Definition DistParams : Type := list Array.
(** Running statistics and optimiser states are pytrees of arrays. *)
Definition Norm : Type := list Array.
Definition OptState : Type := list Array.

(** [extras] is the dict [{'state_extras': ..., 'policy_extras': ...}]. *)
Record Extras : Type := {
  policy_extras : Dict Array;
  state_extras : Dict Array
}.

(** [class Transition(NamedTuple)]: every field carries the leading
    batch axis. *)
Record Transition : Type := {
  observation : Obs;
  action : Act;
  reward : Array;
  sub_rewards : Dict Array;
  discount : Array;
  next_observation : Obs;
  extras : Extras
}.

(** [@flax.struct.dataclass class TrainingState]: fourteen fields, none
    of them with a default value. *)
Record TrainingState : Type := {
  policy_params : Params;
  policy_optimizer_state : OptState;
  sub_policy_params : Dict Params;
  sub_policy_optimizer_state : OptState;
  sub_q_params : Dict Params;
  sub_q_optimizer_state : OptState;
  sub_target_q_params : Dict Params;
  gradient_steps : Q;
  env_steps : Q;
  alpha_params : Q;
  alpha_optimizer_state : OptState;
  sub_alpha_params : Params;
  sub_alpha_optimizer_state : OptState;
  normalizer_params : Norm
}.

(** *** Keyword calls

    A Python call binds its arguments by keyword.  In the model the
    keywords of a call are a record with one optional entry for each
    parameter of the callee: [None] when the call site does not pass it.
    [required] is the check the generated [__init__] (or any [def]) makes
    for a parameter without default. *)
Definition required {A} (callee name : string) (arg : option A) : Result A :=
  match arg with
  | Some a => ok a
  | None =>
      throw (TypeError (callee ++ "() missing required argument: '" ++ name ++ "'"))
  end.

Record TrainingStateKwargs : Type := {
  kw_policy_params : option Params;
  kw_policy_optimizer_state : option OptState;
  kw_sub_policy_params : option (Dict Params);
  kw_sub_policy_optimizer_state : option OptState;
  kw_sub_q_params : option (Dict Params);
  kw_sub_q_optimizer_state : option OptState;
  kw_sub_target_q_params : option (Dict Params);
  kw_gradient_steps : option Q;
  kw_env_steps : option Q;
  kw_alpha_params : option Q;
  kw_alpha_optimizer_state : option OptState;
  kw_sub_alpha_params : option Params;
  kw_sub_alpha_optimizer_state : option OptState;
  kw_normalizer_params : option Norm
}.

(** The dataclass [__init__] of [TrainingState], called by keyword. *)
Definition TrainingState_init (kw : TrainingStateKwargs) : Result TrainingState :=
  (a1 <- required "__init__" "policy_params" (kw_policy_params kw) ;;
   a2 <- required "__init__" "policy_optimizer_state" (kw_policy_optimizer_state kw) ;;
   a3 <- required "__init__" "sub_policy_params" (kw_sub_policy_params kw) ;;
   a4 <- required "__init__" "sub_policy_optimizer_state"
           (kw_sub_policy_optimizer_state kw) ;;
   a5 <- required "__init__" "sub_q_params" (kw_sub_q_params kw) ;;
   a6 <- required "__init__" "sub_q_optimizer_state" (kw_sub_q_optimizer_state kw) ;;
   a7 <- required "__init__" "sub_target_q_params" (kw_sub_target_q_params kw) ;;
   a8 <- required "__init__" "gradient_steps" (kw_gradient_steps kw) ;;
   a9 <- required "__init__" "env_steps" (kw_env_steps kw) ;;
   a10 <- required "__init__" "alpha_params" (kw_alpha_params kw) ;;
   a11 <- required "__init__" "alpha_optimizer_state" (kw_alpha_optimizer_state kw) ;;
   a12 <- required "__init__" "sub_alpha_params" (kw_sub_alpha_params kw) ;;
   a13 <- required "__init__" "sub_alpha_optimizer_state"
            (kw_sub_alpha_optimizer_state kw) ;;
   a14 <- required "__init__" "normalizer_params" (kw_normalizer_params kw) ;;
   ok {| policy_params := a1;
         policy_optimizer_state := a2;
         sub_policy_params := a3;
         sub_policy_optimizer_state := a4;
         sub_q_params := a5;
         sub_q_optimizer_state := a6;
         sub_target_q_params := a7;
         gradient_steps := a8;
         env_steps := a9;
         alpha_params := a10;
         alpha_optimizer_state := a11;
         sub_alpha_params := a12;
         sub_alpha_optimizer_state := a13;
         normalizer_params := a14 |})%result.

(** [training_state.replace(normalizer_params=..., env_steps=...)], the
    only [replace] of train.py: a copy with two fields changed. *)
Definition replace_normalizer_env_steps
           (ts : TrainingState) (n : Norm) (steps : Q) : TrainingState :=
  {| policy_params := policy_params ts;
     policy_optimizer_state := policy_optimizer_state ts;
     sub_policy_params := sub_policy_params ts;
     sub_policy_optimizer_state := sub_policy_optimizer_state ts;
     sub_q_params := sub_q_params ts;
     sub_q_optimizer_state := sub_q_optimizer_state ts;
     sub_target_q_params := sub_target_q_params ts;
     gradient_steps := gradient_steps ts;
     env_steps := steps;
     alpha_params := alpha_params ts;
     alpha_optimizer_state := alpha_optimizer_state ts;
     sub_alpha_params := sub_alpha_params ts;
     sub_alpha_optimizer_state := sub_alpha_optimizer_state ts;
     normalizer_params := n |}.

(* ------------------------------------------------------------------ *)
(** ** External collaborators of the losses

    The function approximators and the action distribution are used
    through [init]/[apply] and [sample]/[log_prob]/[postprocess] only. *)

Record ParametricDistribution : Type := {
  sample_no_postprocessing : DistParams -> PRNGKey -> Act;
  log_prob : DistParams -> Act -> Array;
  postprocess : Act -> Act
}.

Record SACNetworks : Type := {
  policy_network_init : PRNGKey -> Params;
  policy_network_apply : Norm -> Params -> Obs -> DistParams;
  q_network_init : PRNGKey -> Params;
  (** one row per batch entry, one column per member of the ensemble *)
  q_network_apply : Norm -> Params -> Obs -> Act -> list Array;
  parametric_action_distribution : ParametricDistribution
}.

(** [jax.random], [hash] and [jnp.exp]. *)
Record Jax : Type := {
  random_PRNGKey : Z -> PRNGKey;
  (** [random_split key num i] is the [i]-th of the [num] keys of
      [jax.random.split(key, num)] *)
  random_split : PRNGKey -> nat -> nat -> PRNGKey;
  random_fold_in : PRNGKey -> Z -> PRNGKey;
  random_randint : PRNGKey -> nat -> Z -> Z -> list Z;
  hash : string -> Z;
  jnp_exp : Q -> Q;
  process_index : Z;
  process_count : Z;
  local_device_count : Z;
  (** [time_time n] is the value of the [n]-th reading of [time.time()] *)
  time_time : nat -> Q
}.

(** [a, b = jax.random.split(key)]. *)
Definition random_split2 (jax : Jax) (key : PRNGKey) : PRNGKey * PRNGKey :=
  (random_split jax key 2 0, random_split jax key 2 1).

(** [jax.random.split(key, num)] as the sequence of its keys. *)
Definition random_splits (jax : Jax) (key : PRNGKey) (num : nat) : list PRNGKey :=
  map (random_split jax key num) (seq 0 num).

(* ------------------------------------------------------------------ *)
(** ** sac/losses.py *)

Section Losses.

Variable jax : Jax.
Variable sac_network : SACNetworks.
Variable reward_scaling : Q.
Variable discounting : Q.
Variable action_size : Z.

Definition target_entropy : Q := - (1 # 2) * inject_Z action_size.

Let dist := parametric_action_distribution sac_network.

  (** [_critic_loss] up to [target_q]: the bootstrapped target (the
      value under [jax.lax.stop_gradient]), one entry per transition. *)
Definition _critic_target_q (policy_params : Params)
             (normalizer_params : Norm) (target_q_params : Params)
             (alpha : Q) (transitions : Transition) (reward : Array)
             (key : PRNGKey) : Result Array :=
    let next_dist_params :=
      policy_network_apply sac_network normalizer_params policy_params
                           (next_observation transitions) in
    let next_action := sample_no_postprocessing dist next_dist_params key in
    let next_log_prob := log_prob dist next_dist_params next_action in
    let next_action := postprocess dist next_action in
    let next_q :=
      q_network_apply sac_network normalizer_params target_q_params
                      (next_observation transitions) next_action in
    (min_next_q <- min_last_axis next_q ;;
     next_v <- array_map2 Qminus min_next_q (map (Qmult alpha) next_log_prob) ;;
     bootstrap <-
       array_map2 Qmult
         (map (fun d => d * discounting) (discount transitions)) next_v ;;
     array_map2 Qplus (map (fun r => r * reward_scaling) reward) bootstrap)%result.

  (** [_critic_loss] up to its last statement: the TD error [q_error]
      after the truncation mask, one row per transition of the batch. *)
Definition _critic_q_error (q_params policy_params : Params)
             (normalizer_params : Norm) (target_q_params : Params)
             (alpha : Q) (transitions : Transition) (reward : Array)
             (key : PRNGKey) : Result (list Array) :=
    let q_old_action :=
      q_network_apply sac_network normalizer_params q_params
                      (observation transitions) (action transitions) in
    (target_q <-
       _critic_target_q policy_params normalizer_params target_q_params
                        alpha transitions reward key ;;
     q_error <-
       map2_strict (fun row t => ok (map (fun q => q - t) row))
                   q_old_action target_q ;;
     (* Better bootstrapping for truncated episodes. *)
     truncation <- dict_index (state_extras (extras transitions)) "truncation" ;;
     map2_strict (fun row t => ok (map (fun e => e * (1 - t)) row))
                 q_error truncation)%result.

Definition square (x : Q) : Q := x * x.

Definition _critic_loss (q_params policy_params : Params)
             (normalizer_params : Norm) (target_q_params : Params)
             (alpha : Q) (transitions : Transition) (reward : Array)
             (key : PRNGKey) : Result Q :=
    (q_error <-
       _critic_q_error q_params policy_params normalizer_params
                       target_q_params alpha transitions reward key ;;
     let q_loss := (1 # 2) * mean (map square (List.concat q_error)) in
     ok q_loss)%result.

Definition _actor_loss (policy_params : Params) (normalizer_params : Norm)
             (q_params : Params) (alpha : Q) (transitions : Transition)
             (key : PRNGKey) : Result Q :=
    let dist_params :=
      policy_network_apply sac_network normalizer_params policy_params
                           (observation transitions) in
    let action := sample_no_postprocessing dist dist_params key in
    let log_prob := log_prob dist dist_params action in
    let action := postprocess dist action in
    let q_action :=
      q_network_apply sac_network normalizer_params q_params
                      (observation transitions) action in
    (min_q <- min_last_axis q_action ;;
     actor_loss <- array_map2 Qminus (map (Qmult alpha) log_prob) min_q ;;
     ok (mean actor_loss))%result.

Definition alpha_loss (log_alpha : Q) (policy_params : Params)
             (normalizer_params : Norm) (transitions : Transition)
             (key : PRNGKey) : Result Q :=
    let dist_params :=
      policy_network_apply sac_network normalizer_params policy_params
                           (observation transitions) in
    let action := sample_no_postprocessing dist dist_params key in
    let log_prob := log_prob dist dist_params action in
    let alpha := jnp_exp jax log_alpha in
    let alpha_loss := map (fun lp => alpha * (- lp - target_entropy)) log_prob in
    ok (mean alpha_loss).

Definition sub_q_loss (sub_q_params sub_policy_params : Dict Params)
             (normalizer_params : Norm) (sub_target_q_params : Dict Params)
             (alpha : Q) (transitions : Transition) (key : PRNGKey) : Result Q :=
    let keydict :=
      map (fun k => (k, random_fold_in jax key (hash jax k))) (keys sub_q_params) in
    (z <- dict_zip keydict sub_q_params ;;
     z <- dict_zip z sub_policy_params ;;
     z <- dict_zip z sub_target_q_params ;;
     z <- dict_zip z (sub_rewards transitions) ;;
     losses <-
       dict_mapM
         (fun '(key, q_params, policy_params, target_q_params, reward) =>
            _critic_loss q_params policy_params normalizer_params
                         target_q_params alpha transitions reward key) z ;;
     let sub_q_loss := sum (values losses) in
     ok sub_q_loss)%result.

Definition sub_policy_loss (sub_policy_params : Dict Params)
             (normalizer_params : Norm) (sub_q_params : Dict Params)
             (alpha : Q) (transitions : Transition) (key : PRNGKey) : Result Q :=
    let keydict :=
      map (fun k => (k, random_fold_in jax key (hash jax k))) (keys sub_q_params) in
    (z <- dict_zip keydict sub_policy_params ;;
     z <- dict_zip z sub_q_params ;;
     losses <-
       dict_mapM
         (fun '(key, policy_params, q_params) =>
            _actor_loss policy_params normalizer_params q_params alpha
                        transitions key) z ;;
     let sub_policy_loss := sum (values losses) in
     ok sub_policy_loss)%result.

Definition policy_loss (policy_params : Params) (normalizer_params : Norm)
             (sub_q_params : Dict Params) (alpha : Q)
             (transitions : Transition) (key : PRNGKey) : Result Q :=
    let dist_params :=
      policy_network_apply sac_network normalizer_params policy_params
                           (observation transitions) in
    let action := sample_no_postprocessing dist dist_params key in
    let log_prob := log_prob dist dist_params action in
    let action := postprocess dist action in
    let dummy_dict := map (fun k => (k, 0)) (keys sub_q_params) in
    (z <- dict_zip dummy_dict sub_q_params ;;
     sub_q_action <-
       dict_mapM
         (fun '(unused_1st_arg, q_params) =>
            ok (q_network_apply sac_network normalizer_params q_params
                                (observation transitions) action)) z ;;
     min_sub_q <- dict_mapM min_last_axis sub_q_action ;;
     (* jnp.sum(ravel_pytree(min_sub_q)[0]): one scalar for the whole tree *)
     let summed := sum (List.concat (values min_sub_q)) in
     let actor_loss := map (fun lp => alpha * lp - summed) log_prob in
     ok (mean actor_loss))%result.

  (** The shared-policy loss as the specification words it: the per-key
      minima are added across keys, entry by entry of the batch, and the
      loss is the batch mean of [alpha * log_prob - summed_value]. *)
Definition policy_loss_spec (policy_params : Params) (normalizer_params : Norm)
             (sub_q_params : Dict Params) (alpha : Q)
             (transitions : Transition) (key : PRNGKey) : Result Q :=
    let dist_params :=
      policy_network_apply sac_network normalizer_params policy_params
                           (observation transitions) in
    let action := sample_no_postprocessing dist dist_params key in
    let log_prob := log_prob dist dist_params action in
    let action := postprocess dist action in
    (min_sub_q <-
       sequence
         (map (fun kv =>
                 min_last_axis
                   (q_network_apply sac_network normalizer_params (snd kv)
                                    (observation transitions) action))
              sub_q_params) ;;
     summed_value <-
       fold_left
         (fun acc m => (a <- acc ;; array_map2 Qplus a m)%result)
         min_sub_q (ok (map (fun _ => 0) log_prob)) ;;
     actor_loss <- array_map2 Qminus (map (Qmult alpha) log_prob) summed_value ;;
     ok (mean actor_loss))%result.

Definition make_losses := (alpha_loss, sub_q_loss, sub_policy_loss, policy_loss).

End Losses.

(* ------------------------------------------------------------------ *)
(** ** Calls to the collaborators, and the monad of effectful code *)

Inductive Event : Type :=
| Call_env_reset (num_envs : nat)
| Call_env_step
| Call_network_init (key : PRNGKey)
| Call_optimizer_init
| Call_normalizer_init
| Call_buffer_init
| Call_buffer_insert (insert_size : nat)
| Call_buffer_sample
| Call_alpha_update (alpha_params : Q) (policy_params : Params)
| Call_sub_q_update (sub_q_params sub_policy_params sub_target_q_params : Dict Params)
| Call_sub_policy_update (sub_policy_params sub_q_params : Dict Params)
| Call_policy_update (policy_params : Params) (sub_q_params : Dict Params)
| Call_save_params (current_step : Z)
| Call_progress_fn (num_steps : Z) (metrics : Dict Q).

Definition is_env_step (e : Event) : bool :=
  match e with Call_env_step => true | _ => false end.

Definition is_gradient_update (e : Event) : bool :=
  match e with
  | Call_alpha_update _ _ | Call_sub_q_update _ _ _
  | Call_sub_policy_update _ _ | Call_policy_update _ _ => true
  | _ => false
  end.

Record World : Type := {
  calls : list Event; (** oldest first *)
  ticks : nat         (** readings of the clock so far *)
}.

Definition M (A : Type) : Type := World -> Result A * World.

Definition ret {A} (a : A) : M A := fun w => (inr a, w).

Definition bind {A B} (m : M A) (k : A -> M B) : M B :=
  fun w =>
    match m w with
    | (inl e, w') => (inl e, w')
    | (inr a, w') => k a w'
    end.

Definition raise {A} (e : Exn) : M A := fun w => (inl e, w).

Definition lift {A} (r : Result A) : M A := fun w => (r, w).

Definition emit (e : Event) : M unit :=
  fun w => (inr tt, {| calls := calls w ++ [e]; ticks := ticks w |}).

Declare Scope monad_scope.
Delimit Scope monad_scope with monad.
Notation "x <- m ;; k" := (bind m (fun x => k))
  (at level 61, m at next level, right associativity) : monad_scope.
Notation "' p <- m ;; k" := (bind m (fun p => k))
  (at level 61, p pattern, m at next level, right associativity) : monad_scope.
Notation "m ;;; k" := (bind m (fun _ => k))
  (at level 61, right associativity) : monad_scope.

Local Open Scope monad_scope.

(** [assert cond], with the source text of the condition. *)
Definition assert (cond : bool) (text : string) : Result unit :=
  if cond then ok tt else throw (AssertionError text).

(** [time.time()]. *)
Definition time (jax : Jax) : M Q :=
  fun w => (inr (time_time jax (ticks w)),
            {| calls := calls w; ticks := S (ticks w) |}).

Fixpoint mapM {A B} (f : A -> M B) (xs : list A) : M (list B) :=
  match xs with
  | [] => ret []
  | x :: xs' => y <- f x ;; ys <- mapM f xs' ;; ret (y :: ys)
  end.

(** [jax.pmap(f)(xs)]: [f] runs on every replica, here one after the
    other; the reductions over the replica axis are part of the
    collaborators that perform them. *)
Definition pmap {A B} (f : A -> M B) (xs : list A) : M (list B) := mapM f xs.

(** JAX stages the body of a scan before it runs it: the Python body is
    executed once on abstract values, whatever the length, and an
    exception it raises surfaces there, before any iteration.  Staging
    performs no call on the device. *)
Definition staged {A} (m : M A) : M unit :=
  fun w =>
    match m w with
    | (inl e, _) => (inl e, w)
    | (inr _, _) => (inr tt, w)
    end.

Fixpoint scan_loop {C X Y} (f : C -> X -> M (C * Y)) (carry : C) (xs : list X)
  : M (C * list Y) :=
  match xs with
  | [] => ret (carry, [])
  | x :: xs' =>
      '(carry', y) <- f carry x ;;
      '(final, ys) <- scan_loop f carry' xs' ;;
      ret (final, y :: ys)
  end.

(** [jax.lax.scan(f, init, xs)]; [x_aval] stands for the abstract element
    of [xs] the body is staged on. *)
Definition lax_scan {C X Y} (f : C -> X -> M (C * Y)) (init : C)
           (x_aval : X) (xs : list X) : M (C * list Y) :=
  staged (f init x_aval) ;;; scan_loop f init xs.

(** [jax.lax.scan(f, init, (), length=n)]. *)
Definition lax_scan_length {C Y} (f : C -> unit -> M (C * Y)) (init : C)
           (length : nat) : M (C * list Y) :=
  lax_scan f init tt (repeat tt length).

(** Python's [//] and [%] on integers. *)
Definition floordiv (a b : Z) : Result Z :=
  if (b =? 0)%Z then throw ZeroDivisionError else ok (a / b)%Z.

Definition pymod (a b : Z) : Result Z :=
  if (b =? 0)%Z then throw ZeroDivisionError else ok (a mod b)%Z.

(** Python's true division of numbers. *)
Definition truediv (a b : Q) : Result Q :=
  if Qeq_bool b 0 then throw ZeroDivisionError else ok (a / b).

(** [int(x)] of a float: truncation toward zero. *)
Definition int_of (x : Q) : Z := Z.quot (Qnum x) (Zpos (Qden x)).

(* ------------------------------------------------------------------ *)
(** ** The environment, the policy and the remaining collaborators *)

Record EvalMetrics : Type := {
  episode_metrics : Dict Array;
  active_episodes : Array;
  episode_steps : Array
}.

(** [brax.envs.State]; [info['eval_metrics']], the one entry of [info]
    that is not an array, is kept in a field of its own ([None] when the
    key is absent). *)
Record EnvState : Type := {
  qp : list Array;
  obs : Obs;
  env_reward : Array;
  done : Array;
  metrics : Dict Array;
  info : Dict Array;
  info_eval_metrics : option EvalMetrics
}.

Record Env : Type := {
  reset : list PRNGKey -> EnvState;
  step : EnvState -> Act -> EnvState;
  observation_size : Z;
  env_action_size : Z
}.

Definition Policy : Type := Obs -> PRNGKey -> Act * Dict Array.
Definition PolicyParams : Type := (Norm * Params)%type.
Definition Metrics : Type := Dict Q.

Record Optimizer : Type := { learning_rate : Q }.

(** brax and optax: wrappers, network factory, running statistics, the
    gradient update built from a loss and an optimiser (it computes the
    loss and its gradient, averages the gradient over the replicas,
    applies the optimiser and returns the loss, the new parameters and the
    new optimiser state), and the row layout of the replay buffer. *)
Record Brax : Type := {
  EpisodeWrapper : Env -> Z -> Z -> Env;
  VmapWrapper : Env -> Env;
  AutoResetWrapper : Env -> Env;
  EvalWrapper : Env -> Env;
  make_sac_networks : Z -> Z -> bool -> SACNetworks;
  make_inference_fn : SACNetworks -> PolicyParams -> Policy;
  running_statistics_init_state : Z -> Norm;
  running_statistics_update : Norm -> Obs -> Norm;
  adam : Q -> Optimizer;
  optimizer_init_scalar : Optimizer -> Q -> OptState;
  optimizer_init_params : Optimizer -> Params -> OptState;
  optimizer_init_dict : Optimizer -> Dict Params -> OptState;
  gradient_update_scalar :
    forall A : Type, (Q -> A -> Result Q) -> Optimizer ->
                     Q -> A -> OptState -> Result (Q * Q * OptState);
  gradient_update_params :
    forall A : Type, (Params -> A -> Result Q) -> Optimizer ->
                     Params -> A -> OptState -> Result (Q * Params * OptState);
  gradient_update_dict :
    forall A : Type, (Dict Params -> A -> Result Q) -> Optimizer ->
                     Dict Params -> A -> OptState ->
                     Result (Q * Dict Params * OptState);
  (** one flat row per transition of the batch, and back *)
  flatten_fn : Transition -> list Array;
  unflatten_fn : Transition -> list Array -> Transition;
  assert_is_replicated : list TrainingState -> Result unit
}.

(* ------------------------------------------------------------------ *)
(** ** sac/acting.py *)

Section Acting.

Variable jax : Jax.
Variable brax : Brax.

  (** [extra_fields] has the default [()]; [reward_dict] has none. *)
Definition actor_step (env : Env) (env_state : EnvState) (policy : Policy)
             (key : PRNGKey) (reward_dict : option (Dict Q))
             (extra_fields : option (list string)) : M (EnvState * Transition) :=
    reward_dict <- lift (required "actor_step" "reward_dict" reward_dict) ;;
    let extra_fields := match extra_fields with Some x => x | None => [] end in
    let '(actions, policy_extras) := policy (obs env_state) key in
    emit Call_env_step ;;;
    let nstate := step env env_state actions in
    state_extras <-
      lift (sequence (map (fun x => (v <- dict_index (info nstate) x ;;
                                     ok (x, v))%result) extra_fields)) ;;
    sub_rewards <-
      lift (sequence (map (fun k => (v <- dict_index (metrics nstate) k ;;
                                     ok (k, v))%result) (keys reward_dict))) ;;
    ret (nstate,
         {| observation := obs env_state;
            action := actions;
            reward := env_reward nstate;
            sub_rewards := sub_rewards;
            discount := map (fun d => 1 - d) (done nstate);
            next_observation := obs nstate;
            extras := {| policy_extras := policy_extras;
                         state_extras := state_extras |} |}).

  (** The function [f] nested in [generate_unroll]. *)
Definition generate_unroll_f (env : Env) (policy : Policy)
             (extra_fields : list string)
             (carry : EnvState * PRNGKey) (unused_t : unit)
    : M ((EnvState * PRNGKey) * Transition) :=
    let '(state, current_key) := carry in
    let '(current_key, next_key) := random_split2 jax current_key in
    '(nstate, transition) <-
      actor_step env state policy current_key None (Some extra_fields) ;;
    ret ((nstate, next_key), transition).

Definition generate_unroll (env : Env) (env_state : EnvState)
             (policy : Policy) (key : PRNGKey) (unroll_length : nat)
             (extra_fields : list string) : M (EnvState * list Transition) :=
    '(final, data) <-
      lax_scan_length (generate_unroll_f env policy extra_fields)
                      (env_state, key) unroll_length ;;
    ret (fst final, data).

End Acting.

(** *** The evaluator *)

(** The keywords of [Evaluator(eval_env, eval_policy_fn, ...)];
    [kw_unexpected] lists the keywords of the call that name no parameter
    of [__init__]. *)
Record EvaluatorKwargs : Type := {
  kw_num_eval_envs : option Z;
  kw_episode_length : option Z;
  kw_action_repeat : option Z;
  kw_key : option PRNGKey;
  kw_unexpected : list string
}.

(** An [Evaluator] object: its two mutable attributes, the staged unroll
    closure and the step count of one unroll. *)
Record Evaluator : Type := {
  _key : PRNGKey;
  _eval_walltime : Q;
  _generate_eval_unroll : PolicyParams -> PRNGKey -> M EnvState;
  _steps_per_unroll : Z
}.

(** The dict display [{'eval/walltime': w, **training_metrics, **metrics}]
    that ends [run_evaluation]. *)
Definition merge_metrics (eval_walltime : Q)
           (training_metrics metrics : Metrics) : Metrics :=
  dict_update (dict_update [("eval/walltime", eval_walltime)] training_metrics)
              metrics.

(** A dict comprehension: the items are assigned in order. *)
Definition dict_of_items {V} (items : list (string * V)) : Dict V :=
  dict_update [] items.

Section Evaluation.

Variable jax : Jax.
Variable brax : Brax.

Definition Evaluator_init (eval_env : Env)
             (eval_policy_fn : PolicyParams -> Policy)
             (kw : EvaluatorKwargs) : Result Evaluator :=
    match kw_unexpected kw with
    | k :: _ =>
        throw (TypeError ("__init__() got an unexpected keyword argument '"
                            ++ k ++ "'"))
    | [] =>
        (num_eval_envs <- required "__init__" "num_eval_envs" (kw_num_eval_envs kw) ;;
         episode_length <-
           required "__init__" "episode_length" (kw_episode_length kw) ;;
         action_repeat <- required "__init__" "action_repeat" (kw_action_repeat kw) ;;
         key <- required "__init__" "key" (kw_key kw) ;;
         let eval_env := EvalWrapper brax eval_env in
         let generate_eval_unroll (policy_params : PolicyParams) (key : PRNGKey)
             : M EnvState :=
           (let reset_keys := random_splits jax key (Z.to_nat num_eval_envs) in
            emit (Call_env_reset (Z.to_nat num_eval_envs)) ;;;
            let eval_first_state := reset eval_env reset_keys in
            unroll_length <- lift (floordiv episode_length action_repeat) ;;
            '(final, _) <-
              generate_unroll jax eval_env eval_first_state
                              (eval_policy_fn policy_params) key
                              (Z.to_nat unroll_length) [] ;;
            ret final)%monad in
         ok {| _key := key;
               _eval_walltime := 0;
               _generate_eval_unroll := generate_eval_unroll;
               _steps_per_unroll := (episode_length * num_eval_envs)%Z |})%result
    end.

  (** [run_evaluation] returns the metrics; the evaluator is returned
      with its attributes as the method leaves them. *)
Definition run_evaluation (self : Evaluator) (policy_params : PolicyParams)
             (training_metrics : Metrics) : M (Evaluator * Metrics) :=
    let '(new_key, unroll_key) := random_split2 jax (_key self) in
    t <- time jax ;;
    eval_state <- _generate_eval_unroll self policy_params unroll_key ;;
    eval_metrics <-
      lift (match info_eval_metrics eval_state with
            | Some m => ok m
            | None => throw (KeyError "eval_metrics")
            end) ;;
    t' <- time jax ;;
    let epoch_eval_time := t' - t in
    let metrics :=
      dict_of_items
        (map (fun nv => ("eval/episode_" ++ fst nv, mean (snd nv)))
             (episode_metrics eval_metrics)) in
    let metrics :=
      dict_set "eval/avg_episode_length" (mean (episode_steps eval_metrics))
               metrics in
    let metrics := dict_set "eval/epoch_eval_time" epoch_eval_time metrics in
    sps <- lift (truediv (inject_Z (_steps_per_unroll self)) epoch_eval_time) ;;
    let metrics := dict_set "eval/sps" sps metrics in
    let eval_walltime := _eval_walltime self + epoch_eval_time in
    let metrics := merge_metrics eval_walltime training_metrics metrics in
    ret ({| _key := new_key;
            _eval_walltime := eval_walltime;
            _generate_eval_unroll := _generate_eval_unroll self;
            _steps_per_unroll := _steps_per_unroll self |},
         metrics).

End Evaluation.

(* ------------------------------------------------------------------ *)
(** ** The replay buffer *)

(** A [UniformSamplingQueue] object as [train] builds it. *)
Record UniformSamplingQueue : Type := {
  max_replay_size : Z;       (** the capacity, per replica *)
  dummy_data_sample : Transition;
  sample_batch_size : Z
}.

Record ReplayBufferState : Type := {
  data : list Array;
  current_position : Z;
  current_size : Z;
  buffer_key : PRNGKey
}.

Fixpoint set_nth {X} (n : nat) (x : X) (l : list X) : list X :=
  match l, n with
  | [], _ => []
  | _ :: l', O => x :: l'
  | y :: l', S n' => y :: set_nth n' x l'
  end.

(** Rows written one after the other from slot [start], wrapping around
    at [capacity]. *)
Fixpoint ring_write (capacity : Z) (start : Z) (rows : list Array)
         (data : list Array) : list Array :=
  match rows with
  | [] => data
  | r :: rows' =>
      ring_write capacity (start + 1)%Z rows'
                 (set_nth (Z.to_nat (start mod capacity)) r data)
  end.

Section ReplayBuffer.

Variable jax : Jax.
Variable brax : Brax.
Variable replay_buffer : UniformSamplingQueue.

Let capacity := max_replay_size replay_buffer.
Let zero_row : Array :=
    map (fun _ => 0) (List.concat (flatten_fn brax (dummy_data_sample replay_buffer))).

  (** Modelled from the spec: the replay buffer is the library class
      [brax.training.replay_buffers.UniformSamplingQueue], whose code is
      not part of the repository.  [init(seed)] allocates [capacity] slots
      of zeroed records. *)
Definition replay_buffer_init (key : PRNGKey) : M ReplayBufferState :=
    emit Call_buffer_init ;;;
    ret {| data := repeat zero_row (Z.to_nat capacity);
           current_position := 0;
           current_size := 0;
           buffer_key := key |}.

  (** Modelled from the spec: [insert(state, batch)] of the library
      buffer.  It writes [insert_size = len(batch)] records starting at
      [current_position % capacity], wrapping around; sets
      [current_position = (current_position + insert_size) % capacity] and
      [current_size = min(current_size + insert_size, capacity)]; fails
      with [CapacityError] if [insert_size > capacity]. *)
Definition replay_buffer_insert (buffer_state : ReplayBufferState)
             (samples : Transition) : M ReplayBufferState :=
    let update := flatten_fn brax samples in
    let insert_size := Z.of_nat (List.length update) in
    emit (Call_buffer_insert (List.length update)) ;;;
    if (capacity <? insert_size)%Z then raise CapacityError
    else
      start <- lift (pymod (current_position buffer_state) capacity) ;;
      position <-
        lift (pymod (current_position buffer_state + insert_size) capacity) ;;
      ret {| data := ring_write capacity start update (data buffer_state);
             current_position := position;
             current_size :=
               Z.min (current_size buffer_state + insert_size) capacity;
             buffer_key := buffer_key buffer_state |}.

  (** Modelled from the spec: [sample(state)] of the library buffer.  It
      draws [sample_batch_size] indices uniformly at random with
      replacement from [[0, current_size)], with a seed that is advanced
      between calls. *)
Definition replay_buffer_sample (buffer_state : ReplayBufferState)
    : M (ReplayBufferState * Transition) :=
    let '(key, sample_key) := random_split2 jax (buffer_key buffer_state) in
    emit Call_buffer_sample ;;;
    let idx :=
      random_randint jax sample_key
                     (Z.to_nat (sample_batch_size replay_buffer))
                     0 (current_size buffer_state) in
    let batch :=
      map (fun i => nth (Z.to_nat i) (data buffer_state) zero_row) idx in
    ret ({| data := data buffer_state;
            current_position := current_position buffer_state;
            current_size := current_size buffer_state;
            buffer_key := key |},
         unflatten_fn brax (dummy_data_sample replay_buffer) batch).

  (** Modelled from the spec: [size(state)] of the library buffer returns
      [current_size]. *)
Definition replay_buffer_size (buffer_state : ReplayBufferState) : Z :=
    current_size buffer_state.

End ReplayBuffer.

(* ------------------------------------------------------------------ *)
(** ** Reshaping and stacking *)

(** [l] cut into consecutive pieces of [size] elements. *)
Fixpoint pieces {X} (size : nat) (count : nat) (l : list X) : list (list X) :=
  match count with
  | O => []
  | S count' => firstn size l :: pieces size count' (skipn size l)
  end.

(** [jnp.reshape(x, (g, -1) + x.shape[1:])]: the leading axis is cut
    into [g] equal pieces; the shape must divide. *)
Definition reshape_leading {X} (g : Z) (l : list X) : Result (list (list X)) :=
  let n := Z.of_nat (List.length l) in
  if (g <=? 0)%Z then throw (ShapeError "cannot reshape")
  else if (n mod g =? 0)%Z
       then ok (pieces (Z.to_nat (n / g)) (Z.to_nat g) l)
       else throw (ShapeError "cannot reshape").

Definition dict_reshape_leading {X} (g : Z) (d : Dict (list X))
  : Result (Dict (list (list X))) :=
  dict_mapM (reshape_leading g) d.

(** The [i]-th slice along the leading axis of every entry. *)
Definition dict_slice {X} (i : nat) (d : Dict (list (list X))) : Dict (list X) :=
  map (fun kv => (fst kv, nth i (snd kv) [])) d.

(** The [jax.tree_map] of [training_step] that gives the sampled batch
    the leading axis [grad_updates_per_step], as the sequence of the
    slices the scan feeds to [sgd_step]. *)
Definition reshape_transitions (g : Z) (t : Transition) : Result (list Transition) :=
  (observation' <- reshape_leading g (observation t) ;;
   action' <- reshape_leading g (action t) ;;
   reward' <- reshape_leading g (reward t) ;;
   sub_rewards' <- dict_reshape_leading g (sub_rewards t) ;;
   discount' <- reshape_leading g (discount t) ;;
   next_observation' <- reshape_leading g (next_observation t) ;;
   policy_extras' <- dict_reshape_leading g (policy_extras (extras t)) ;;
   state_extras' <- dict_reshape_leading g (state_extras (extras t)) ;;
   ok (map (fun i =>
              {| observation := nth i observation' [];
                 action := nth i action' [];
                 reward := nth i reward' [];
                 sub_rewards := dict_slice i sub_rewards';
                 discount := nth i discount' [];
                 next_observation := nth i next_observation' [];
                 extras :=
                   {| policy_extras := dict_slice i policy_extras';
                      state_extras := dict_slice i state_extras' |} |})
           (seq 0 (Z.to_nat g))))%result.

(** The outputs of the iterations of a scan, stacked key by key.  (A
    scan of length zero stacks empty arrays, whose mean is NaN; the model
    has no NaN and leaves such keys out.) *)
Definition stack {X} (ys : list (Dict X)) : Dict (list X) :=
  match ys with
  | [] => []
  | y :: _ =>
      map (fun k =>
             (k, List.concat
                   (map (fun d => match dict_get k d with
                                  | Some v => [v]
                                  | None => []
                                  end) ys)))
          (keys y)
  end.

(** [jax.tree_map(jnp.mean, metrics)]. *)
Definition mean_metrics (stacked : Dict Array) : Dict Q :=
  map (fun kv => (fst kv, mean (snd kv))) stacked.

(** Stacked arrays seen as one array each, for a mean over all axes. *)
Definition flatten_stacked (stacked : Dict (list Array)) : Dict Array :=
  map (fun kv => (fst kv, List.concat (snd kv))) stacked.

Definition zip_strict {A B} (xs : list A) (ys : list B) : Result (list (A * B)) :=
  map2_strict (fun x y => ok (x, y)) xs ys.

(** [_unpmap]: the copy of the first replica. *)
Definition _unpmap {A} (v : list A) : Result A :=
  match v with
  | x :: _ => ok x
  | [] => throw IndexError
  end.

(* ------------------------------------------------------------------ *)
(** ** sac/train.py *)

(** The configuration fields [train] reads ([cfg.TRAIN.*], [cfg.SEED],
    [cfg.ENV.*]); [REWARD_DICT] is [None] when the configuration does not
    define it. *)
Record Config : Type := {
  SEED : Z;
  ENV_NAME : string;
  REWARD_DICT : option (Dict (Dict Q));
  NUM_TIMESTEPS : Z;
  EPISODE_LENGTH : Z;
  ACTION_REPEAT : Z;
  NUM_ENVS : Z;
  NUM_EVAL_ENVS : Z;
  LEARNING_RATE : Q;
  DISCOUNTING : Q;
  BATCH_SIZE : Z;
  NUM_EVALS : Z;
  NORMALIZE_OBSERVATIONS : bool;
  MAX_DEVICES_PER_HOST : option Z;
  REWARD_SCALING : Q;
  TAU : Q;
  MIN_REPLAY_SIZE : Z;
  MAX_REPLAY_SIZE : option Z;
  GRAD_UPDATES_PER_STEP : Z
}.

(** The values [train] computes once at startup, before it builds
    anything. *)
Record Startup : Type := {
  reward_dict_of : Dict Q;
  local_devices_to_use : Z;
  device_count : Z;
  max_replay_size_of : Z;
  env_steps_per_actor_step : Z;
  num_prefill_actor_steps : Z;
  num_prefill_env_steps : Z;
  num_evals_after_init : Z;
  num_training_steps_per_epoch : Z
}.

(** The process bookkeeping of [train]: [local_devices_to_use] and
    [device_count]. *)
Definition process_bookkeeping (jax : Jax) (cfg : Config) : Z * Z :=
  let max_devices_per_host := MAX_DEVICES_PER_HOST cfg in
  let local_devices_to_use := local_device_count jax in
  let local_devices_to_use :=
    match max_devices_per_host with
    | Some m => Z.min local_devices_to_use m
    | None => local_devices_to_use
    end in
  let device_count := (local_devices_to_use * process_count jax)%Z in
  (local_devices_to_use, device_count).

(** [train], from the export of the configuration to
    [assert num_envs % device_count == 0]. *)
Definition train_startup (jax : Jax) (cfg : Config) : Result Startup :=
  (let num_timesteps := NUM_TIMESTEPS cfg in
   let action_repeat := ACTION_REPEAT cfg in
   let num_envs := NUM_ENVS cfg in
   let num_evals := NUM_EVALS cfg in
   let min_replay_size := MIN_REPLAY_SIZE cfg in
   let max_replay_size := MAX_REPLAY_SIZE cfg in
   all_reward_dicts <-
     match REWARD_DICT cfg with
     | Some d => ok d
     | None => throw (AttributeError "REWARD_DICT")
     end ;;
   reward_dict <- dict_index all_reward_dicts (ENV_NAME cfg) ;;
   (* process bookkeeping *)
   let '(local_devices_to_use, device_count) := process_bookkeeping jax cfg in
   _ <- (if (min_replay_size >=? num_timesteps)%Z
         then throw (ValueError
                "No train will happen because min_replay_size >= num_timesteps")
         else ok tt) ;;
   let max_replay_size :=
     match max_replay_size with
     | Some m => m
     | None => num_timesteps
     end in
   (* The number of environment steps executed for every actor_step() call. *)
   let env_steps_per_actor_step := (action_repeat * num_envs)%Z in
   q <- floordiv (- min_replay_size) num_envs ;;
   let num_prefill_actor_steps := (- q)%Z in
   let num_prefill_env_steps :=
     (num_prefill_actor_steps * env_steps_per_actor_step)%Z in
   _ <- assert (num_timesteps - num_prefill_env_steps >=? 0)%Z
               "num_timesteps - num_prefill_env_steps >= 0" ;;
   let num_evals_after_init := Z.max (num_evals - 1) 1 in
   q <- floordiv (- (num_timesteps - num_prefill_env_steps))
                 (num_evals_after_init * env_steps_per_actor_step) ;;
   let num_training_steps_per_epoch := (- q)%Z in
   r <- pymod num_envs device_count ;;
   _ <- assert (r =? 0)%Z "num_envs % device_count == 0" ;;
   ok {| reward_dict_of := reward_dict;
         local_devices_to_use := local_devices_to_use;
         device_count := device_count;
         max_replay_size_of := max_replay_size;
         env_steps_per_actor_step := env_steps_per_actor_step;
         num_prefill_actor_steps := num_prefill_actor_steps;
         num_prefill_env_steps := num_prefill_env_steps;
         num_evals_after_init := num_evals_after_init;
         num_training_steps_per_epoch := num_training_steps_per_epoch |})%result.

(** The argument tuples of the four losses, as [gradient_update_fn]
    passes them after the trainable parameters. *)
Definition AlphaArgs : Type := (Params * Norm * Transition * PRNGKey)%type.
Definition SubQArgs : Type :=
  (Dict Params * Norm * Dict Params * Q * Transition * PRNGKey)%type.
Definition SubPolicyArgs : Type :=
  (Norm * Dict Params * Q * Transition * PRNGKey)%type.
Definition PolicyArgs : Type := (Norm * Dict Params * Q * Transition * PRNGKey)%type.

(** The local variables of [train] that its nested functions read. *)
Record TrainLocals : Type := {
  l_env : Env;
  l_reward_dict : Dict Q;
  l_tau : Q;
  l_grad_updates_per_step : Z;
  l_env_steps_per_actor_step : Z;
  l_num_prefill_actor_steps : Z;
  l_num_training_steps_per_epoch : Z;
  l_make_policy : PolicyParams -> Policy;
  l_replay_buffer : UniformSamplingQueue;
  l_alpha_update : Q -> AlphaArgs -> OptState -> Result (Q * Q * OptState);
  l_sub_q_update :
    Dict Params -> SubQArgs -> OptState -> Result (Q * Dict Params * OptState);
  l_sub_policy_update :
    Dict Params -> SubPolicyArgs -> OptState ->
    Result (Q * Dict Params * OptState);
  l_policy_update :
    Params -> PolicyArgs -> OptState -> Result (Q * Params * OptState);
  l_process_id : Z;
  l_local_devices_to_use : Z;
  l_num_timesteps : Z;
  l_min_replay_size : Z;
  l_num_evals_after_init : Z
}.

Section Train.

Variable jax : Jax.
Variable brax : Brax.

Definition _init_training_state (key : PRNGKey) (obs_size : Z)
             (local_devices_to_use : Z) (sac_network : SACNetworks)
             (alpha_optimizer sub_q_optimizer sub_policy_optimizer
                policy_optimizer : Optimizer)
             (reward_dict : Dict Q) : M (list TrainingState) :=
    let key_policy := random_split jax key 3 0 in
    let key_sub_policy := random_split jax key 3 1 in
    let key_sub_q := random_split jax key 3 2 in
    let keydict_sub_policy :=
      dict_of_items
        (map (fun k => (k, random_fold_in jax key_sub_policy (hash jax k)))
             (keys reward_dict)) in
    let keydict_sub_q :=
      dict_of_items
        (map (fun k => (k, random_fold_in jax key_sub_q (hash jax k)))
             (keys reward_dict)) in
    let log_alpha := 0 in
    emit Call_optimizer_init ;;;
    let alpha_optimizer_state :=
      optimizer_init_scalar brax alpha_optimizer log_alpha in
    emit (Call_network_init key_policy) ;;;
    let policy_params := policy_network_init sac_network key_policy in
    emit Call_optimizer_init ;;;
    let policy_optimizer_state :=
      optimizer_init_params brax policy_optimizer policy_params in
    sub_policy_params <-
      mapM (fun kv => emit (Call_network_init (snd kv)) ;;;
                      ret (fst kv, policy_network_init sac_network (snd kv)))
           keydict_sub_policy ;;
    emit Call_optimizer_init ;;;
    let sub_policy_optimizer_state :=
      optimizer_init_dict brax sub_policy_optimizer sub_policy_params in
    sub_q_params <-
      mapM (fun kv => emit (Call_network_init (snd kv)) ;;;
                      ret (fst kv, q_network_init sac_network (snd kv)))
           keydict_sub_q ;;
    emit Call_optimizer_init ;;;
    let sub_q_optimizer_state :=
      optimizer_init_dict brax sub_q_optimizer sub_q_params in
    emit Call_normalizer_init ;;;
    let normalizer_params := running_statistics_init_state brax obs_size in
    training_state <-
      lift (TrainingState_init
              {| kw_policy_params := Some policy_params;
                 kw_policy_optimizer_state := Some policy_optimizer_state;
                 kw_sub_policy_params := Some sub_policy_params;
                 kw_sub_policy_optimizer_state := Some sub_policy_optimizer_state;
                 kw_sub_q_params := Some sub_q_params;
                 kw_sub_q_optimizer_state := Some sub_q_optimizer_state;
                 kw_sub_target_q_params := Some sub_q_params;
                 kw_gradient_steps := Some 0;
                 kw_env_steps := Some 0;
                 kw_alpha_optimizer_state := Some alpha_optimizer_state;
                 kw_alpha_params := Some log_alpha;
                 kw_sub_alpha_params := None;
                 kw_sub_alpha_optimizer_state := None;
                 kw_normalizer_params := Some normalizer_params |}) ;;
    ret (repeat training_state (Z.to_nat local_devices_to_use)).

  (** *** The functions nested in [train]

      [locals] holds the local variables of [train] that its nested
      functions close over. *)

Variable locals : TrainLocals.

Let env := l_env locals.
Let reward_dict := l_reward_dict locals.
Let tau := l_tau locals.
Let grad_updates_per_step := l_grad_updates_per_step locals.
Let env_steps_per_actor_step := l_env_steps_per_actor_step locals.
Let num_prefill_actor_steps := l_num_prefill_actor_steps locals.
Let num_training_steps_per_epoch := l_num_training_steps_per_epoch locals.
Let make_policy := l_make_policy locals.
Let replay_buffer := l_replay_buffer locals.
Let alpha_update := l_alpha_update locals.
Let sub_q_update := l_sub_q_update locals.
Let sub_policy_update := l_sub_policy_update locals.
Let policy_update := l_policy_update locals.
Let process_id := l_process_id locals.
Let local_devices_to_use := l_local_devices_to_use locals.
Let num_timesteps := l_num_timesteps locals.
Let min_replay_size := l_min_replay_size locals.
Let num_evals_after_init := l_num_evals_after_init locals.

Definition sgd_step (carry : TrainingState * PRNGKey) (transitions : Transition)
    : M ((TrainingState * PRNGKey) * Metrics) :=
    let '(training_state, key) := carry in
    let key' := random_split jax key 5 0 in
    let key_alpha := random_split jax key 5 1 in
    let key_sub_q := random_split jax key 5 2 in
    let key_sub_policy := random_split jax key 5 3 in
    let key_policy := random_split jax key 5 4 in
    emit (Call_alpha_update (alpha_params training_state)
                            (policy_params training_state)) ;;;
    '(alpha_loss, alpha_params', alpha_optimizer_state') <-
      lift (alpha_update
              (alpha_params training_state)
              (policy_params training_state,
               normalizer_params training_state,
               transitions,
               key_alpha)
              (alpha_optimizer_state training_state)) ;;
    let alpha := jnp_exp jax (alpha_params training_state) in
    emit (Call_sub_q_update (sub_q_params training_state)
                            (sub_policy_params training_state)
                            (sub_target_q_params training_state)) ;;;
    '(sub_q_loss, sub_q_params', sub_q_optimizer_state') <-
      lift (sub_q_update
              (sub_q_params training_state)
              (sub_policy_params training_state,
               normalizer_params training_state,
               sub_target_q_params training_state,
               alpha,
               transitions,
               key_sub_q)
              (sub_q_optimizer_state training_state)) ;;
    emit (Call_sub_policy_update (sub_policy_params training_state)
                                 (sub_q_params training_state)) ;;;
    '(sub_policy_loss, sub_policy_params', sub_policy_optimizer_state') <-
      lift (sub_policy_update
              (sub_policy_params training_state)
              (normalizer_params training_state,
               sub_q_params training_state,
               alpha,
               transitions,
               key_sub_policy)
              (sub_policy_optimizer_state training_state)) ;;
    emit (Call_policy_update (policy_params training_state)
                             (sub_q_params training_state)) ;;;
    '(policy_loss, policy_params', policy_optimizer_state') <-
      lift (policy_update
              (policy_params training_state)
              (normalizer_params training_state,
               sub_q_params training_state,
               alpha,
               transitions,
               key_policy)
              (policy_optimizer_state training_state)) ;;
    new_sub_target_q_params <-
      lift (polyak tau (sub_target_q_params training_state) sub_q_params') ;;
    let metrics :=
      dict_of_items
        [("alpha_loss", alpha_loss);
         ("sub_q_loss", sub_q_loss);
         ("sub_policy_loss", sub_policy_loss);
         ("policy_loss", policy_loss);
         ("alpha", jnp_exp jax alpha_params')] in
    new_training_state <-
      lift (TrainingState_init
              {| kw_sub_q_params := Some sub_q_params';
                 kw_sub_q_optimizer_state := Some sub_q_optimizer_state';
                 kw_sub_policy_params := Some sub_policy_params';
                 kw_sub_policy_optimizer_state := Some sub_policy_optimizer_state';
                 kw_policy_params := Some policy_params';
                 kw_policy_optimizer_state := Some policy_optimizer_state';
                 kw_sub_target_q_params := Some new_sub_target_q_params;
                 kw_gradient_steps := Some (gradient_steps training_state + 1);
                 kw_env_steps := Some (env_steps training_state);
                 kw_alpha_optimizer_state := Some alpha_optimizer_state';
                 kw_alpha_params := Some alpha_params';
                 kw_sub_alpha_params := None;
                 kw_sub_alpha_optimizer_state := None;
                 kw_normalizer_params := Some (normalizer_params training_state) |}) ;;
    ret ((new_training_state, key'), metrics).

Definition get_experience (normalizer_params : Norm) (policy_params : Params)
             (env_state : EnvState) (buffer_state : ReplayBufferState)
             (key : PRNGKey) : M (Norm * EnvState * ReplayBufferState) :=
    let policy := make_policy (normalizer_params, policy_params) in
    '(env_state, transitions) <-
      actor_step env env_state policy key (Some reward_dict)
                 (Some ["truncation"]) ;;
    let normalizer_params :=
      running_statistics_update brax normalizer_params (observation transitions) in
    buffer_state <- replay_buffer_insert brax replay_buffer buffer_state transitions ;;
    ret (normalizer_params, env_state, buffer_state).

Definition training_step (training_state : TrainingState) (env_state : EnvState)
             (buffer_state : ReplayBufferState) (key : PRNGKey)
    : M (TrainingState * EnvState * ReplayBufferState * Dict Array) :=
    let '(experience_key, training_key) := random_split2 jax key in
    '(normalizer_params, env_state, buffer_state) <-
      get_experience (normalizer_params training_state)
                     (policy_params training_state)
                     env_state buffer_state experience_key ;;
    let training_state :=
      replace_normalizer_env_steps
        training_state normalizer_params
        (env_steps training_state + inject_Z env_steps_per_actor_step) in
    '(buffer_state, transitions) <-
      replay_buffer_sample jax brax replay_buffer buffer_state ;;
    (* Change the front dimension of transitions so 'update_step' is called
       grad_updates_per_step times by the scan. *)
    transitions <- lift (reshape_transitions grad_updates_per_step transitions) ;;
    '(final, metrics) <-
      lax_scan sgd_step (training_state, training_key)
               (hd (dummy_data_sample replay_buffer) transitions) transitions ;;
    let training_state := fst final in
    let metrics := stack metrics in
    let metrics :=
      dict_set "buffer_current_size"
               [inject_Z (current_size buffer_state)] metrics in
    let metrics :=
      dict_set "buffer_current_position"
               [inject_Z (current_position buffer_state)] metrics in
    ret (training_state, env_state, buffer_state, metrics).

  (** The function [f] nested in [prefill_replay_buffer]: the body of
      its scan. *)
Definition prefill_replay_buffer_f
             (carry : TrainingState * EnvState * ReplayBufferState * PRNGKey)
             (unused : unit)
    : M ((TrainingState * EnvState * ReplayBufferState * PRNGKey) * unit) :=
    let '(training_state, env_state, buffer_state, key) := carry in
    let '(key, new_key) := random_split2 jax key in
    '(new_normalizer_params, env_state, buffer_state) <-
      get_experience (normalizer_params training_state)
                     (policy_params training_state)
                     env_state buffer_state key ;;
    let new_training_state :=
      replace_normalizer_env_steps
        training_state new_normalizer_params
        (env_steps training_state + inject_Z env_steps_per_actor_step) in
    ret ((new_training_state, env_state, buffer_state, new_key), tt).

  (** The function [prefill_replay_buffer] before [jax.pmap] wraps it:
      what one replica runs. *)
Definition prefill_replay_buffer
             (args : TrainingState * EnvState * ReplayBufferState * PRNGKey)
    : M (TrainingState * EnvState * ReplayBufferState * PRNGKey) :=
    '(final, _) <-
      lax_scan_length prefill_replay_buffer_f args
                      (Z.to_nat num_prefill_actor_steps) ;;
    ret final.

  (** The function [f] nested in [training_epoch]. *)
Definition training_epoch_f
             (carry : TrainingState * EnvState * ReplayBufferState * PRNGKey)
             (unused_t : unit)
    : M ((TrainingState * EnvState * ReplayBufferState * PRNGKey) * Dict Array) :=
    let '(ts, es, bs, k) := carry in
    let '(k, new_key) := random_split2 jax k in
    '(ts, es, bs, metrics) <- training_step ts es bs k ;;
    ret ((ts, es, bs, new_key), metrics).

  (** The function [training_epoch] before [jax.pmap] wraps it. *)
Definition training_epoch
             (args : TrainingState * EnvState * ReplayBufferState * PRNGKey)
    : M (TrainingState * EnvState * ReplayBufferState * Metrics) :=
    '(final, metrics) <-
      lax_scan_length training_epoch_f args
                      (Z.to_nat num_training_steps_per_epoch) ;;
    let '(training_state, env_state, buffer_state, key) := final in
    let metrics := mean_metrics (flatten_stacked (stack metrics)) in
    ret (training_state, env_state, buffer_state, metrics).

  (** *** The timed epoch, the prefill phase and the epoch loop

      Replicated values are the list of their per-replica copies. *)

Definition Replicas : Type :=
    (list TrainingState * list EnvState * list ReplayBufferState)%type.

Definition zip4 (training_state : list TrainingState)
             (env_state : list EnvState) (buffer_state : list ReplayBufferState)
             (key : list PRNGKey)
    : Result (list (TrainingState * EnvState * ReplayBufferState * PRNGKey)) :=
    (a <- zip_strict training_state env_state ;;
     b <- zip_strict a buffer_state ;;
     zip_strict b key)%result.

  (** Note that this is NOT a pure jittable method: [training_walltime]
      is the nonlocal variable it updates. *)
Definition training_epoch_with_timing (training_walltime : Q)
             (replicas : Replicas) (key : list PRNGKey)
    : M (Q * Replicas * Metrics) :=
    let '(training_state, env_state, buffer_state) := replicas in
    t <- time jax ;;
    args <- lift (zip4 training_state env_state buffer_state key) ;;
    out <- pmap training_epoch args ;;
    let training_state := map (fun o => fst (fst (fst o))) out in
    let env_state := map (fun o => snd (fst (fst o))) out in
    let buffer_state := map (fun o => snd (fst o)) out in
    (* This line also guarantees the values are ready. *)
    let metrics := mean_metrics (stack (map snd out)) in
    t' <- time jax ;;
    let epoch_training_time := t' - t in
    let training_walltime := training_walltime + epoch_training_time in
    sps <-
      lift (truediv
              (inject_Z (env_steps_per_actor_step * num_training_steps_per_epoch))
              epoch_training_time) ;;
    let metrics :=
      dict_update
        (dict_of_items [("training/sps", sps);
                        ("training/walltime", training_walltime)])
        (dict_of_items (map (fun nv => ("training/" ++ fst nv, snd nv)) metrics)) in
    ret (training_walltime, (training_state, env_state, buffer_state), metrics).

  (** [train], from "Create and initialize the replay buffer" to the
      assertion on the replay size. *)
Definition train_prefill (replicas : Replicas) (local_key : PRNGKey)
    : M (Replicas * PRNGKey * Q) :=
    let '(training_state, env_state, buffer_state) := replicas in
    t <- time jax ;;
    let '(prefill_key, local_key) := random_split2 jax local_key in
    let prefill_keys :=
      random_splits jax prefill_key (Z.to_nat local_devices_to_use) in
    args <- lift (zip4 training_state env_state buffer_state prefill_keys) ;;
    out <- pmap prefill_replay_buffer args ;;
    let training_state := map (fun o => fst (fst (fst o))) out in
    let env_state := map (fun o => snd (fst (fst o))) out in
    let buffer_state := map (fun o => snd (fst o)) out in
    let replay_size :=
      fold_right Z.add 0%Z (map replay_buffer_size buffer_state) in
    lift (assert (replay_size >=? min_replay_size)%Z
                 "replay_size >= min_replay_size") ;;;
    t' <- time jax ;;
    let training_walltime := t' - t in
    ret ((training_state, env_state, buffer_state), local_key, training_walltime).

  (** The variables the epoch loop of [train] reads and assigns. *)
Record LoopState : Type := {
    loop_replicas : Replicas;
    loop_local_key : PRNGKey;
    loop_training_walltime : Q;
    loop_current_step : Z;
    loop_evaluator : Evaluator;
    loop_metrics : option Metrics  (** [None] while [metrics] is unbound *)
  }.

  (** One iteration of [for _ in range(num_evals_after_init)]. *)
Definition train_epoch_iteration (s : LoopState) : M LoopState :=
    (* Optimization *)
    let '(epoch_key, local_key) := random_split2 jax (loop_local_key s) in
    let epoch_keys := random_splits jax epoch_key (Z.to_nat local_devices_to_use) in
    '(training_walltime, replicas, training_metrics) <-
      training_epoch_with_timing (loop_training_walltime s) (loop_replicas s)
                                 epoch_keys ;;
    let '(training_state, env_state, buffer_state) := replicas in
    first <- lift (_unpmap training_state) ;;
    let current_step := int_of (env_steps first) in
    (* Eval and logging *)
    if (process_id =? 0)%Z then
      (* Save current policy. *)
      let params := (normalizer_params first, policy_params first) in
      emit (Call_save_params current_step) ;;;
      (* Run evals. *)
      '(evaluator, metrics) <-
        run_evaluation jax (loop_evaluator s) params training_metrics ;;
      emit (Call_progress_fn current_step metrics) ;;;
      ret {| loop_replicas := replicas;
             loop_local_key := local_key;
             loop_training_walltime := training_walltime;
             loop_current_step := current_step;
             loop_evaluator := evaluator;
             loop_metrics := Some metrics |}
    else
      ret {| loop_replicas := replicas;
             loop_local_key := local_key;
             loop_training_walltime := training_walltime;
             loop_current_step := current_step;
             loop_evaluator := loop_evaluator s;
             loop_metrics := loop_metrics s |}.

Fixpoint for_range {S} (n : nat) (body : S -> M S) (s : S) : M S :=
    match n with
    | O => ret s
    | S n' => s' <- body s ;; for_range n' body s'
    end.

  (** [train], from [current_step = 0] to the [return]. *)
Definition train_epochs (s : LoopState)
    : M ((PolicyParams -> Policy) * PolicyParams * Metrics) :=
    s <- for_range (Z.to_nat num_evals_after_init) train_epoch_iteration s ;;
    let total_steps := loop_current_step s in
    lift (assert (total_steps >=? num_timesteps)%Z
                 "total_steps >= num_timesteps") ;;;
    let '(training_state, _, _) := loop_replicas s in
    first <- lift (_unpmap training_state) ;;
    let params := (normalizer_params first, policy_params first) in
    (* If there was no mistakes the training_state should still be identical
       on all devices. *)
    lift (assert_is_replicated brax training_state) ;;;
    metrics <-
      lift (match loop_metrics s with
            | Some m => ok m
            | None => throw (UnboundLocalError "metrics")
            end) ;;
    ret (make_policy, params, metrics).

End Train.

(** *** The objects [train] builds after the startup checks *)

(** [env]: the environment under its three wrappers. *)
Definition train_env (brax : Brax) (cfg : Config) (environment : Env) : Env :=
  let env := environment in
  let env := EpisodeWrapper brax env (EPISODE_LENGTH cfg) (ACTION_REPEAT cfg) in
  let env := VmapWrapper brax env in
  let env := AutoResetWrapper brax env in
  env.

(** [sac_network = network_factory(...)]; the preprocessing function is
    the normalisation or the identity, after [normalize_observations]. *)
Definition train_network (brax : Brax) (cfg : Config) (env : Env) : SACNetworks :=
  let obs_size := observation_size env in
  let action_size := env_action_size env in
  make_sac_networks brax obs_size action_size (NORMALIZE_OBSERVATIONS cfg).

(** [replay_buffer = replay_buffers.UniformSamplingQueue(...)]. *)
Definition train_replay_buffer (cfg : Config) (env : Env) (startup : Startup)
  : Result UniformSamplingQueue :=
  (let obs_size := observation_size env in
   let action_size := env_action_size env in
   let reward_dict := reward_dict_of startup in
   let dummy_obs := repeat 0 (Z.to_nat obs_size) in
   let dummy_action := repeat 0 (Z.to_nat action_size) in
   let dummy_transition :=
     {| observation := [dummy_obs];
        action := [dummy_action];
        reward := [0];
        sub_rewards := map (fun kv => (fst kv, [snd kv])) reward_dict;
        discount := [0];
        next_observation := [dummy_obs];
        extras := {| state_extras := [("truncation", [0])];
                     policy_extras := [] |} |} in
   capacity <- floordiv (max_replay_size_of startup) (device_count startup) ;;
   batch <-
     floordiv (BATCH_SIZE cfg * GRAD_UPDATES_PER_STEP cfg) (device_count startup) ;;
   ok {| max_replay_size := capacity;
         dummy_data_sample := dummy_transition;
         sample_batch_size := batch |})%result.

(** The locals of [train] once the losses and the four update functions
    are built. *)
Definition train_locals (jax : Jax) (brax : Brax) (cfg : Config) (env : Env)
           (startup : Startup) (replay_buffer : UniformSamplingQueue)
  : TrainLocals :=
  let learning_rate := LEARNING_RATE cfg in
  let action_size := env_action_size env in
  let sac_network := train_network brax cfg env in
  let make_policy := make_inference_fn brax sac_network in
  let alpha_optimizer := adam brax (3 # 10000) in
  let sub_q_optimizer := adam brax learning_rate in
  let sub_policy_optimizer := adam brax learning_rate in
  let policy_optimizer := adam brax learning_rate in
  let '(alpha_loss, sub_q_loss, sub_policy_loss, policy_loss) :=
    make_losses jax sac_network (REWARD_SCALING cfg) (DISCOUNTING cfg)
                action_size in
  let alpha_update :=
    gradient_update_scalar brax
      (fun p (a : AlphaArgs) =>
         let '(policy_params, normalizer_params, transitions, key) := a in
         alpha_loss p policy_params normalizer_params transitions key)
      alpha_optimizer in
  let sub_q_update :=
    gradient_update_dict brax
      (fun p (a : SubQArgs) =>
         let '(sub_policy_params, normalizer_params, sub_target_q_params,
               alpha, transitions, key) := a in
         sub_q_loss p sub_policy_params normalizer_params sub_target_q_params
                    alpha transitions key)
      sub_q_optimizer in
  let sub_policy_update :=
    gradient_update_dict brax
      (fun p (a : SubPolicyArgs) =>
         let '(normalizer_params, sub_q_params, alpha, transitions, key) := a in
         sub_policy_loss p normalizer_params sub_q_params alpha transitions key)
      sub_policy_optimizer in
  let policy_update :=
    gradient_update_params brax
      (fun p (a : PolicyArgs) =>
         let '(normalizer_params, sub_q_params, alpha, transitions, key) := a in
         policy_loss p normalizer_params sub_q_params alpha transitions key)
      policy_optimizer in
  {| l_env := env;
     l_reward_dict := reward_dict_of startup;
     l_tau := TAU cfg;
     l_grad_updates_per_step := GRAD_UPDATES_PER_STEP cfg;
     l_env_steps_per_actor_step := env_steps_per_actor_step startup;
     l_num_prefill_actor_steps := num_prefill_actor_steps startup;
     l_num_training_steps_per_epoch := num_training_steps_per_epoch startup;
     l_make_policy := make_policy;
     l_replay_buffer := replay_buffer;
     l_alpha_update := alpha_update;
     l_sub_q_update := sub_q_update;
     l_sub_policy_update := sub_policy_update;
     l_policy_update := policy_update;
     l_process_id := process_index jax;
     l_local_devices_to_use := local_devices_to_use startup;
     l_num_timesteps := NUM_TIMESTEPS cfg;
     l_min_replay_size := MIN_REPLAY_SIZE cfg;
     l_num_evals_after_init := num_evals_after_init startup |}.

(** [train(cfg, environment, progress_fn)]; the calls of [progress_fn]
    are logged as [Call_progress_fn]. *)
Definition train (jax : Jax) (brax : Brax) (cfg : Config) (environment : Env)
  : M ((PolicyParams -> Policy) * PolicyParams * Metrics) :=
  let seed := SEED cfg in
  let num_envs := NUM_ENVS cfg in
  let num_evals := NUM_EVALS cfg in
  let learning_rate := LEARNING_RATE cfg in
  let process_id := process_index jax in
  startup <- lift (train_startup jax cfg) ;;
  let reward_dict := reward_dict_of startup in
  let local_devices_to_use := local_devices_to_use startup in
  let env := train_env brax cfg environment in
  let obs_size := observation_size env in
  let sac_network := train_network brax cfg env in
  let make_policy := make_inference_fn brax sac_network in
  let alpha_optimizer := adam brax (3 # 10000) in
  let sub_q_optimizer := adam brax learning_rate in
  let sub_policy_optimizer := adam brax learning_rate in
  let policy_optimizer := adam brax learning_rate in
  replay_buffer <- lift (train_replay_buffer cfg env startup) ;;
  let locals := train_locals jax brax cfg env startup replay_buffer in
  let '(global_key, local_key) := random_split2 jax (random_PRNGKey jax seed) in
  let local_key := random_fold_in jax local_key process_id in
  (* Training state init *)
  training_state <-
    _init_training_state jax brax global_key obs_size local_devices_to_use
                         sac_network alpha_optimizer sub_q_optimizer
                         sub_policy_optimizer policy_optimizer reward_dict ;;
  let rb_key := random_split jax local_key 4 1 in
  let env_key := random_split jax local_key 4 2 in
  let eval_key := random_split jax local_key 4 3 in
  let local_key := random_split jax local_key 4 0 in
  (* Env init *)
  n <- lift (floordiv num_envs (process_count jax)) ;;
  let env_keys := random_splits jax env_key (Z.to_nat n) in
  env_keys <- lift (reshape_leading local_devices_to_use env_keys) ;;
  env_state <-
    pmap (fun ks => emit (Call_env_reset (List.length ks)) ;;; ret (reset env ks))
         env_keys ;;
  (* Replay buffer init *)
  buffer_state <-
    pmap (replay_buffer_init brax replay_buffer)
         (random_splits jax rb_key (Z.to_nat local_devices_to_use)) ;;
  evaluator <-
    lift (Evaluator_init jax brax env make_policy
            {| kw_num_eval_envs := Some (NUM_EVAL_ENVS cfg);
               kw_episode_length := Some (EPISODE_LENGTH cfg);
               kw_action_repeat := Some (ACTION_REPEAT cfg);
               kw_key := Some eval_key;
               kw_unexpected := ["reward_dict"] |}) ;;
  (* Run initial eval *)
  '(evaluator, metrics) <-
    (if ((process_id =? 0) && (num_evals >? 1))%Z
     then
       first <- lift (_unpmap training_state) ;;
       '(evaluator, metrics) <-
         run_evaluation jax evaluator
                        (normalizer_params first, policy_params first) [] ;;
       emit (Call_progress_fn 0 metrics) ;;;
       ret (evaluator, Some metrics)
     else ret (evaluator, None)) ;;
  (* Create and initialize the replay buffer. *)
  '(replicas, local_key, training_walltime) <-
    train_prefill jax brax locals (training_state, env_state, buffer_state)
                  local_key ;;
  train_epochs jax brax locals
               {| loop_replicas := replicas;
                  loop_local_key := local_key;
                  loop_training_walltime := training_walltime;
                  loop_current_step := 0;
                  loop_evaluator := evaluator;
                  loop_metrics := metrics |}.

(* ------------------------------------------------------------------ *)
(** ** config/defaults.py *)

(** [get_config()]: the default configuration.  It defines no
    [ENV.REWARD_DICT]. *)
Definition get_config : Config :=
  {| SEED := 0;
     ENV_NAME := "walker2d";
     REWARD_DICT := None;
     NUM_TIMESTEPS := 50000000;
     EPISODE_LENGTH := 1000;
     ACTION_REPEAT := 1;
     NUM_ENVS := 32;
     NUM_EVAL_ENVS := 32;
     LEARNING_RATE := 1 # 10000;
     DISCOUNTING := 98 # 100;
     BATCH_SIZE := 256;
     NUM_EVALS := 10;
     NORMALIZE_OBSERVATIONS := true;
     MAX_DEVICES_PER_HOST := None;
     REWARD_SCALING := 1 # 10;
     TAU := 5 # 1000;
     MIN_REPLAY_SIZE := 8192;
     MAX_REPLAY_SIZE := Some 1048576%Z;
     GRAD_UPDATES_PER_STEP := 1 |}.

(** A configuration with one field of [get_config] replaced. *)
Definition with_reward_dict (cfg : Config) (d : Dict (Dict Q)) : Config :=
  {| SEED := SEED cfg;
     ENV_NAME := ENV_NAME cfg;
     REWARD_DICT := Some d;
     NUM_TIMESTEPS := NUM_TIMESTEPS cfg;
     EPISODE_LENGTH := EPISODE_LENGTH cfg;
     ACTION_REPEAT := ACTION_REPEAT cfg;
     NUM_ENVS := NUM_ENVS cfg;
     NUM_EVAL_ENVS := NUM_EVAL_ENVS cfg;
     LEARNING_RATE := LEARNING_RATE cfg;
     DISCOUNTING := DISCOUNTING cfg;
     BATCH_SIZE := BATCH_SIZE cfg;
     NUM_EVALS := NUM_EVALS cfg;
     NORMALIZE_OBSERVATIONS := NORMALIZE_OBSERVATIONS cfg;
     MAX_DEVICES_PER_HOST := MAX_DEVICES_PER_HOST cfg;
     REWARD_SCALING := REWARD_SCALING cfg;
     TAU := TAU cfg;
     MIN_REPLAY_SIZE := MIN_REPLAY_SIZE cfg;
     MAX_REPLAY_SIZE := MAX_REPLAY_SIZE cfg;
     GRAD_UPDATES_PER_STEP := GRAD_UPDATES_PER_STEP cfg |}.

Definition with_budget (cfg : Config)
           (num_timesteps min_replay_size : Z) (max_replay_size : option Z)
           (num_envs num_evals : Z) : Config :=
  {| SEED := SEED cfg;
     ENV_NAME := ENV_NAME cfg;
     REWARD_DICT := REWARD_DICT cfg;
     NUM_TIMESTEPS := num_timesteps;
     EPISODE_LENGTH := EPISODE_LENGTH cfg;
     ACTION_REPEAT := ACTION_REPEAT cfg;
     NUM_ENVS := num_envs;
     NUM_EVAL_ENVS := NUM_EVAL_ENVS cfg;
     LEARNING_RATE := LEARNING_RATE cfg;
     DISCOUNTING := DISCOUNTING cfg;
     BATCH_SIZE := BATCH_SIZE cfg;
     NUM_EVALS := num_evals;
     NORMALIZE_OBSERVATIONS := NORMALIZE_OBSERVATIONS cfg;
     MAX_DEVICES_PER_HOST := MAX_DEVICES_PER_HOST cfg;
     REWARD_SCALING := REWARD_SCALING cfg;
     TAU := TAU cfg;
     MIN_REPLAY_SIZE := min_replay_size;
     MAX_REPLAY_SIZE := max_replay_size;
     GRAD_UPDATES_PER_STEP := GRAD_UPDATES_PER_STEP cfg |}.

(* ------------------------------------------------------------------ *)
(** ** Example collaborators

    Small executable collaborators, on which the model runs: a two-term
    reward decomposition, an environment whose observation counts its
    steps, a two-member critic ensemble, and a gradient update that moves
    every parameter by the learning rate. *)

Module Example.

Definition reward_dict : Dict Q := [("ctrl", 1 # 10); ("forward", 1)].

Definition jax (devices : Z) : Jax :=
    {| random_PRNGKey := fun seed => (0%Z, seed);
       random_split := fun key num i =>
                         (fst key + 1, snd key * Z.of_nat num + Z.of_nat i)%Z;
       random_fold_in := fun key d => (fst key, snd key + d)%Z;
       random_randint := fun key n lo hi => repeat lo n;
       hash := fun s => Z.of_nat (String.length s);
       jnp_exp := fun x => 1 + x;
       process_index := 0;
       process_count := 1;
       local_device_count := devices;
       time_time := fun n => inject_Z (Z.of_nat n) |}.

  (** Every environment of the batch observes the number of steps it has
      taken; it reports the two sub-rewards and never truncates. *)
Definition env : Env :=
    {| reset := fun keys =>
         {| qp := [];
            obs := map (fun _ => [0]) keys;
            env_reward := map (fun _ => 0) keys;
            done := map (fun _ => 0) keys;
            metrics := [("ctrl", map (fun _ => 0) keys);
                        ("forward", map (fun _ => 0) keys)];
            info := [("truncation", map (fun _ => 0) keys)];
            info_eval_metrics :=
              Some {| episode_metrics := [("reward", map (fun _ => 0) keys)];
                      active_episodes := map (fun _ => 1) keys;
                      episode_steps := map (fun _ => 0) keys |} |};
       step := fun s a =>
         {| qp := qp s;
            obs := map (map (fun x => x + 1)) (obs s);
            env_reward := map (fun _ => 1) (obs s);
            done := map (fun _ => 0) (obs s);
            metrics := [("ctrl", map (fun _ => - (1 # 10)) (obs s));
                        ("forward", map (fun _ => 1) (obs s))];
            info := [("truncation", map (fun _ => 0) (obs s))];
            info_eval_metrics := info_eval_metrics s |};
       observation_size := 1;
       env_action_size := 1 |}.

  (** The policy head returns the observation; each critic of the
      ensemble of two adds its first parameter to the observation. *)
Definition sac_network : SACNetworks :=
    {| policy_network_init := fun key => [[inject_Z (snd key)]];
       policy_network_apply := fun n p o => o;
       q_network_init := fun key => [[inject_Z (snd key)]];
       q_network_apply := fun n p o a =>
         map (fun row => [sum row + sum (List.concat p);
                          sum row + sum (List.concat p) + 1]) o;
       parametric_action_distribution :=
         {| sample_no_postprocessing := fun d key => d;
            log_prob := fun d a => map (fun _ => - (1)) d;
            postprocess := fun a => a |} |}.

Definition shift (lr : Q) (p : Params) : Params := map (map (fun x => x - lr)) p.

Definition brax : Brax :=
    {| EpisodeWrapper := fun e _ _ => e;
       VmapWrapper := fun e => e;
       AutoResetWrapper := fun e => e;
       EvalWrapper := fun e => e;
       make_sac_networks := fun _ _ _ => sac_network;
       make_inference_fn := fun net params => fun o key => (map (fun _ => [0]) o, []);
       running_statistics_init_state := fun _ => [];
       running_statistics_update := fun n _ => n;
       adam := fun lr => {| learning_rate := lr |};
       optimizer_init_scalar := fun _ _ => [];
       optimizer_init_params := fun _ _ => [];
       optimizer_init_dict := fun _ _ => [];
       gradient_update_scalar := fun A loss opt p a s =>
         (v <- loss p a ;; ok (v, p - learning_rate opt, s))%result;
       gradient_update_params := fun A loss opt p a s =>
         (v <- loss p a ;; ok (v, shift (learning_rate opt) p, s))%result;
       gradient_update_dict := fun A loss opt p a s =>
         (v <- loss p a ;;
          ok (v, map (fun kv => (fst kv, shift (learning_rate opt) (snd kv))) p, s))%result;
       flatten_fn := fun t => observation t;
       unflatten_fn := fun dummy rows =>
         {| observation := rows;
            action := map (fun _ => [0]) rows;
            reward := map (fun _ => 0) rows;
            sub_rewards :=
              map (fun kv => (fst kv, map (fun _ => 0) rows)) (sub_rewards dummy);
            discount := map (fun _ => 1) rows;
            next_observation := rows;
            extras :=
              {| policy_extras := [];
                 state_extras := [("truncation", map (fun _ => 0) rows)] |} |};
       assert_is_replicated := fun _ => ok tt |}.

Definition world : World := {| calls := []; ticks := 0 |}.

  (** A small budget on two devices: 50 timesteps, a minimum replay size
      of 10, room for 64 transitions, 4 environments and 3 evaluations. *)
Definition config : Config :=
    with_budget (with_reward_dict get_config [("walker2d", reward_dict)])
                50 10 (Some 64%Z) 4 3.

Definition startup : Startup :=
    {| reward_dict_of := reward_dict;
       local_devices_to_use := 2;
       device_count := 2;
       max_replay_size_of := 64;
       env_steps_per_actor_step := 4;
       num_prefill_actor_steps := 3;
       num_prefill_env_steps := 12;
       num_evals_after_init := 2;
       num_training_steps_per_epoch := 5 |}.

Definition dummy_transition : Transition :=
    {| observation := [[0]];
       action := [[0]];
       reward := [0];
       sub_rewards := [("ctrl", [1 # 10]); ("forward", [1])];
       discount := [0];
       next_observation := [[0]];
       extras := {| state_extras := [("truncation", [0])];
                    policy_extras := [] |} |}.

Definition replay_buffer : UniformSamplingQueue :=
    {| max_replay_size := 32;
       dummy_data_sample := dummy_transition;
       sample_batch_size := 128 |}.

Definition locals : TrainLocals :=
    train_locals (jax 2) brax config env startup replay_buffer.

Definition training_state : TrainingState :=
    {| policy_params := [[0]];
       policy_optimizer_state := [];
       sub_policy_params := [("ctrl", [[0]]); ("forward", [[0]])];
       sub_policy_optimizer_state := [];
       sub_q_params := [("ctrl", [[1]]); ("forward", [[2]])];
       sub_q_optimizer_state := [];
       sub_target_q_params := [("ctrl", [[1]]); ("forward", [[2]])];
       gradient_steps := 0;
       env_steps := 0;
       alpha_params := 0;
       alpha_optimizer_state := [];
       sub_alpha_params := [];
       sub_alpha_optimizer_state := [];
       normalizer_params := [] |}.

  (** A batch of two transitions; the first one is truncated. *)
Definition transitions : Transition :=
    {| observation := [[1]; [2]];
       action := [[0]; [0]];
       reward := [1; 1];
       sub_rewards := [("ctrl", [- (1 # 10); - (1 # 10)]); ("forward", [1; 1])];
       discount := [1; 1];
       next_observation := [[2]; [3]];
       extras := {| state_extras := [("truncation", [1; 0])];
                    policy_extras := [] |} |}.

Definition key : PRNGKey := (0%Z, 0%Z).

Definition empty_buffer : ReplayBufferState :=
    {| data := repeat [0] 32;
       current_position := 0;
       current_size := 0;
       buffer_key := key |}.

Definition zeros : Dict Params := [("ctrl", [[0; 0]; [0]]); ("forward", [[0]])].
Definition ones : Dict Params := [("ctrl", [[1; 1]; [1]]); ("forward", [[1]])].

End Example.

(* ------------------------------------------------------------------ *)
(** ** Vocabulary of the statements *)

Unset Implicit Arguments.
Local Open Scope Z_scope.

(** The exceptions the statements name. *)
Definition missing_sub_alpha : Exn :=
  TypeError "__init__() missing required argument: 'sub_alpha_params'".

Definition missing_reward_dict : Exn :=
  TypeError "actor_step() missing required argument: 'reward_dict'".

Definition no_train_error : Exn :=
  ValueError "No train will happen because min_replay_size >= num_timesteps".

Definition not_divisible_error : Exn :=
  AssertionError "num_envs % device_count == 0".


(** The calls one [sgd_step] makes when its four updates return. *)
Definition sgd_step_calls (ts : TrainingState) : list Event :=
  [Call_alpha_update (alpha_params ts) (policy_params ts);
   Call_sub_q_update (sub_q_params ts) (sub_policy_params ts)
                     (sub_target_q_params ts);
   Call_sub_policy_update (sub_policy_params ts) (sub_q_params ts);
   Call_policy_update (policy_params ts) (sub_q_params ts)].

(** [w] after more calls. *)
Definition with_call (w : World) (evs : list Event) : World :=
  {| calls := calls w ++ evs; ticks := ticks w |}.

(** The calls of one replica during a prefill of [n] iterations on a
    batch of [b] environments. *)
Definition prefill_events (b n : nat) : list Event :=
  List.concat (repeat [Call_env_step; Call_buffer_insert b] n).

Definition count (p : Event -> bool) (l : list Event) : nat :=
  List.length (filter p l).

(** The environment reports the truncation flag and every sub-reward
    after each step, keeps its batch size, and the buffer stores one row
    per transition of a batch. *)
Definition well_formed (brax : Brax) (env : Env) (reward_dict : Dict Q) : Prop :=
  (forall s a, dict_get "truncation" (info (step env s a)) <> None) /\
  (forall s a k, In k (keys reward_dict) ->
                 dict_get k (metrics (step env s a)) <> None) /\
  (forall s a, List.length (obs (step env s a)) = List.length (obs s)) /\
  (forall t, List.length (flatten_fn brax t) = List.length (observation t)).

(** A replica ready for the prefill, and what the prefill makes of it. *)
Definition prefill_ready (b : nat) (cap : Z)
           (a : TrainingState * EnvState * ReplayBufferState * PRNGKey) : Prop :=
  List.length (obs (snd (fst (fst a)))) = b /\
  0 <= current_size (snd (fst a)) <= cap.

Definition prefill_done (n : Z) (b : nat) (cap : Z)
           (a o : TrainingState * EnvState * ReplayBufferState * PRNGKey) : Prop :=
  gradient_steps (fst (fst (fst o))) = gradient_steps (fst (fst (fst a))) /\
  current_size (snd (fst o)) =
    Z.min (current_size (snd (fst a)) + n * Z.of_nat b) cap.

(** The parameters under a key have the shape of those [t2] has under
    that key. *)
Definition shaped_like (t2 : Dict Params) (kv : string * Params) : bool :=
  match dict_get (fst kv) t2 with
  | Some p2 => shape_eqb (shape (snd kv)) (shape p2)
  | None => false
  end.

(** Equality of two parameter trees: the same keys in the same order,
    and under each key the same arrays. *)
Fixpoint list_eqb {X} (eqb : X -> X -> bool) (l1 l2 : list X) : bool :=
  match l1, l2 with
  | [], [] => true
  | x :: l1', y :: l2' => eqb x y && list_eqb eqb l1' l2'
  | _, _ => false
  end.

Definition tree_eqb (t1 t2 : Dict Params) : bool :=
  list_eqb (fun a b => String.eqb (fst a) (fst b)
                       && list_eqb (list_eqb Qeq_bool) (snd a) (snd b))
           t1 t2.

(** A shared-policy update that does nothing but report, in the
    exception it raises, which sub-Q parameters it is given: those of
    [previous], or others. *)
Definition reporting_policy_update (previous : Dict Params)
  : Params -> PolicyArgs -> OptState -> Result (Q * Params * OptState) :=
  fun _ args _ =>
    let '(_, sub_q_params, _, _, _) := args in
    if tree_eqb sub_q_params previous
    then throw (ValueError "policy_update is given the previous sub_q_params")
    else throw (ValueError "policy_update is given other sub_q_params").

(** [locals] with another [policy_update]. *)
Definition with_policy_update (locals : TrainLocals)
           (policy_update : Params -> PolicyArgs -> OptState ->
                            Result (Q * Params * OptState)) : TrainLocals :=
  {| l_env := l_env locals;
     l_reward_dict := l_reward_dict locals;
     l_tau := l_tau locals;
     l_grad_updates_per_step := l_grad_updates_per_step locals;
     l_env_steps_per_actor_step := l_env_steps_per_actor_step locals;
     l_num_prefill_actor_steps := l_num_prefill_actor_steps locals;
     l_num_training_steps_per_epoch := l_num_training_steps_per_epoch locals;
     l_make_policy := l_make_policy locals;
     l_replay_buffer := l_replay_buffer locals;
     l_alpha_update := l_alpha_update locals;
     l_sub_q_update := l_sub_q_update locals;
     l_sub_policy_update := l_sub_policy_update locals;
     l_policy_update := policy_update;
     l_process_id := l_process_id locals;
     l_local_devices_to_use := l_local_devices_to_use locals;
     l_num_timesteps := l_num_timesteps locals;
     l_min_replay_size := l_min_replay_size locals;
     l_num_evals_after_init := l_num_evals_after_init locals |}.

(* ------------------------------------------------------------------ *)
(** ** sac/train.py: the reset keys of the environments *)

(** [train], "Env init": [num_envs // process_count] keys split off
    [env_key], reshaped so that each local device gets its share. *)
Definition train_env_keys (jax : Jax) (cfg : Config) (startup : Startup)
           (env_key : PRNGKey) : Result (list (list PRNGKey)) :=
  (let num_envs := NUM_ENVS cfg in
   let local_devices_to_use := local_devices_to_use startup in
   n <- floordiv num_envs (process_count jax) ;;
   let env_keys := random_splits jax env_key (Z.to_nat n) in
   reshape_leading local_devices_to_use env_keys)%result.

(* ------------------------------------------------------------------ *)
(** ** More vocabulary of the statements *)

(** Every array of [t] has [n] entries along its leading (batch) axis. *)
Definition batch_shaped (n : nat) (t : Transition) : Prop :=
  List.length (observation t) = n /\
  List.length (action t) = n /\
  List.length (reward t) = n /\
  Forall (fun kv => List.length (snd kv) = n) (sub_rewards t) /\
  List.length (discount t) = n /\
  List.length (next_observation t) = n /\
  Forall (fun kv => List.length (snd kv) = n) (policy_extras (extras t)) /\
  Forall (fun kv => List.length (snd kv) = n) (state_extras (extras t)).

(** The array a dict of arrays holds under [k], empty when it has none. *)
Definition entry {X} (k : string) (d : Dict (list X)) : list X :=
  match dict_get k d with
  | Some a => a
  | None => []
  end.

(** A configuration with its batch size and its number of gradient
    updates per step replaced. *)
Definition with_batch (cfg : Config) (batch_size grad_updates_per_step : Z)
  : Config :=
  {| SEED := SEED cfg;
     ENV_NAME := ENV_NAME cfg;
     REWARD_DICT := REWARD_DICT cfg;
     NUM_TIMESTEPS := NUM_TIMESTEPS cfg;
     EPISODE_LENGTH := EPISODE_LENGTH cfg;
     ACTION_REPEAT := ACTION_REPEAT cfg;
     NUM_ENVS := NUM_ENVS cfg;
     NUM_EVAL_ENVS := NUM_EVAL_ENVS cfg;
     LEARNING_RATE := LEARNING_RATE cfg;
     DISCOUNTING := DISCOUNTING cfg;
     BATCH_SIZE := batch_size;
     NUM_EVALS := NUM_EVALS cfg;
     NORMALIZE_OBSERVATIONS := NORMALIZE_OBSERVATIONS cfg;
     MAX_DEVICES_PER_HOST := MAX_DEVICES_PER_HOST cfg;
     REWARD_SCALING := REWARD_SCALING cfg;
     TAU := TAU cfg;
     MIN_REPLAY_SIZE := MIN_REPLAY_SIZE cfg;
     MAX_REPLAY_SIZE := MAX_REPLAY_SIZE cfg;
     GRAD_UPDATES_PER_STEP := grad_updates_per_step |}.

(** A batch of four transitions of the example environment. *)
Definition four_transitions : Transition :=
  {| observation := [[1]; [2]; [3]; [4]];
     action := [[0]; [0]; [0]; [0]];
     reward := [1; 1; 1; 1];
     sub_rewards := [("ctrl", [- (1 # 10); - (1 # 10); - (1 # 10); - (1 # 10)]);
                     ("forward", [1; 1; 1; 1])];
     discount := [1; 1; 1; 1];
     next_observation := [[2]; [3]; [4]; [5]];
     extras := {| state_extras := [("truncation", [0; 0; 0; 0])];
                  policy_extras := [] |} |}%Q.

(** The dict [d] does not have the key set of [ref]: it has another
    number of keys, or lacks one of the keys of [ref]. *)
Definition keys_differ {V W} (d : Dict V) (ref : Dict W) : Prop :=
  List.length d <> List.length ref \/
  exists k, In k (keys ref) /\ dict_get k d = None.

(** [transitions._replace(reward=r)]: the same batch with another total
    reward. *)
Definition with_reward (t : Transition) (r : Array) : Transition :=
  {| observation := observation t;
     action := action t;
     reward := r;
     sub_rewards := sub_rewards t;
     discount := discount t;
     next_observation := next_observation t;
     extras := extras t |}.

(* ------------------------------------------------------------------ *)
(** ** config/defaults.py and config/debug.py as configuration trees

    [ml_collections.ConfigDict] is a library class: a mutable tree of
    fields.  Reading an attribute that is no field raises
    [AttributeError]; an assignment to a name that is no field adds the
    field; an assignment to a field goes through the type check of the
    library, which is a collaborator here ([safe_cast]).  The module
    config/defaults.py owns one such tree, [_C], and hands out references
    to it: the tree is the store the statements below run on. *)

Unset Elimination Schemes.
Inductive ConfigValue : Type :=
| CNone
| CBool (b : bool)
| CInt (z : Z)
| CFloat (q : Q)
| CStr (s : string)
| CNode (fields : list (string * ConfigValue)).
Set Elimination Schemes.

Record MLCollections : Type := {
  (** [safe_cast old new] is the value stored when [new] is assigned to
      a field that holds [old], or the [TypeError] of the type check *)
  safe_cast : ConfigValue -> ConfigValue -> Result ConfigValue
}.

(** [c.name]. *)
Definition config_getattr (c : ConfigValue) (name : string) : Result ConfigValue :=
  match c with
  | CNode fields =>
      match dict_get name fields with
      | Some v => ok v
      | None => throw (AttributeError name)
      end
  | _ => throw (AttributeError name)
  end.

(** [c.name = v] on the node [c]; the result is the node after the
    assignment. *)
Definition config_setattr (ml : MLCollections) (c : ConfigValue) (name : string)
           (v : ConfigValue) : Result ConfigValue :=
  match c with
  | CNode fields =>
      match dict_get name fields with
      | Some old =>
          (v' <- safe_cast ml old v ;; ok (CNode (dict_set name v' fields)))%result
      | None => ok (CNode (dict_set name v fields))
      end
  | _ => throw (AttributeError name)
  end.

(** [c.a1.a2.....name = v]: the attributes of [path] are read one after
    the other, the last node is assigned to, and since the nodes are
    shared objects the assignment shows in [c]. *)
Fixpoint config_assign (ml : MLCollections) (path : list string) (name : string)
         (v : ConfigValue) (c : ConfigValue) : Result ConfigValue :=
  match path with
  | [] => config_setattr ml c name v
  | a :: path' =>
      (child <- config_getattr c a ;;
       child' <- config_assign ml path' name v child ;;
       match c with
       | CNode fields => ok (CNode (dict_set a child' fields))
       | _ => throw (AttributeError a)
       end)%result
  end.

(** A sequence of assignment statements run on the store: the first
    exception stops it, and the store keeps what was assigned before. *)
Fixpoint run_assignments (ml : MLCollections)
         (stmts : list (list string * string * ConfigValue)) (store : ConfigValue)
  : Result unit * ConfigValue :=
  match stmts with
  | [] => (ok tt, store)
  | (path, name, v) :: rest =>
      match config_assign ml path name v store with
      | inl e => (inl e, store)
      | inr store' => run_assignments ml rest store'
      end
  end.

(** config/defaults.py, the module body: [_C] and its fields. *)
Definition defaults_module (ml : MLCollections) : Result unit * ConfigValue :=
  run_assignments ml
    [([], "EXP_NAME", CStr EmptyString);
     ([], "SEED", CInt 0);
     ([], "WANDB", CBool true);
     ([], "DEBUG", CBool false);
     ([], "MOCK_TPU", CBool false);
     ([], "ENV", CNode []);
     (["ENV"], "ENV_NAME", CStr "walker2d");
     ([], "TRAIN", CNode []);
     (["TRAIN"], "NUM_TIMESTEPS", CInt 50000000);
     (["TRAIN"], "EPISODE_LENGTH", CInt 1000);
     (["TRAIN"], "ACTION_REPEAT", CInt 1);
     (["TRAIN"], "NUM_ENVS", CInt 32);
     (["TRAIN"], "NUM_EVAL_ENVS", CInt 32);
     (["TRAIN"], "LEARNING_RATE", CFloat (1 # 10000));
     (["TRAIN"], "DISCOUNTING", CFloat (98 # 100));
     (["TRAIN"], "BATCH_SIZE", CInt 256);
     (["TRAIN"], "NUM_EVALS", CInt 10);
     (["TRAIN"], "NORMALIZE_OBSERVATIONS", CBool true);
     (["TRAIN"], "MAX_DEVICES_PER_HOST", CNone);
     (["TRAIN"], "REWARD_SCALING", CFloat (1 # 10));
     (["TRAIN"], "TAU", CFloat (5 # 1000));
     (["TRAIN"], "MIN_REPLAY_SIZE", CInt 8192);
     (["TRAIN"], "MAX_REPLAY_SIZE", CInt 1048576);
     (["TRAIN"], "GRAD_UPDATES_PER_STEP", CInt 1)]
    (CNode []).

(** [defaults.get_config()]: a reference to [_C], not a copy. *)
Definition defaults_get_config (store : ConfigValue) : Result ConfigValue * ConfigValue :=
  (ok store, store).

(** [debug.get_config()]: its [_C] is the tree of config/defaults.py. *)
Definition debug_get_config (ml : MLCollections) (store : ConfigValue)
  : Result ConfigValue * ConfigValue :=
  match defaults_get_config store with
  | (inl e, store) => (inl e, store)
  | (inr _C, store) =>
      match
        run_assignments ml
          [([], "DEBUG", CBool true);
           (* mocks 8 tpu devices on cpu *)
           ([], "MOCK_TPU", CBool false);
           ([], "WANDB", CBool false);
           (["EBM"], "ARCH", CStr "arch1");
           (["ENV"], "ENV_NAME", CStr "binary");
           (["SAMPLER"], "SAMPLER_NAME", CStr "binary");
           (["TRAIN"; "EBM"], "BATCH_SIZE", CInt 64);
           (["TRAIN"; "EBM"], "EVAL_BATCH_SIZE", CInt 32);
           (["TRAIN"; "EBM"], "NUM_EPOCHS", CInt 20);
           (["TRAIN"; "EBM"], "LOG_FREQUENCY", CInt 20);
           (["TRAIN"; "EBM"], "LEARNING_RATE", CFloat (1 # 1000000))]
          store
      with
      | (inl e, store) => (inl e, store)
      | (inr _, store) => (ok store, store)
      end
  end.

(** A type check that lets a value replace one of its own kind. *)
Definition same_kind_cast (old new : ConfigValue) : Result ConfigValue :=
  match old, new with
  | CNone, _ | _, CNone => ok new
  | CBool _, CBool _ | CInt _, CInt _ | CFloat _, CFloat _
  | CStr _, CStr _ | CNode _, CNode _ => ok new
  | CInt _, CBool _ => ok new
  | CFloat _, CInt z => ok (CFloat (inject_Z z))
  | _, _ => throw (TypeError "Could not override field")
  end.

(** The calls that set up networks, optimisers and the normaliser. *)
Definition is_network_setup (e : Event) : bool :=
  match e with
  | Call_network_init _ | Call_optimizer_init | Call_normalizer_init => true
  | _ => false
  end.

(* ================================================================== *)
(** * Properties *)

Local Open Scope list_scope.
Local Open Scope Q_scope.

Lemma rbind_ok {A B} (r : Result A) (k : A -> Result B) (b : B) :
  rbind r k = inr b -> exists a, r = inr a /\ k a = inr b.
Proof. destruct r as [e|a]; simpl; [discriminate | eauto]. Qed.

Ltac rbind_inv H :=
  let a := fresh "a" in
  let Ha := fresh "Ha" in
  apply rbind_ok in H; destruct H as (a & Ha & H).

Lemma map2_strict_nth {A B C} (f : A -> B -> Result C) :
  forall xs ys zs, map2_strict f xs ys = inr zs ->
  forall i x y, nth_error xs i = Some x -> nth_error ys i = Some y ->
  exists z, nth_error zs i = Some z /\ f x y = inr z.
Proof.
  induction xs as [|x0 xs IH]; intros [|y0 ys] zs H i x y Hx Hy;
    simpl in H; try discriminate.
  - destruct i; discriminate.
  - rbind_inv H. rbind_inv H. injection H as <-.
    destruct i as [|i]; simpl in *.
    + injection Hx as <-. injection Hy as <-. eauto.
    + eauto.
Qed.

Lemma map2_strict_length {A B C} (f : A -> B -> Result C) :
  forall xs ys zs, map2_strict f xs ys = inr zs ->
  List.length xs = List.length zs /\ List.length ys = List.length zs.
Proof.
  induction xs as [|x0 xs IH]; intros [|y0 ys] zs H; simpl in H; try discriminate.
  - injection H as <-. auto.
  - rbind_inv H. rbind_inv H. injection H as <-.
    destruct (IH _ _ Ha0). simpl. auto.
Qed.

Lemma map2_strict_total {A B C} (f : A -> B -> Result C) :
  forall xs ys, List.length xs = List.length ys ->
  (forall i x y, nth_error xs i = Some x -> nth_error ys i = Some y ->
                 exists z, f x y = inr z) ->
  exists zs, map2_strict f xs ys = inr zs.
Proof.
  induction xs as [|x0 xs IH]; intros [|y0 ys] Hlen Hf; simpl in *; try discriminate.
  - eauto.
  - destruct (Hf 0%nat x0 y0 eq_refl eq_refl) as [z Hz]. rewrite Hz. simpl.
    destruct (IH ys) as [zs Hzs].
    + lia.
    + intros i x y Hx Hy. apply (Hf (S i)); assumption.
    + rewrite Hzs. simpl. eauto.
Qed.

Lemma dict_zip_get {A B} (d1 : Dict A) (d2 : Dict B) z :
  dict_zip d1 d2 = inr z ->
  forall k, dict_get k z =
            match dict_get k d1, dict_get k d2 with
            | Some a, Some b => Some (a, b)
            | _, _ => None
            end.
Proof.
  unfold dict_zip. destruct (Nat.eqb _ _); [|discriminate].
  revert z. induction d1 as [|[k1 a1] d1 IH]; intros z H k; simpl in *.
  - injection H as <-. reflexivity.
  - rbind_inv H. rbind_inv H. injection H as <-.
    rbind_inv Ha. injection Ha as <-.
    unfold dict_index in Ha1. destruct (dict_get k1 d2) as [b1|] eqn:E; [|discriminate].
    injection Ha1 as <-. simpl.
    destruct (String.eqb_spec k k1) as [->|Hne].
    + rewrite E. reflexivity.
    + apply IH. assumption.
Qed.

Lemma dict_mapM_get {A B} (f : A -> Result B) (d : Dict A) z :
  dict_mapM f d = inr z ->
  forall k, match dict_get k d with
            | Some a => exists b, f a = inr b /\ dict_get k z = Some b
            | None => dict_get k z = None
            end.
Proof.
  unfold dict_mapM. revert z.
  induction d as [|[k1 a1] d IH]; intros z H k; simpl in *.
  - injection H as <-. reflexivity.
  - rbind_inv H. rbind_inv H. injection H as <-.
    rbind_inv Ha. injection Ha as <-. simpl.
    destruct (String.eqb_spec k k1) as [->|Hne].
    + eauto.
    + apply IH. assumption.
Qed.

Lemma map2_strict_nth_error {A B C} (f : A -> B -> Result C) :
  forall xs ys zs, map2_strict f xs ys = inr zs ->
  forall i, match nth_error xs i, nth_error ys i with
            | Some x, Some y => exists z, f x y = inr z /\ nth_error zs i = Some z
            | _, _ => nth_error zs i = None
            end.
Proof.
  induction xs as [|x0 xs IH]; intros [|y0 ys] zs H i; simpl in H; try discriminate.
  - injection H as <-. destruct i; reflexivity.
  - rbind_inv H. rbind_inv H. injection H as <-.
    destruct i as [|i]; simpl.
    + eauto.
    + apply IH. assumption.
Qed.

Lemma map2_strict_inv {A B C} (f : A -> B -> Result C) :
  forall xs ys zs, map2_strict f xs ys = inr zs ->
  forall i z, nth_error zs i = Some z ->
  exists x y, nth_error xs i = Some x /\ nth_error ys i = Some y /\ f x y = inr z.
Proof.
  induction xs as [|x0 xs IH]; intros [|y0 ys] zs H i z Hz; simpl in H; try discriminate.
  - injection H as <-. destruct i; discriminate.
  - rbind_inv H. rbind_inv H. injection H as <-.
    destruct i as [|i]; simpl in *.
    + injection Hz as <-. eauto.
    + eauto.
Qed.

Lemma element_tree_map2 (f : Q -> Q -> Q) t1 t2 t' :
  tree_map2 f t1 t2 = inr t' ->
  forall k i j,
    element t' k i j =
    match element t1 k i j, element t2 k i j with
    | Some x, Some y => Some (f x y)
    | _, _ => None
    end.
Proof.
  unfold tree_map2. intros H k i j. rbind_inv H.
  unfold element.
  pose proof (dict_mapM_get _ _ _ H k) as Hm.
  rewrite (dict_zip_get _ _ _ Ha k) in Hm.
  destruct (dict_get k t1) as [p|]; [|rewrite Hm; reflexivity].
  destruct (dict_get k t2) as [q|];
    [|rewrite Hm; destruct (nth_error p i) as [a0|];
      [destruct (nth_error a0 j)|]; reflexivity].
  destruct Hm as (r & E & ->). simpl in E. unfold params_map2 in E.
  pose proof (map2_strict_nth_error _ _ _ _ E i) as Hi.
  destruct (nth_error p i) as [a1|]; [|rewrite Hi; reflexivity].
  destruct (nth_error q i) as [a2|];
    [|rewrite Hi; destruct (nth_error a1 j); reflexivity].
  destruct Hi as (r1 & E1 & ->). unfold array_map2 in E1.
  pose proof (map2_strict_nth_error _ _ _ _ E1 j) as Hj.
  destruct (nth_error a1 j) as [x|]; [|rewrite Hj; reflexivity].
  destruct (nth_error a2 j) as [y|]; [|rewrite Hj; reflexivity].
  destruct Hj as (z & Ez & ->). injection Ez as <-. reflexivity.
Qed.

Lemma array_map2_total (f : Q -> Q -> Q) :
  forall a b, List.length a = List.length b ->
  exists r, array_map2 f a b = inr r /\ List.length r = List.length b.
Proof.
  unfold array_map2.
  induction a as [|x a IH]; intros [|y b] Hlen; simpl in *; try discriminate.
  - eauto.
  - destruct (IH b) as (r & Hr & Hl); [lia|]. rewrite Hr. simpl.
    eexists; split; [reflexivity|]. simpl. lia.
Qed.

Lemma params_map2_total (f : Q -> Q -> Q) :
  forall p q, shape p = shape q ->
  exists r, params_map2 f p q = inr r /\ shape r = shape q.
Proof.
  unfold params_map2, shape.
  induction p as [|a p IH]; intros [|b q] Hs; simpl in *; try discriminate.
  - eauto.
  - injection Hs as Hab Hpq.
    destruct (array_map2_total f a b Hab) as (r0 & Hr0 & Hl0). rewrite Hr0. simpl.
    destruct (IH q Hpq) as (r & Hr & Hl). rewrite Hr. simpl.
    eexists; split; [reflexivity|]. simpl. congruence.
Qed.

Lemma shape_eqb_true s1 s2 : shape_eqb s1 s2 = true <-> s1 = s2.
Proof.
  unfold shape_eqb. destruct (list_eq_dec Nat.eq_dec s1 s2); split; congruence.
Qed.

Lemma tree_map2_items (f : Q -> Q -> Q) (t2 : Dict Params) :
  forall d1, forallb (shaped_like t2) d1 = true ->
  exists z t',
    sequence (map (fun kv => rbind (dict_index t2 (fst kv))
                                   (fun b => ok (fst kv, (snd kv, b)))) d1) = inr z /\
    dict_mapM (fun pq => params_map2 f (fst pq) (snd pq)) z = inr t' /\
    forallb (shaped_like t2) t' = true /\
    List.length t' = List.length d1.
Proof.
  induction d1 as [|[k p] d1 IH]; simpl; intros H.
  - exists [], []. auto.
  - apply andb_true_iff in H. destruct H as [Hk Hd].
    destruct (IH Hd) as (z & t' & Hz & Ht & Hf & Hl).
    unfold shaped_like in Hk. simpl in Hk.
    destruct (dict_get k t2) as [q|] eqn:E; [|discriminate].
    apply shape_eqb_true in Hk.
    destruct (params_map2_total f p q Hk) as (r & Hr & Hs).
    assert (Ei : dict_index t2 k = inr q) by (unfold dict_index; rewrite E; reflexivity).
    simpl. rewrite Ei. simpl. rewrite Hz. simpl.
    exists ((k, (p, q)) :: z), ((k, r) :: t').
    split; [reflexivity|].
    unfold dict_mapM in *. simpl. rewrite Hr. simpl. rewrite Ht. simpl.
    split; [reflexivity|]. split; [|lia].
    apply andb_true_iff. split; [|assumption].
    unfold shaped_like. simpl. rewrite E. apply shape_eqb_true. assumption.
Qed.

Lemma tree_map2_total (f : Q -> Q -> Q) (t1 t2 : Dict Params) :
  same_shape t1 t2 = true ->
  exists t', tree_map2 f t1 t2 = inr t' /\ same_shape t' t2 = true.
Proof.
  unfold same_shape. intros H. apply andb_true_iff in H. destruct H as [Hl Hf].
  destruct (tree_map2_items f t2 t1 Hf) as (z & t' & Hz & Ht & Hf' & Hl').
  exists t'. unfold tree_map2, dict_zip. rewrite Hl. rewrite Hz. simpl.
  split; [assumption|]. apply andb_true_iff. split; [|assumption].
  apply Nat.eqb_eq in Hl. apply Nat.eqb_eq. lia.
Qed.

Lemma polyak_iter_total tau target sub_q :
  same_shape target sub_q = true ->
  forall n, exists tn, polyak_iter tau n target sub_q = inr tn /\ same_shape tn sub_q = true.
Proof.
  intros H. induction n as [|n (tn & Hn & Hs)]; simpl.
  - eauto.
  - rewrite Hn. simpl. apply tree_map2_total. assumption.
Qed.

Lemma polyak_step_between (tau x y : Q) :
  0 < tau -> tau < 1 ->
  (x <= y -> x <= x * (1 - tau) + y * tau /\ x * (1 - tau) + y * tau <= y) /\
  (y <= x -> y <= x * (1 - tau) + y * tau /\ x * (1 - tau) + y * tau <= x).
Proof.
  intros H0 H1. split; intros Hxy; split; nra.
Qed.

(** Claim C5.  The target update gives, at every key, leaf and index,
    [(1 - tau) * target + tau * sub_q] (so 0.1 from 0, 1 and [tau = 0.1]);
    on trees of the same shape it is defined, any number of times over;
    and for [0 < tau < 1] each update against the same [sub_q] shrinks the
    distance to [sub_q] by the factor [1 - tau], moving every element
    toward [sub_q] and never past it. *)
Theorem polyak_target_update (tau : Q) (target sub_q : Dict Params) :
  (forall t', polyak tau target sub_q = ok t' ->
     forall k i j x y,
       element target k i j = Some x -> element sub_q k i j = Some y ->
       exists z, element t' k i j = Some z /\ z == (1 - tau) * x + tau * y /\
                 (tau == 1 # 10 -> x == 0 -> y == 1 -> z == 1 # 10))
  /\ (same_shape target sub_q = true ->
      forall n, exists tn, polyak_iter tau n target sub_q = ok tn /\
                           same_shape tn sub_q = true)
  /\ (0 < tau -> tau < 1 ->
      forall n tn tn',
        polyak_iter tau n target sub_q = ok tn ->
        polyak_iter tau (S n) target sub_q = ok tn' ->
        forall k i j x y,
          element tn k i j = Some x -> element sub_q k i j = Some y ->
          exists x', element tn' k i j = Some x' /\
                     x' - y == (1 - tau) * (x - y) /\
                     (x <= y -> x <= x' /\ x' <= y) /\
                     (y <= x -> y <= x' /\ x' <= x)).
Proof.
  split; [|split].
  - intros t' H k i j x y Hx Hy. unfold polyak in H.
    rewrite (element_tree_map2 _ _ _ _ H k i j), Hx, Hy.
    eexists; split; [reflexivity|]. split; [ring|].
    intros -> -> ->. reflexivity.
  - apply polyak_iter_total.
  - intros H0 H1 n tn tn' Hn Hn' k i j x y Hx Hy.
    simpl in Hn'. rewrite Hn in Hn'. simpl in Hn'. unfold polyak in Hn'.
    rewrite (element_tree_map2 _ _ _ _ Hn' k i j), Hx, Hy.
    eexists; split; [reflexivity|]. split; [ring|].
    apply polyak_step_between; assumption.
Qed.

Lemma masked_row_truncated (tq t : Q) (q_old : Array) :
  t == 1 ->
  Forall (fun e => e == 0) (map (fun q => (q - tq) * (1 - t)) q_old) /\
  sum (map square (map (fun q => (q - tq) * (1 - t)) q_old)) == 0.
Proof.
  intros H1. split.
  - apply Forall_map. apply Forall_forall. intros q _. rewrite H1. ring.
  - induction q_old as [|q q_old IH]; simpl; [reflexivity|].
    unfold sum in IH. rewrite IH. unfold square. rewrite H1. ring.
Qed.

Lemma masked_row_kept (tq t : Q) (q_old : Array) :
  t == 0 ->
  Forall2 (fun e q => e == q - tq /\ (square e == 0 <-> q == tq))
          (map (fun q => (q - tq) * (1 - t)) q_old) q_old.
Proof.
  intros H0. induction q_old as [|q q_old IH]; simpl; constructor; [|assumption].
  split.
  - rewrite H0. ring.
  - unfold square. rewrite H0. split; intros Hq.
    + assert (Hz : (q - tq) * (q - tq) == 0) by (rewrite <- Hq; ring).
      apply Qmult_integral in Hz. destruct Hz; lra.
    + rewrite Hq. ring.
Qed.

(** Claim C4.  In the per-key critic loss, the row of the masked TD error
    of transition [i] is [(q - target_q[i]) * (1 - truncation[i])] for the
    ensemble values [q] of that transition.  When the truncation flag is 1
    every entry of the row is 0, whatever the reward, the discount and the
    Q values, so the transition adds exactly 0 to the sum of squares the
    mean is taken of; when the flag is 0 the entries are the TD errors
    [q - target_q[i]], and the square of one is 0 only if [q] equals the
    target. *)
Theorem critic_loss_truncation_mask
        (sac_network : SACNetworks) (reward_scaling discounting : Q)
        (q_params policy_params : Params) (normalizer_params : Norm)
        (target_q_params : Params) (alpha : Q) (transitions : Transition)
        (reward : Array) (key : PRNGKey) (q_error : list Array) :
  _critic_q_error sac_network reward_scaling discounting q_params policy_params
                  normalizer_params target_q_params alpha transitions reward key
  = ok q_error ->
  exists target_q truncation,
    _critic_target_q sac_network reward_scaling discounting policy_params
                     normalizer_params target_q_params alpha transitions
                     reward key = ok target_q /\
    dict_get "truncation" (state_extras (extras transitions)) = Some truncation /\
    _critic_loss sac_network reward_scaling discounting q_params policy_params
                 normalizer_params target_q_params alpha transitions reward key
    = ok ((1 # 2) * mean (map square (List.concat q_error))) /\
    List.length q_error = List.length truncation /\
    forall i t, nth_error truncation i = Some t ->
      exists q_old tq row,
        nth_error (q_network_apply sac_network normalizer_params q_params
                     (observation transitions) (action transitions)) i
        = Some q_old /\
        nth_error target_q i = Some tq /\
        nth_error q_error i = Some row /\
        row = map (fun q => (q - tq) * (1 - t)) q_old /\
        (t == 1 -> Forall (fun e => e == 0) row /\ sum (map square row) == 0) /\
        (t == 0 -> Forall2 (fun e q => e == q - tq /\
                                       (square e == 0 <-> q == tq)) row q_old).
Proof.
  intros H. unfold _critic_loss. rewrite H. unfold _critic_q_error in H.
  rbind_inv H. rbind_inv H. rbind_inv H.
  unfold dict_index in Ha1.
  destruct (dict_get "truncation" _) as [truncation|] eqn:Et; [|discriminate].
  injection Ha1 as <-.
  exists a, truncation.
  split; [exact Ha|]. split; [reflexivity|]. split; [reflexivity|]. split.
  - destruct (map2_strict_length _ _ _ _ H). congruence.
  - intros i t Ht.
    destruct (map2_strict_length _ _ _ _ H) as [L1 L2].
    destruct (nth_error q_error i) as [row|] eqn:Erow.
    2:{ apply nth_error_None in Erow.
        assert (Hs : nth_error truncation i <> None) by congruence.
        apply nth_error_Some in Hs. lia. }
    destruct (map2_strict_inv _ _ _ _ H i row Erow) as (r0 & t' & E0 & Et' & Hrow).
    rewrite Ht in Et'. injection Et' as <-. injection Hrow as <-.
    destruct (map2_strict_inv _ _ _ _ Ha0 i r0 E0) as (q_old & tq & Eq & Etq & Hr0).
    injection Hr0 as <-.
    exists q_old, tq, (map (fun e => e * (1 - t)) (map (fun q => q - tq) q_old)).
    split; [exact Eq|]. split; [exact Etq|]. split; [reflexivity|].
    rewrite map_map. split; [reflexivity|]. split.
    + apply masked_row_truncated.
    + apply masked_row_kept.
Qed.

Lemma bind_inr {A B} (m : M A) (k : A -> M B) w a w' :
  m w = (inr a, w') -> bind m k w = k a w'.
Proof. unfold bind. intros ->. reflexivity. Qed.

Lemma bind_inl {A B} (m : M A) (k : A -> M B) w e w' :
  m w = (inl e, w') -> bind m k w = (inl e, w').
Proof. unfold bind. intros ->. reflexivity. Qed.

Lemma bind_assoc {A B C} (m : M A) (k1 : A -> M B) (k2 : B -> M C) w :
  bind (bind m k1) k2 w = bind m (fun a => bind (k1 a) k2) w.
Proof. unfold bind. destruct (m w) as [[e|a] w1]; reflexivity. Qed.

Lemma bind_fails {A B} (m : M A) (k : A -> M B) w :
  (forall a w1, exists e w2, k a w1 = (inl e, w2)) ->
  exists e w', bind m k w = (inl e, w').
Proof.
  intros Hk. unfold bind. destruct (m w) as [[e|a] w1]; eauto.
Qed.

Lemma mapM_emit_ret {A B} (ev : A -> Event) (g : A -> B) (xs : list A) w :
  mapM (fun x => bind (emit (ev x)) (fun _ => ret (g x))) xs w =
  (inr (map g xs), {| calls := calls w ++ map ev xs; ticks := ticks w |}).
Proof.
  revert w. induction xs as [|x xs IH]; intros w; simpl.
  - unfold ret. rewrite app_nil_r. destruct w; reflexivity.
  - unfold bind at 1. unfold bind at 1. unfold emit at 1. unfold ret at 1.
    unfold bind at 1. rewrite IH. simpl. unfold ret. rewrite <- app_assoc. reflexivity.
Qed.

Lemma bind_emit {B} (e : Event) (k : unit -> M B) w :
  bind (emit e) k w = k tt {| calls := calls w ++ [e]; ticks := ticks w |}.
Proof. reflexivity. Qed.

Lemma bind_lift_ok {A B} (a : A) (k : A -> M B) w :
  bind (lift (inr a)) k w = k a w.
Proof. reflexivity. Qed.

Lemma bind_lift_err {A B} (e : Exn) (k : A -> M B) w :
  bind (lift (inl e)) k w = (inl e, w).
Proof. reflexivity. Qed.

Lemma init_training_state_fails jax brax key obs_size n net o1 o2 o3 o4 reward_dict w :
  exists w',
    _init_training_state jax brax key obs_size n net o1 o2 o3 o4 reward_dict w
    = (inl missing_sub_alpha, w').
Proof.
  unfold _init_training_state.
  rewrite !bind_emit.
  erewrite bind_inr
    by apply (mapM_emit_ret (fun kv => Call_network_init (snd kv))
                (fun kv => (fst kv, policy_network_init net (snd kv)))).
  rewrite !bind_emit.
  erewrite bind_inr
    by apply (mapM_emit_ret (fun kv => Call_network_init (snd kv))
                (fun kv => (fst kv, q_network_init net (snd kv)))).
  rewrite !bind_emit.
  eexists. reflexivity.
Qed.

Lemma sgd_step_run jax locals ts key tr w :
  exists e w' n,
    sgd_step jax locals (ts, key) tr w = (inl e, w') /\
    calls w' = calls w ++ firstn n (sgd_step_calls ts) /\
    ticks w' = ticks w /\
    (forall r1 r2 r3 r4,
        l_alpha_update locals (alpha_params ts)
          (policy_params ts, normalizer_params ts, tr, random_split jax key 5 1)
          (alpha_optimizer_state ts) = ok r1 ->
        l_sub_q_update locals (sub_q_params ts)
          (sub_policy_params ts, normalizer_params ts, sub_target_q_params ts,
           jnp_exp jax (alpha_params ts), tr, random_split jax key 5 2)
          (sub_q_optimizer_state ts) = ok r2 ->
        l_sub_policy_update locals (sub_policy_params ts)
          (normalizer_params ts, sub_q_params ts,
           jnp_exp jax (alpha_params ts), tr, random_split jax key 5 3)
          (sub_policy_optimizer_state ts) = ok r3 ->
        l_policy_update locals (policy_params ts)
          (normalizer_params ts, sub_q_params ts,
           jnp_exp jax (alpha_params ts), tr, random_split jax key 5 4)
          (policy_optimizer_state ts) = ok r4 ->
        n = 4%nat /\
        forall t', polyak (l_tau locals) (sub_target_q_params ts) (snd (fst r2)) = ok t' ->
                   e = missing_sub_alpha).
Proof.
  unfold sgd_step. cbv zeta. rewrite bind_emit.
  destruct (l_alpha_update locals _ _ _) as [e1|[[v1 p1] s1]] eqn:E1.
  { rewrite bind_lift_err. exists e1, {| calls := calls w ++ [Call_alpha_update (alpha_params ts) (policy_params ts)]; ticks := ticks w |}, 1%nat.
    repeat split; try reflexivity; intros; unfold ok in *; congruence. }
  rewrite bind_lift_ok. rewrite bind_emit.
  destruct (l_sub_q_update locals _ _ _) as [e2|[[v2 p2] s2]] eqn:E2.
  { rewrite bind_lift_err. eexists _, _, 2%nat. split; [reflexivity|]. simpl.
    rewrite <- app_assoc. repeat split; try reflexivity; intros; unfold ok in *; congruence. }
  rewrite bind_lift_ok. rewrite bind_emit.
  destruct (l_sub_policy_update locals _ _ _) as [e3|[[v3 p3] s3]] eqn:E3.
  { rewrite bind_lift_err. eexists _, _, 3%nat. split; [reflexivity|]. simpl.
    rewrite <- !app_assoc. repeat split; try reflexivity; intros; unfold ok in *; congruence. }
  rewrite bind_lift_ok. rewrite bind_emit.
  destruct (l_policy_update locals _ _ _) as [e4|[[v4 p4] s4]] eqn:E4.
  { rewrite bind_lift_err. eexists _, _, 4%nat. split; [reflexivity|]. simpl.
    rewrite <- !app_assoc. repeat split; try reflexivity; intros; unfold ok in *; congruence. }
  rewrite bind_lift_ok.
  destruct (polyak (l_tau locals) (sub_target_q_params ts) p2) as [e5|t'] eqn:E5.
  { rewrite bind_lift_err. eexists _, _, 4%nat. split; [reflexivity|]. simpl.
    rewrite <- !app_assoc. split; [reflexivity|]. split; [reflexivity|].
    intros r1 r2 r3 r4 _ H2 _ _. unfold ok in H2. injection H2 as <-. simpl.
    split; [reflexivity|].
    intros t' Ht'. rewrite E5 in Ht'. discriminate. }
  rewrite bind_lift_ok. cbn [TrainingState_init].
  eexists _, _, 4%nat. split; [reflexivity|]. simpl.
  rewrite <- !app_assoc. split; [reflexivity|]. split; [reflexivity|].
  intros. split; reflexivity.
Qed.

Lemma train_fails jax brax cfg env w :
  exists e w', train jax brax cfg env w = (inl e, w').
Proof.
  unfold train. cbv zeta.
  apply bind_fails. intros startup w1.
  apply bind_fails. intros replay_buffer w2.
  unfold random_split2. cbv beta iota zeta.
  match goal with
  | |- context [_init_training_state ?a ?b ?c ?d ?e ?f ?g ?h ?i ?j ?k] =>
      destruct (init_training_state_fails a b c d e f g h i j k w2) as [w' H]
  end.
  eexists _, _. apply bind_inl. exact H.
Qed.

Lemma actor_step_without_reward_dict env es policy key fields w :
  actor_step env es policy key None fields w = (inl missing_reward_dict, w).
Proof. reflexivity. Qed.

Lemma generate_unroll_fails jax env es policy key n fields w :
  generate_unroll jax env es policy key n fields w = (inl missing_reward_dict, w).
Proof. reflexivity. Qed.

Lemma run_evaluation_fails jax brax env f kw ev :
  Evaluator_init jax brax env f kw = ok ev ->
  forall pp tm w, exists e w', run_evaluation jax ev pp tm w = (inl e, w').
Proof.
  unfold Evaluator_init. intros H pp tm w.
  destruct (kw_unexpected kw); [|discriminate].
  rbind_inv H. rbind_inv H. rbind_inv H. rbind_inv H.
  unfold ok in H. injection H as <-.
  unfold run_evaluation, random_split2. cbn [_generate_eval_unroll].
  apply bind_fails. intros t w1.
  rewrite bind_assoc, bind_emit, bind_assoc.
  destruct (floordiv a0 a1) as [e|ul] eqn:E.
  - eexists _, _. rewrite bind_lift_err. reflexivity.
  - rewrite bind_lift_ok, bind_assoc.
    erewrite (bind_inl _ _ _ _ _ (generate_unroll_fails _ _ _ _ _ _ _ _)).
    eexists _, _. reflexivity.
Qed.

(** Claim C10.  [Evaluator.__init__] rejects the keyword [reward_dict]
    that [train] passes; [generate_unroll] calls [actor_step] without the
    required [reward_dict], so every call of [generate_unroll] raises
    [TypeError], whatever the unroll length and before any environment
    step; hence [run_evaluation] of any evaluator that could be
    constructed fails before it produces metrics. *)
Theorem evaluation_path_fails :
  (forall jax brax env f n l a k,
      Evaluator_init jax brax env f
        {| kw_num_eval_envs := n; kw_episode_length := l;
           kw_action_repeat := a; kw_key := k;
           kw_unexpected := ["reward_dict"%string] |}
      = throw (TypeError
                 "__init__() got an unexpected keyword argument 'reward_dict'"))
  /\ (forall env es policy key fields w,
        actor_step env es policy key None fields w
        = (inl (TypeError "actor_step() missing required argument: 'reward_dict'"), w))
  /\ (forall jax env es policy key n fields w,
        generate_unroll jax env es policy key n fields w
        = (inl (TypeError "actor_step() missing required argument: 'reward_dict'"), w))
  /\ (forall jax brax env f kw ev,
        Evaluator_init jax brax env f kw = ok ev ->
        forall pp tm w, exists e w', run_evaluation jax ev pp tm w = (inl e, w')).
Proof.
  split; [|split; [|split]].
  - reflexivity.
  - reflexivity.
  - reflexivity.
  - apply run_evaluation_fails.
Qed.

Lemma train_startup_error jax brax cfg env w e :
  train_startup jax cfg = throw e ->
  train jax brax cfg env w = (inl e, w).
Proof.
  intros H. unfold train. cbv zeta. rewrite H. reflexivity.
Qed.

Lemma train_startup_rejects jax cfg :
  (MIN_REPLAY_SIZE cfg >= NUM_TIMESTEPS cfg)%Z \/
  pymod (NUM_ENVS cfg) (snd (process_bookkeeping jax cfg)) <> ok 0%Z ->
  exists e, train_startup jax cfg = throw e.
Proof.
  intros Hbad. unfold train_startup. cbv zeta.
  destruct (REWARD_DICT cfg) as [d|]; [|eexists; reflexivity]. cbn [rbind ok].
  destruct (dict_index d (ENV_NAME cfg)) as [e|rd]; [eexists; reflexivity|].
  cbn [rbind]. destruct (process_bookkeeping jax cfg) as [ldu dc]. cbn [snd] in Hbad.
  destruct (MIN_REPLAY_SIZE cfg >=? NUM_TIMESTEPS cfg)%Z eqn:Hmin;
    [eexists; reflexivity|]. cbn [rbind ok].
  destruct (floordiv _ _) as [e|q1]; [eexists; reflexivity|]. cbn [rbind].
  destruct (assert _ _) as [e|[]]; [eexists; reflexivity|]. cbn [rbind].
  destruct (floordiv _ _) as [e|q2]; [eexists; reflexivity|]. cbn [rbind].
  destruct (pymod (NUM_ENVS cfg) dc) as [e|r] eqn:Hr; [eexists; reflexivity|].
  cbn [rbind]. destruct (r =? 0)%Z eqn:Hr0.
  - exfalso. apply Z.eqb_eq in Hr0. subst r. destruct Hbad as [Hb|Hb].
    + rewrite Z.geb_leb in Hmin. apply Z.leb_gt in Hmin. lia.
    + apply Hb. reflexivity.
  - eexists; reflexivity.
Qed.

Lemma train_startup_accepts jax cfg e :
  (MIN_REPLAY_SIZE cfg < NUM_TIMESTEPS cfg)%Z ->
  pymod (NUM_ENVS cfg) (snd (process_bookkeeping jax cfg)) = ok 0%Z ->
  train_startup jax cfg = throw e ->
  e <> no_train_error /\ e <> not_divisible_error.
Proof.
  intros Hlt Hdiv. unfold train_startup. cbv zeta.
  destruct (REWARD_DICT cfg) as [d|]; [|intros [= <-]; split; discriminate].
  cbn [rbind ok]. unfold dict_index.
  destruct (dict_get (ENV_NAME cfg) d) as [rd|]; [|intros [= <-]; split; discriminate].
  cbn [rbind ok]. destruct (process_bookkeeping jax cfg) as [ldu dc]. cbn [snd] in Hdiv.
  destruct (MIN_REPLAY_SIZE cfg >=? NUM_TIMESTEPS cfg)%Z eqn:Hmin.
  { rewrite Z.geb_leb in Hmin. apply Z.leb_le in Hmin. lia. }
  cbn [rbind ok]. unfold floordiv at 1.
  destruct (NUM_ENVS cfg =? 0)%Z; [intros [= <-]; split; discriminate|].
  cbn [rbind ok]. unfold assert at 1.
  destruct (_ >=? 0)%Z; [|intros [= <-]; split; discriminate].
  cbn [rbind ok]. unfold floordiv.
  destruct (_ =? 0)%Z; [intros [= <-]; split; discriminate|].
  cbn [rbind ok]. rewrite Hdiv. cbn. discriminate.
Qed.

Lemma train_error_cases jax brax cfg env w e w' :
  train jax brax cfg env w = (inl e, w') ->
  train_startup jax cfg = throw e \/ e = ZeroDivisionError \/ e = missing_sub_alpha.
Proof.
  unfold train. cbv zeta.
  destruct (train_startup jax cfg) as [e0|st]; [intros [= <- _]; auto|].
  rewrite bind_lift_ok.
  unfold train_replay_buffer. cbv zeta.
  unfold floordiv at 1. destruct (_ =? 0)%Z; [intros [= <- _]; auto|].
  cbn [rbind ok].
  unfold floordiv at 1. destruct (_ =? 0)%Z; [intros [= <- _]; auto|].
  cbn [rbind ok]. rewrite bind_lift_ok.
  unfold random_split2. cbv beta iota zeta.
  match goal with
  | |- context [_init_training_state ?a ?b ?c ?d ?e ?f ?g ?h ?i ?j ?k] =>
      destruct (init_training_state_fails a b c d e f g h i j k w) as [w1 H]
  end.
  erewrite bind_inl by exact H. intros [= <- _]. auto.
Qed.

Lemma train_startup_no_train jax cfg d rd :
  REWARD_DICT cfg = Some d -> dict_get (ENV_NAME cfg) d = Some rd ->
  (MIN_REPLAY_SIZE cfg >= NUM_TIMESTEPS cfg)%Z ->
  train_startup jax cfg = throw no_train_error.
Proof.
  intros Hd Hrd Hmin. unfold train_startup. cbv zeta.
  rewrite Hd. cbn [rbind ok]. unfold dict_index. rewrite Hrd. cbn [rbind ok].
  destruct (process_bookkeeping jax cfg) as [ldu dc].
  destruct (MIN_REPLAY_SIZE cfg >=? NUM_TIMESTEPS cfg)%Z eqn:E; [reflexivity|].
  rewrite Z.geb_leb in E. apply Z.leb_gt in E. lia.
Qed.

Lemma train_startup_not_divisible jax cfg d rd r :
  REWARD_DICT cfg = Some d -> dict_get (ENV_NAME cfg) d = Some rd ->
  (MIN_REPLAY_SIZE cfg < NUM_TIMESTEPS cfg)%Z ->
  (0 < NUM_ENVS cfg)%Z -> (0 < ACTION_REPEAT cfg)%Z ->
  (- (- MIN_REPLAY_SIZE cfg / NUM_ENVS cfg) * (ACTION_REPEAT cfg * NUM_ENVS cfg)
   <= NUM_TIMESTEPS cfg)%Z ->
  pymod (NUM_ENVS cfg) (snd (process_bookkeeping jax cfg)) = ok r -> r <> 0%Z ->
  train_startup jax cfg = throw not_divisible_error.
Proof.
  intros Hd Hrd Hmin Hn Ha Hp Hr Hr0. unfold train_startup. cbv zeta.
  rewrite Hd. cbn [rbind ok]. unfold dict_index. rewrite Hrd. cbn [rbind ok].
  destruct (process_bookkeeping jax cfg) as [ldu dc]. cbn [snd] in Hr.
  destruct (MIN_REPLAY_SIZE cfg >=? NUM_TIMESTEPS cfg)%Z eqn:E.
  { rewrite Z.geb_leb in E. apply Z.leb_le in E. lia. }
  cbn [rbind ok]. unfold floordiv at 1.
  destruct (NUM_ENVS cfg =? 0)%Z eqn:E0; [apply Z.eqb_eq in E0; lia|].
  cbn [rbind ok]. unfold assert at 1.
  destruct (_ >=? 0)%Z eqn:E1.
  2:{ rewrite Z.geb_leb in E1. apply Z.leb_gt in E1. lia. }
  cbn [rbind ok]. unfold floordiv.
  destruct (_ * _ =? 0)%Z eqn:E2; [apply Z.eqb_eq in E2; nia|].
  cbn [rbind ok]. rewrite Hr. cbn [rbind ok]. unfold assert.
  destruct (r =? 0)%Z eqn:E3; [apply Z.eqb_eq in E3; contradiction|].
  reflexivity.
Qed.

(** Claim C7.  When [min_replay_size >= num_timesteps], or when
    [num_envs % device_count] is not 0, [train] fails at startup and the
    world is unchanged: no collaborator was called, so no training state,
    environment state or buffer state was allocated.  With a reward
    decomposition configured the first failure is the [ValueError], and
    once the other startup checks pass the second is the [AssertionError].
    With [min_replay_size < num_timesteps] and [num_envs] divisible by the
    device count neither of the two is raised. *)
Theorem train_rejects_invalid_budget jax brax cfg env w :
  ((MIN_REPLAY_SIZE cfg >= NUM_TIMESTEPS cfg)%Z \/
   pymod (NUM_ENVS cfg) (snd (process_bookkeeping jax cfg)) <> ok 0%Z ->
   exists e, train_startup jax cfg = throw e /\
             train jax brax cfg env w = (inl e, w))
  /\ (forall d rd,
        REWARD_DICT cfg = Some d -> dict_get (ENV_NAME cfg) d = Some rd ->
        (MIN_REPLAY_SIZE cfg >= NUM_TIMESTEPS cfg)%Z ->
        train jax brax cfg env w =
        (inl (ValueError
                "No train will happen because min_replay_size >= num_timesteps"),
         w))
  /\ (forall d rd r,
        REWARD_DICT cfg = Some d -> dict_get (ENV_NAME cfg) d = Some rd ->
        (MIN_REPLAY_SIZE cfg < NUM_TIMESTEPS cfg)%Z ->
        (0 < NUM_ENVS cfg)%Z -> (0 < ACTION_REPEAT cfg)%Z ->
        (- (- MIN_REPLAY_SIZE cfg / NUM_ENVS cfg)
         * (ACTION_REPEAT cfg * NUM_ENVS cfg) <= NUM_TIMESTEPS cfg)%Z ->
        pymod (NUM_ENVS cfg) (snd (process_bookkeeping jax cfg)) = ok r ->
        r <> 0%Z ->
        train jax brax cfg env w =
        (inl (AssertionError "num_envs % device_count == 0"), w))
  /\ ((MIN_REPLAY_SIZE cfg < NUM_TIMESTEPS cfg)%Z ->
      pymod (NUM_ENVS cfg) (snd (process_bookkeeping jax cfg)) = ok 0%Z ->
      forall e w', train jax brax cfg env w = (inl e, w') ->
        e <> ValueError "No train will happen because min_replay_size >= num_timesteps" /\
        e <> AssertionError "num_envs % device_count == 0").
Proof.
  split; [|split; [|split]].
  - intros Hbad. destruct (train_startup_rejects jax cfg Hbad) as [e He].
    exists e. split; [exact He|]. apply train_startup_error. exact He.
  - intros d rd Hd Hrd Hmin. apply train_startup_error.
    exact (train_startup_no_train jax cfg d rd Hd Hrd Hmin).
  - intros d rd r Hd Hrd Hmin Hn Ha Hp Hr Hr0. apply train_startup_error.
    exact (train_startup_not_divisible jax cfg d rd r Hd Hrd Hmin Hn Ha Hp Hr Hr0).
  - intros Hlt Hdiv e w' H.
    destruct (train_error_cases _ _ _ _ _ _ _ H) as [Hs|[->| ->]].
    + apply (train_startup_accepts jax cfg e Hlt Hdiv Hs).
    + split; discriminate.
    + split; discriminate.
Qed.

(** Claim C9.  [TrainingState] is constructed without [sub_alpha_params]
    and [sub_alpha_optimizer_state], two fields that have no default: the
    construction raises [TypeError].  [_init_training_state] fails with it
    on every input, [sgd_step] never returns (and fails with it whenever
    its updates return), and [train] never returns a result: past the
    startup it stops with this [TypeError], unless the replay capacity
    divides by zero. *)
Theorem training_state_construction_fails :
  (forall a1 a2 a3 a4 a5 a6 a7 a8 a9 a10 a11 a14,
      TrainingState_init
        {| kw_policy_params := Some a1;
           kw_policy_optimizer_state := Some a2;
           kw_sub_policy_params := Some a3;
           kw_sub_policy_optimizer_state := Some a4;
           kw_sub_q_params := Some a5;
           kw_sub_q_optimizer_state := Some a6;
           kw_sub_target_q_params := Some a7;
           kw_gradient_steps := Some a8;
           kw_env_steps := Some a9;
           kw_alpha_params := Some a10;
           kw_alpha_optimizer_state := Some a11;
           kw_sub_alpha_params := None;
           kw_sub_alpha_optimizer_state := None;
           kw_normalizer_params := Some a14 |}
      = throw (TypeError "__init__() missing required argument: 'sub_alpha_params'"))
  /\ (forall jax brax key obs_size n net o1 o2 o3 o4 reward_dict w,
       exists w',
         _init_training_state jax brax key obs_size n net o1 o2 o3 o4 reward_dict w
         = (inl (TypeError "__init__() missing required argument: 'sub_alpha_params'"),
            w'))
  /\ (forall jax locals ts key transitions w,
       exists e w',
         sgd_step jax locals (ts, key) transitions w = (inl e, w') /\
         forall r1 r2 r3 r4 t',
           l_alpha_update locals (alpha_params ts)
             (policy_params ts, normalizer_params ts, transitions,
              random_split jax key 5 1)
             (alpha_optimizer_state ts) = ok r1 ->
           l_sub_q_update locals (sub_q_params ts)
             (sub_policy_params ts, normalizer_params ts, sub_target_q_params ts,
              jnp_exp jax (alpha_params ts), transitions, random_split jax key 5 2)
             (sub_q_optimizer_state ts) = ok r2 ->
           l_sub_policy_update locals (sub_policy_params ts)
             (normalizer_params ts, sub_q_params ts,
              jnp_exp jax (alpha_params ts), transitions, random_split jax key 5 3)
             (sub_policy_optimizer_state ts) = ok r3 ->
           l_policy_update locals (policy_params ts)
             (normalizer_params ts, sub_q_params ts,
              jnp_exp jax (alpha_params ts), transitions, random_split jax key 5 4)
             (policy_optimizer_state ts) = ok r4 ->
           polyak (l_tau locals) (sub_target_q_params ts) (snd (fst r2)) = ok t' ->
           e = TypeError "__init__() missing required argument: 'sub_alpha_params'")
  /\ (forall jax brax cfg env w,
       exists e w', train jax brax cfg env w = (inl e, w') /\
                    forall st, train_startup jax cfg = ok st ->
                               e = ZeroDivisionError \/
                               e = TypeError
                                     "__init__() missing required argument: 'sub_alpha_params'").
Proof.
  split; [|split; [|split]].
  - reflexivity.
  - intros. apply init_training_state_fails.
  - intros jax locals ts key tr w.
    destruct (sgd_step_run jax locals ts key tr w) as (e & w' & n & H & _ & _ & Hn).
    exists e, w'. split; [exact H|].
    intros r1 r2 r3 r4 t' H1 H2 H3 H4 H5.
    destruct (Hn r1 r2 r3 r4 H1 H2 H3 H4) as [_ He]. exact (He t' H5).
  - intros jax brax cfg env w.
    destruct (train_fails jax brax cfg env w) as (e & w' & H).
    exists e, w'. split; [exact H|]. intros st Hst.
    destruct (train_error_cases _ _ _ _ _ _ _ H) as [Hs|[->| ->]].
    + rewrite Hst in Hs. discriminate.
    + left; reflexivity.
    + right; reflexivity.
Qed.

Lemma training_state_construction_fails_witness :
  exists w',
    sgd_step (Example.jax 2) Example.locals (Example.training_state, Example.key)
             Example.transitions Example.world
    = (inl (TypeError "__init__() missing required argument: 'sub_alpha_params'"), w')
    /\ exists w'',
      train (Example.jax 2) Example.brax Example.config Example.env Example.world
      = (inl (TypeError "__init__() missing required argument: 'sub_alpha_params'"), w'').
Proof.
  destruct training_state_construction_fails as (_ & _ & H3 & H4).
  destruct (H3 (Example.jax 2) Example.locals Example.training_state Example.key
               Example.transitions Example.world) as (e & w' & Hrun & He).
  destruct (H4 (Example.jax 2) Example.brax Example.config Example.env Example.world)
    as (e2 & w2 & Hrun2 & He2).
  exists w'. split.
  - rewrite Hrun. f_equal. f_equal. eapply He; vm_compute; reflexivity.
  - exists w2. rewrite Hrun2. f_equal. f_equal.
    destruct (He2 Example.startup eq_refl) as [->| ->].
    + exfalso. vm_compute in Hrun2. discriminate.
    + reflexivity.
Defined.

Local Open Scope Z_scope.

Lemma train_startup_ok jax cfg st :
  train_startup jax cfg = ok st ->
  (exists d, REWARD_DICT cfg = Some d /\
             dict_get (ENV_NAME cfg) d = Some (reward_dict_of st)) /\
  (local_devices_to_use st, device_count st) = process_bookkeeping jax cfg /\
  MIN_REPLAY_SIZE cfg < NUM_TIMESTEPS cfg /\
  max_replay_size_of st =
    match MAX_REPLAY_SIZE cfg with Some m => m | None => NUM_TIMESTEPS cfg end /\
  env_steps_per_actor_step st = ACTION_REPEAT cfg * NUM_ENVS cfg /\
  NUM_ENVS cfg <> 0 /\
  num_prefill_actor_steps st = - (- MIN_REPLAY_SIZE cfg / NUM_ENVS cfg) /\
  num_prefill_env_steps st =
    num_prefill_actor_steps st * env_steps_per_actor_step st /\
  0 <= NUM_TIMESTEPS cfg - num_prefill_env_steps st /\
  num_evals_after_init st = Z.max (NUM_EVALS cfg - 1) 1 /\
  num_evals_after_init st * env_steps_per_actor_step st <> 0 /\
  num_training_steps_per_epoch st =
    - (- (NUM_TIMESTEPS cfg - num_prefill_env_steps st)
       / (num_evals_after_init st * env_steps_per_actor_step st)) /\
  device_count st <> 0 /\
  NUM_ENVS cfg mod device_count st = 0.
Proof.
  unfold train_startup. cbv zeta.
  destruct (REWARD_DICT cfg) as [d|]; [|discriminate]. cbn [rbind ok].
  unfold dict_index.
  destruct (dict_get (ENV_NAME cfg) d) as [rd|] eqn:Erd; [|discriminate].
  cbn [rbind ok].
  destruct (process_bookkeeping jax cfg) as [ldu dc].
  destruct (MIN_REPLAY_SIZE cfg >=? NUM_TIMESTEPS cfg) eqn:Hmin; [discriminate|].
  cbn [rbind ok]. unfold floordiv at 1.
  destruct (NUM_ENVS cfg =? 0) eqn:Hn; [discriminate|]. cbn [rbind ok].
  unfold assert at 1.
  destruct (_ >=? 0) eqn:Ha; [|discriminate]. cbn [rbind ok].
  unfold floordiv.
  destruct (_ * _ =? 0) eqn:Hd; [discriminate|]. cbn [rbind ok].
  unfold pymod. destruct (dc =? 0) eqn:Hdc; [discriminate|]. cbn [rbind ok].
  unfold assert. destruct (_ mod _ =? 0) eqn:Hr; [|discriminate]. cbn [rbind ok].
  intros [= <-]. cbn.
  rewrite Z.geb_leb in Hmin, Ha. apply Z.leb_gt in Hmin. apply Z.leb_le in Ha.
  apply Z.eqb_neq in Hn, Hd, Hdc. apply Z.eqb_eq in Hr.
  repeat split; try assumption; try reflexivity; try lia.
  exists d. auto.
Qed.

Lemma ceil_div_spec (x d : Z) :
  0 < d -> (- (- x / d) - 1) * d < x <= - (- x / d) * d.
Proof.
  intros Hd. pose proof (Z.div_mod (- x) d ltac:(lia)) as E.
  pose proof (Z.mod_pos_bound (- x) d Hd) as B. nia.
Qed.

(** A [for] loop over [range(n)] and a scan of length [n] run their body
    [n] times. *)
Lemma for_range_runs_body {S} (body : S -> M S) (ev : Event) (n : nat) :
  (forall s w, exists s', body s w = (inr s', with_call w [ev])) ->
  forall s w, exists s',
    for_range n body s w = (inr s', with_call w (repeat ev n)).
Proof.
  intros Hbody. induction n as [|n IH]; intros s w.
  - exists s. unfold with_call. cbn. rewrite app_nil_r. destruct w; reflexivity.
  - destruct (Hbody s w) as (s1 & H1). destruct (IH s1 (with_call w [ev])) as (s2 & H2).
    exists s2. cbn [for_range]. rewrite (bind_inr _ _ _ _ _ H1), H2.
    unfold with_call. cbn [calls ticks repeat]. rewrite <- app_assoc. reflexivity.
Qed.

Lemma scan_loop_runs_body {C Y} (f : C -> unit -> M (C * Y)) (ev : Event) (n : nat) :
  (forall c w, exists c' y, f c tt w = (inr (c', y), with_call w [ev])) ->
  forall c w, exists c' ys,
    scan_loop f c (repeat tt n) w = (inr (c', ys), with_call w (repeat ev n)) /\
    List.length ys = n.
Proof.
  intros Hf. induction n as [|n IH]; intros c w.
  - exists c, []. split; [|reflexivity].
    unfold with_call. cbn. rewrite app_nil_r. destruct w; reflexivity.
  - destruct (Hf c w) as (c1 & y & H1).
    destruct (IH c1 (with_call w [ev])) as (c2 & ys & H2 & Hl).
    exists c2, (y :: ys). split; [|cbn; congruence].
    cbn [repeat scan_loop]. rewrite (bind_inr _ _ _ _ _ H1).
    rewrite (bind_inr _ _ _ _ _ H2). unfold ret, with_call.
    cbn [calls ticks repeat]. rewrite <- app_assoc. reflexivity.
Qed.

Lemma lax_scan_length_runs_body {C Y} (f : C -> unit -> M (C * Y)) (ev : Event)
      (n : nat) :
  (forall c w, exists c' y, f c tt w = (inr (c', y), with_call w [ev])) ->
  forall c w, exists c' ys,
    lax_scan_length f c n w = (inr (c', ys), with_call w (repeat ev n)) /\
    List.length ys = n.
Proof.
  intros Hf c w. unfold lax_scan_length, lax_scan.
  destruct (Hf c w) as (c1 & y & H1).
  assert (Hs : staged (f c tt) w = (inr tt, w)).
  { unfold staged. rewrite H1. reflexivity. }
  rewrite (bind_inr _ _ _ _ _ Hs). apply (scan_loop_runs_body f ev n Hf).
Qed.



Lemma sequence_dict_index {V} (m : Dict V) (ks : list string) :
  (forall k, In k ks -> dict_get k m <> None) ->
  exists l, sequence (map (fun k => rbind (dict_index m k) (fun v => ok (k, v))) ks)
            = inr l.
Proof.
  induction ks as [|k ks IH]; intros H; simpl.
  - eauto.
  - unfold dict_index at 1. destruct (dict_get k m) as [v|] eqn:E.
    + simpl. destruct IH as [l Hl]; [intros; apply H; right; assumption|].
      rewrite Hl. simpl. eauto.
    + exfalso. apply (H k); [left; reflexivity|assumption].
Qed.

Lemma with_call_app w e1 e2 : with_call (with_call w e1) e2 = with_call w (e1 ++ e2).
Proof. unfold with_call. simpl. rewrite app_assoc. reflexivity. Qed.

Lemma with_call_nil w : with_call w [] = w.
Proof. unfold with_call. rewrite app_nil_r. destruct w; reflexivity. Qed.

Lemma actor_step_ok brax env rd es policy key w :
  well_formed brax env rd ->
  exists tr,
    actor_step env es policy key (Some rd) (Some ["truncation"%string]) w
    = (inr (step env es (fst (policy (obs es) key)), tr),
       with_call w [Call_env_step]) /\
    observation tr = obs es.
Proof.
  intros (Ht & Hm & _ & _). unfold actor_step.
  cbn [required]. rewrite bind_lift_ok.
  destruct (policy (obs es) key) as [actions policy_extras]. cbn [fst].
  rewrite bind_emit.
  destruct (sequence_dict_index (info (step env es actions)) ["truncation"%string])
    as [l1 H1].
  { intros k [<-|[]]. apply Ht. }
  rewrite H1, bind_lift_ok.
  destruct (sequence_dict_index (metrics (step env es actions)) (keys rd))
    as [l2 H2].
  { intros k Hk. apply Hm. exact Hk. }
  rewrite H2, bind_lift_ok.
  eexists. split; reflexivity.
Qed.

Lemma replay_buffer_insert_ok brax rb bs tr w :
  0 < max_replay_size rb ->
  Z.of_nat (List.length (flatten_fn brax tr)) <= max_replay_size rb ->
  exists bs',
    replay_buffer_insert brax rb bs tr w
    = (inr bs', with_call w [Call_buffer_insert (List.length (flatten_fn brax tr))]) /\
    current_size bs' =
      Z.min (current_size bs + Z.of_nat (List.length (flatten_fn brax tr)))
            (max_replay_size rb).
Proof.
  intros Hc Hn. unfold replay_buffer_insert. rewrite bind_emit.
  destruct (max_replay_size rb <? _) eqn:E.
  { apply Z.ltb_lt in E. lia. }
  unfold pymod. destruct (max_replay_size rb =? 0) eqn:E0.
  { apply Z.eqb_eq in E0. lia. }
  rewrite !bind_lift_ok. eexists. split; reflexivity.
Qed.

Lemma get_experience_ok brax locals norm pp es bs key w :
  well_formed brax (l_env locals) (l_reward_dict locals) ->
  0 < max_replay_size (l_replay_buffer locals) ->
  Z.of_nat (List.length (obs es)) <= max_replay_size (l_replay_buffer locals) ->
  exists norm' es' bs',
    get_experience brax locals norm pp es bs key w
    = (inr (norm', es', bs'),
       with_call w [Call_env_step; Call_buffer_insert (List.length (obs es))]) /\
    List.length (obs es') = List.length (obs es) /\
    current_size bs' =
      Z.min (current_size bs + Z.of_nat (List.length (obs es)))
            (max_replay_size (l_replay_buffer locals)).
Proof.
  intros Hwf Hc Hn. unfold get_experience.
  destruct (actor_step_ok brax (l_env locals) (l_reward_dict locals) es
              (l_make_policy locals (norm, pp)) key w Hwf) as (tr & Ha & Ho).
  erewrite bind_inr by exact Ha. cbv beta iota zeta.
  destruct Hwf as (_ & _ & Hl & Hf).
  assert (Hrows : List.length (flatten_fn brax tr) = List.length (obs es))
    by (rewrite Hf, Ho; reflexivity).
  destruct (replay_buffer_insert_ok brax (l_replay_buffer locals) bs tr
              (with_call w [Call_env_step]) Hc) as (bs' & Hi & Hs).
  { rewrite Hrows. exact Hn. }
  erewrite bind_inr by exact Hi.
  rewrite with_call_app, Hrows. simpl.
  eexists _, _, _. split; [reflexivity|]. split; [apply Hl|].
  rewrite Hs, Hrows. reflexivity.
Qed.

Lemma prefill_f_ok jax brax locals ts es bs key w :
  well_formed brax (l_env locals) (l_reward_dict locals) ->
  0 < max_replay_size (l_replay_buffer locals) ->
  Z.of_nat (List.length (obs es)) <= max_replay_size (l_replay_buffer locals) ->
  exists ts' es' bs' key',
    prefill_replay_buffer_f jax brax locals (ts, es, bs, key) tt w
    = (inr ((ts', es', bs', key'), tt),
       with_call w [Call_env_step; Call_buffer_insert (List.length (obs es))]) /\
    List.length (obs es') = List.length (obs es) /\
    current_size bs' =
      Z.min (current_size bs + Z.of_nat (List.length (obs es)))
            (max_replay_size (l_replay_buffer locals)) /\
    gradient_steps ts' = gradient_steps ts.
Proof.
  intros Hwf Hc Hn. unfold prefill_replay_buffer_f, random_split2.
  cbv beta iota zeta.
  destruct (get_experience_ok brax locals (normalizer_params ts) (policy_params ts)
              es bs (random_split jax key 2 0) w Hwf Hc Hn)
    as (norm' & es' & bs' & He & Hl & Hs).
  erewrite bind_inr by exact He. cbv beta iota zeta.
  eexists _, _, _, _. split; [reflexivity|]. auto.
Qed.

Lemma prefill_scan_ok jax brax locals (b : nat) :
  well_formed brax (l_env locals) (l_reward_dict locals) ->
  0 < max_replay_size (l_replay_buffer locals) ->
  Z.of_nat b <= max_replay_size (l_replay_buffer locals) ->
  forall n ts es bs key w,
    List.length (obs es) = b ->
    current_size bs <= max_replay_size (l_replay_buffer locals) ->
    exists ts' es' bs' key',
      scan_loop (prefill_replay_buffer_f jax brax locals) (ts, es, bs, key)
                (repeat tt n) w
      = (inr ((ts', es', bs', key'), repeat tt n),
         with_call w (prefill_events b n)) /\
      List.length (obs es') = b /\
      current_size bs' =
        Z.min (current_size bs + Z.of_nat n * Z.of_nat b)
              (max_replay_size (l_replay_buffer locals)) /\
      gradient_steps ts' = gradient_steps ts.
Proof.
  intros Hwf Hc Hb. induction n as [|n IH]; intros ts es bs key w Hes Hle.
  - simpl. exists ts, es, bs, key. unfold prefill_events. simpl.
    rewrite with_call_nil. split; [reflexivity|]. split; [assumption|].
    split; [lia|reflexivity].
  - cbn [repeat scan_loop].
    destruct (prefill_f_ok jax brax locals ts es bs key w Hwf Hc)
      as (ts1 & es1 & bs1 & key1 & Hf & Hl1 & Hs1 & Hg1).
    { rewrite Hes. exact Hb. }
    erewrite bind_inr by exact Hf. cbv beta iota.
    destruct (IH ts1 es1 bs1 key1
                 (with_call w [Call_env_step; Call_buffer_insert (List.length (obs es))]))
      as (ts2 & es2 & bs2 & key2 & Hloop & Hl2 & Hs2 & Hg2).
    { congruence. }
    { rewrite Hs1. lia. }
    erewrite bind_inr by exact Hloop. cbv beta iota.
    exists ts2, es2, bs2, key2. unfold ret.
    rewrite with_call_app, Hes. unfold prefill_events.
    cbn [repeat List.concat].
    split; [reflexivity|]. split; [assumption|]. split; [|congruence].
    rewrite Hs2, Hs1, Hes, Nat2Z.inj_succ, Z.mul_succ_l.
    assert (0 <= Z.of_nat n * Z.of_nat b) by nia. lia.
Qed.

Lemma prefill_replay_buffer_ok jax brax locals ts es bs key w :
  well_formed brax (l_env locals) (l_reward_dict locals) ->
  0 < max_replay_size (l_replay_buffer locals) ->
  Z.of_nat (List.length (obs es)) <= max_replay_size (l_replay_buffer locals) ->
  current_size bs <= max_replay_size (l_replay_buffer locals) ->
  exists ts' es' bs' key',
    prefill_replay_buffer jax brax locals (ts, es, bs, key) w
    = (inr (ts', es', bs', key'),
       with_call w (prefill_events (List.length (obs es))
                                   (Z.to_nat (l_num_prefill_actor_steps locals)))) /\
    current_size bs' =
      Z.min (current_size bs
             + Z.of_nat (Z.to_nat (l_num_prefill_actor_steps locals))
               * Z.of_nat (List.length (obs es)))
            (max_replay_size (l_replay_buffer locals)) /\
    gradient_steps ts' = gradient_steps ts.
Proof.
  intros Hwf Hc Hn Hle. unfold prefill_replay_buffer, lax_scan_length, lax_scan.
  destruct (prefill_f_ok jax brax locals ts es bs key w Hwf Hc Hn)
    as (ts0 & es0 & bs0 & key0 & Hf & _).
  rewrite bind_assoc.
  assert (Hst : staged (prefill_replay_buffer_f jax brax locals (ts, es, bs, key) tt) w
                = (inr tt, w)).
  { unfold staged. rewrite Hf. reflexivity. }
  erewrite bind_inr by exact Hst.
  destruct (prefill_scan_ok jax brax locals (List.length (obs es)) Hwf Hc Hn
              (Z.to_nat (l_num_prefill_actor_steps locals)) ts es bs key w eq_refl Hle)
    as (ts' & es' & bs' & key' & Hloop & _ & Hs & Hg).
  erewrite bind_inr by exact Hloop. cbv beta iota.
  exists ts', es', bs', key'. split; [reflexivity|]. auto.
Qed.

Lemma pmap_prefill_ok jax brax locals (b : nat) :
  well_formed brax (l_env locals) (l_reward_dict locals) ->
  0 < max_replay_size (l_replay_buffer locals) ->
  Z.of_nat b <= max_replay_size (l_replay_buffer locals) ->
  forall args w,
    Forall (prefill_ready b (max_replay_size (l_replay_buffer locals))) args ->
    exists outs,
      pmap (prefill_replay_buffer jax brax locals) args w
      = (inr outs,
         with_call w
           (List.concat
              (repeat (prefill_events b (Z.to_nat (l_num_prefill_actor_steps locals)))
                      (List.length args)))) /\
      Forall2 (prefill_done (Z.of_nat (Z.to_nat (l_num_prefill_actor_steps locals)))
                            b (max_replay_size (l_replay_buffer locals)))
              args outs.
Proof.
  intros Hwf Hc Hb. unfold pmap.
  induction args as [|[[[ts es] bs] key] args IH]; intros w Hall.
  - exists []. simpl. rewrite with_call_nil. split; [reflexivity|constructor].
  - inversion Hall as [|? ? Hhead Hrest]; subst.
    destruct Hhead as [Hlen Hsz]. simpl in Hlen, Hsz.
    cbn [mapM].
    destruct (prefill_replay_buffer_ok jax brax locals ts es bs key w Hwf Hc)
      as (ts' & es' & bs' & key' & Hp & Hs & Hg).
    { rewrite Hlen. exact Hb. }
    { lia. }
    erewrite bind_inr by exact Hp.
    destruct (IH (with_call w (prefill_events (List.length (obs es))
                    (Z.to_nat (l_num_prefill_actor_steps locals)))) Hrest)
      as (outs & Hm & Hf).
    erewrite bind_inr by exact Hm.
    exists ((ts', es', bs', key') :: outs). unfold ret.
    rewrite with_call_app, Hlen. cbn [List.length repeat List.concat].
    split; [reflexivity|]. constructor; [|exact Hf].
    split; simpl; [exact Hg|]. rewrite Hs, Hlen. reflexivity.
Qed.

Lemma zip_strict_ok {A B} (xs : list A) (ys : list B) :
  List.length xs = List.length ys -> zip_strict xs ys = ok (combine xs ys).
Proof.
  unfold zip_strict. revert ys.
  induction xs as [|x xs IH]; intros [|y ys] H; simpl in *; try discriminate.
  - reflexivity.
  - rewrite IH by lia. reflexivity.
Qed.

Lemma bind_time {B} jax (k : Q -> M B) w :
  bind (time jax) k w =
  k (time_time jax (ticks w)) {| calls := calls w; ticks := S (ticks w) |}.
Proof. reflexivity. Qed.

Lemma sum_sizes_lower (n : Z) (b : nat) (cap m : Z) args outs :
  Forall (prefill_ready b cap) args ->
  Forall2 (prefill_done n b cap) args outs ->
  m <= Z.min (n * Z.of_nat b) cap ->
  Z.of_nat (List.length args) * m
  <= fold_right Z.add 0
       (map (fun o : TrainingState * EnvState * ReplayBufferState * PRNGKey =>
               current_size (snd (fst o))) outs).
Proof.
  intros Hr Hd Hm. induction Hd as [|a o args outs [_ Hs] Hd IH].
  - simpl. lia.
  - inversion Hr as [|? ? Hhead Hr']; subst. destruct Hhead as [_ Hsz].
    cbn [List.length map fold_right]. rewrite Nat2Z.inj_succ.
    specialize (IH Hr'). rewrite Hs. lia.
Qed.

Lemma zip4_ok (tss : list TrainingState) (ess : list EnvState)
      (bss : list ReplayBufferState) (keys : list PRNGKey) :
  List.length tss = List.length ess ->
  List.length ess = List.length bss ->
  List.length bss = List.length keys ->
  zip4 tss ess bss keys = ok (combine (combine (combine tss ess) bss) keys).
Proof.
  intros H1 H2 H3. unfold zip4.
  rewrite (zip_strict_ok tss ess H1). cbn [rbind ok].
  rewrite (zip_strict_ok (combine tss ess) bss)
    by (rewrite length_combine; lia).
  cbn [rbind ok]. apply zip_strict_ok. rewrite !length_combine. lia.
Qed.

Lemma zip4_facts (P : EnvState -> Prop) (R : ReplayBufferState -> Prop) :
  forall (tss : list TrainingState) ess bss (keys : list PRNGKey),
  List.length tss = List.length ess ->
  List.length ess = List.length bss ->
  List.length bss = List.length keys ->
  Forall P ess -> Forall R bss ->
  let args := combine (combine (combine tss ess) bss) keys in
  List.length args = List.length tss /\
  map (fun a => fst (fst (fst a))) args = tss /\
  Forall (fun a => P (snd (fst (fst a))) /\ R (snd (fst a))) args.
Proof.
  induction tss as [|ts tss IH]; intros [|es ess] [|bs bss] [|k keys] H1 H2 H3 HP HR;
    simpl in *; try discriminate.
  - repeat split; constructor.
  - inversion HP; subst. inversion HR; subst.
    destruct (IH ess bss keys) as (L & Mp & F); try lia; try assumption.
    repeat split.
    + f_equal. exact L.
    + f_equal. exact Mp.
    + constructor; [split; assumption|exact F].
Qed.

Lemma prefill_done_gradient_steps n b cap args outs :
  Forall2 (prefill_done n b cap) args outs ->
  map gradient_steps (map (fun o => fst (fst (fst o))) outs) =
  map gradient_steps (map (fun a => fst (fst (fst a))) args).
Proof.
  induction 1 as [|a o args outs [Hg _] _ IH]; simpl; [reflexivity|].
  rewrite Hg, IH. reflexivity.
Qed.

Lemma train_prefill_ok jax brax locals tss ess bss local_key w (b : nat) :
  let D := Z.to_nat (l_local_devices_to_use locals) in
  let N := Z.to_nat (l_num_prefill_actor_steps locals) in
  let cap := max_replay_size (l_replay_buffer locals) in
  well_formed brax (l_env locals) (l_reward_dict locals) ->
  0 < cap -> Z.of_nat b <= cap ->
  List.length tss = D -> List.length ess = D -> List.length bss = D ->
  Forall (fun es => List.length (obs es) = b) ess ->
  Forall (fun bs => 0 <= current_size bs <= cap) bss ->
  l_min_replay_size locals
  <= Z.of_nat D * Z.min (Z.of_nat N * Z.of_nat b) cap ->
  exists tss' ess' bss' key' walltime w',
    train_prefill jax brax locals (tss, ess, bss) local_key w
    = (inr ((tss', ess', bss'), key', walltime), w') /\
    calls w' = calls w ++ List.concat (repeat (prefill_events b N) D) /\
    map gradient_steps tss' = map gradient_steps tss /\
    l_min_replay_size locals <= fold_right Z.add 0 (map current_size bss').
Proof.
  intros D N cap Hwf Hc Hb Lt Le Lb Hes Hbs Hmin.
  unfold train_prefill. rewrite bind_time. unfold random_split2.
  cbv beta iota zeta.
  set (keys := random_splits jax (random_split jax local_key 2 0)
                             (Z.to_nat (l_local_devices_to_use locals))).
  assert (Lk : List.length keys = D).
  { unfold keys, random_splits. rewrite length_map, length_seq. reflexivity. }
  rewrite (zip4_ok tss ess bss keys) by congruence.
  rewrite bind_lift_ok.
  destruct (zip4_facts (fun es => List.length (obs es) = b)
                       (fun bs => 0 <= current_size bs <= cap)
                       tss ess bss keys) as (La & Mp & Fa); try congruence;
    try assumption.
  set (args := combine (combine (combine tss ess) bss) keys) in *.
  destruct (pmap_prefill_ok jax brax locals b Hwf Hc Hb args
              {| calls := calls w; ticks := S (ticks w) |} Fa)
    as (outs & Hp & Hd).
  erewrite bind_inr by exact Hp.
  pose proof (sum_sizes_lower _ b cap _ args outs Fa Hd (Z.le_refl _)) as Hsum.
  unfold replay_buffer_size.
  match goal with
  | |- context [assert ?c ?t] => assert (Hassert : c = true)
  end.
  { rewrite Z.geb_leb. apply Z.leb_le. rewrite map_map.
    rewrite La, Lt in Hsum. fold N in Hsum. fold cap in Hsum. lia. }
  rewrite Hassert. cbn [assert]. rewrite bind_lift_ok, bind_time.
  eexists _, _, _, _, _, _. split; [reflexivity|].
  cbn [calls with_call]. rewrite La, Lt.
  split; [reflexivity|]. split.
  - rewrite (prefill_done_gradient_steps _ _ _ _ _ Hd), Mp. reflexivity.
  - rewrite map_map. rewrite La, Lt in Hsum. fold N in Hsum. fold cap in Hsum. lia.
Qed.

Lemma count_app p l1 l2 : count p (l1 ++ l2) = (count p l1 + count p l2)%nat.
Proof. unfold count. rewrite filter_app, length_app. reflexivity. Qed.

Lemma count_concat_repeat p l n :
  count p (List.concat (repeat l n)) = (n * count p l)%nat.
Proof.
  induction n as [|n IH]; cbn [repeat List.concat]; [reflexivity|].
  rewrite count_app, IH. simpl. reflexivity.
Qed.

Lemma count_prefill_events b n :
  count is_env_step (prefill_events b n) = n /\
  count is_gradient_update (prefill_events b n) = 0%nat.
Proof.
  unfold prefill_events. rewrite !count_concat_repeat. cbn. split; lia.
Qed.

Lemma train_locals_fields jax brax cfg env st rb :
  let locals := train_locals jax brax cfg env st rb in
  l_env locals = env /\
  l_reward_dict locals = reward_dict_of st /\
  l_replay_buffer locals = rb /\
  l_local_devices_to_use locals = local_devices_to_use st /\
  l_num_prefill_actor_steps locals = num_prefill_actor_steps st /\
  l_min_replay_size locals = MIN_REPLAY_SIZE cfg.
Proof. cbv zeta. repeat split. Qed.

Lemma default_prefill_steps jax d st :
  train_startup jax (with_reward_dict get_config d) = ok st ->
  num_prefill_actor_steps st = 256.
Proof.
  intros H. destruct (train_startup_ok jax _ st H)
    as (_ & _ & _ & _ & _ & _ & HN & _).
  exact HN.
Qed.

(** Claim C2.  On every replica the prefill phase takes exactly
    [num_prefill_actor_steps = ceil(min_replay_size / num_envs)] actor
    steps (256 for the default budget), each followed by one insertion
    into the buffer; it makes no gradient update and leaves the
    gradient-step counter of every replica unchanged; and it ends with the
    buffers holding at least [min_replay_size] transitions, provided the
    capacity allows it. *)
Theorem prefill_phase jax brax cfg env st rb tss ess bss local_key w (b : nat) :
  train_startup jax cfg = ok st ->
  0 < NUM_ENVS cfg ->
  let locals := train_locals jax brax cfg env st rb in
  let D := Z.to_nat (local_devices_to_use st) in
  let N := num_prefill_actor_steps st in
  well_formed brax env (reward_dict_of st) ->
  0 < max_replay_size rb -> Z.of_nat b <= max_replay_size rb ->
  List.length tss = D -> List.length ess = D -> List.length bss = D ->
  Forall (fun es => List.length (obs es) = b) ess ->
  Forall (fun bs => 0 <= current_size bs <= max_replay_size rb) bss ->
  Z.of_nat D * Z.of_nat b = NUM_ENVS cfg ->
  MIN_REPLAY_SIZE cfg <= Z.of_nat D * max_replay_size rb ->
  (N - 1) * NUM_ENVS cfg < MIN_REPLAY_SIZE cfg <= N * NUM_ENVS cfg /\
  (forall jax' d st',
      train_startup jax' (with_reward_dict get_config d) = ok st' ->
      num_prefill_actor_steps st' = 256) /\
  exists tss' ess' bss' key' walltime w',
    train_prefill jax brax locals (tss, ess, bss) local_key w
    = (inr ((tss', ess', bss'), key', walltime), w') /\
    calls w' = calls w ++ List.concat (repeat (prefill_events b (Z.to_nat N)) D) /\
    count is_env_step (prefill_events b (Z.to_nat N)) = Z.to_nat N /\
    count is_gradient_update
          (List.concat (repeat (prefill_events b (Z.to_nat N)) D)) = 0%nat /\
    map gradient_steps tss' = map gradient_steps tss /\
    MIN_REPLAY_SIZE cfg <= fold_right Z.add 0 (map current_size bss').
Proof.
  intros Hst Hn locals D N Hwf Hc Hb Lt Le Lb Hes Hbs HD Hmin.
  destruct (train_startup_ok jax cfg st Hst)
    as (_ & _ & _ & _ & _ & _ & HN & _).
  assert (Hceil : (N - 1) * NUM_ENVS cfg < MIN_REPLAY_SIZE cfg <= N * NUM_ENVS cfg).
  { unfold N. rewrite HN. apply ceil_div_spec. exact Hn. }
  split; [exact Hceil|]. split; [exact default_prefill_steps|].
  destruct (train_locals_fields jax brax cfg env st rb)
    as (F1 & F2 & F3 & F4 & F5 & F6). fold locals in F1, F2, F3, F4, F5, F6.
  destruct (train_prefill_ok jax brax locals tss ess bss local_key w b)
    as (tss' & ess' & bss' & key' & wt & w' & Hrun & Hcalls & Hg & Hsum).
  - rewrite F1, F2. exact Hwf.
  - rewrite F3. exact Hc.
  - rewrite F3. exact Hb.
  - rewrite F4. exact Lt.
  - rewrite F4. exact Le.
  - rewrite F4. exact Lb.
  - exact Hes.
  - rewrite F3. exact Hbs.
  - rewrite F3, F4, F5, F6. fold D. fold N.
    destruct (Z.le_gt_cases 0 N) as [HN0|HN0].
    + rewrite Z2Nat.id by exact HN0.
      assert (0 <= Z.of_nat D) by lia. nia.
    + assert (E0 : Z.to_nat N = 0%nat) by lia. rewrite E0.
      change (Z.of_nat 0) with 0. assert (0 <= Z.of_nat D) by lia. nia.
  - rewrite F4, F5 in Hcalls. rewrite F6 in Hsum. fold D in Hcalls. fold N in Hcalls.
    exists tss', ess', bss', key', wt, w'.
    split; [exact Hrun|]. split; [exact Hcalls|].
    rewrite !count_concat_repeat.
    destruct (count_prefill_events b (Z.to_nat N)) as [-> ->].
    repeat split; try assumption; lia.
Qed.

Local Open Scope Q_scope.

Lemma dict_get_set {V} (k k' : string) (v : V) (d : Dict V) :
  dict_get k (dict_set k' v d) = if String.eqb k k' then Some v else dict_get k d.
Proof.
  induction d as [|[k1 v1] d IH]; simpl.
  - reflexivity.
  - destruct (String.eqb_spec k' k1) as [->|Hne]; simpl.
    + destruct (String.eqb k k1); reflexivity.
    + rewrite IH. destruct (String.eqb_spec k k1) as [->|Hne'].
      * destruct (String.eqb_spec k1 k') as [->|_]; [congruence|reflexivity].
      * reflexivity.
Qed.

Lemma dict_get_update {V} (a b : Dict V) (k : string) :
  NoDup (keys b) ->
  dict_get k (dict_update a b) =
  match dict_get k b with
  | Some v => Some v
  | None => dict_get k a
  end.
Proof.
  unfold dict_update. revert a.
  induction b as [|[k1 v1] b IH]; intros a Hnd; simpl.
  - reflexivity.
  - inversion Hnd as [|? ? Hnot Hnd']; subst.
    rewrite IH by assumption. rewrite dict_get_set.
    destruct (String.eqb_spec k k1) as [->|Hne].
    + destruct (dict_get k1 b) as [v|] eqn:E; [|reflexivity].
      exfalso. apply Hnot. clear -E. induction b as [|[k2 v2] b IH]; simpl in *.
      * discriminate.
      * destruct (String.eqb_spec k1 k2) as [->|_]; [left; reflexivity|].
        right. apply IH. exact E.
    + reflexivity.
Qed.

(** The dict display [{'eval/walltime': w, **training_metrics, **metrics}]
    that ends [run_evaluation]: a key of [metrics] takes precedence over
    the same key of the training metrics, and a key of the training
    metrics takes precedence over ['eval/walltime']. *)
Lemma merge_metrics_precedence (eval_walltime : Q)
        (training_metrics metrics : Metrics) (k : string) :
  NoDup (keys training_metrics) -> NoDup (keys metrics) ->
  dict_get k (merge_metrics eval_walltime training_metrics metrics) =
  match dict_get k metrics with
  | Some v => Some v
  | None =>
      match dict_get k training_metrics with
      | Some v => Some v
      | None => if String.eqb k "eval/walltime" then Some eval_walltime else None
      end
  end.
Proof.
  intros Ht Hm. unfold merge_metrics.
  rewrite dict_get_update by assumption.
  destruct (dict_get k metrics); [reflexivity|].
  rewrite dict_get_update by assumption.
  destruct (dict_get k training_metrics); [reflexivity|].
  simpl. reflexivity.
Qed.

Local Open Scope Z_scope.

(** Claim C8.  [run_evaluation] of an evaluator that [Evaluator.__init__]
    has constructed returns no metrics mapping: it reads the clock once
    and raises, before any environment step of the unroll, the
    [TypeError] of the [actor_step] call in [generate_unroll] (or
    [ZeroDivisionError] when [action_repeat] is 0), whatever the policy
    parameters and the training metrics. *)
Theorem run_evaluation_returns_no_metrics jax brax env f kw ev pp tm w :
  Evaluator_init jax brax env f kw = ok ev ->
  exists e w',
    run_evaluation jax ev pp tm w = (inl e, w') /\
    (kw_action_repeat kw <> Some 0 -> e = missing_reward_dict) /\
    (kw_action_repeat kw = Some 0 -> e = ZeroDivisionError) /\
    count is_env_step (calls w') = count is_env_step (calls w) /\
    ticks w' = S (ticks w).
Proof.
  unfold Evaluator_init. intros H.
  destruct (kw_unexpected kw); [|discriminate].
  destruct (kw_num_eval_envs kw) as [n|]; [|discriminate].
  destruct (kw_episode_length kw) as [l|]; [|discriminate].
  destruct (kw_action_repeat kw) as [a|]; [|discriminate].
  destruct (kw_key kw) as [k|]; [|discriminate].
  cbn in H. unfold ok in H. injection H as <-.
  unfold run_evaluation, random_split2. cbn [_generate_eval_unroll _key].
  rewrite bind_time, bind_assoc, bind_emit, bind_assoc.
  unfold floordiv. destruct (a =? 0) eqn:Ea.
  - apply Z.eqb_eq in Ea. subst a. rewrite bind_lift_err.
    eexists _, _. split; [reflexivity|]. cbn [calls ticks].
    split; [intros Hne; congruence|]. split; [reflexivity|].
    split; [|reflexivity]. rewrite count_app. cbn. lia.
  - apply Z.eqb_neq in Ea. rewrite bind_lift_ok, bind_assoc.
    erewrite (bind_inl _ _ _ _ _ (generate_unroll_fails _ _ _ _ _ _ _ _)).
    eexists _, _. split; [reflexivity|]. cbn [calls ticks].
    split; [reflexivity|]. split; [intros [= ->]; congruence|].
    split; [|reflexivity]. rewrite count_app. cbn. lia.
Qed.

Local Open Scope Q_scope.

(** Claim C6.  On a batch of two transitions and two reward keys the
    shared-policy loss of the code subtracts from every [alpha * log_prob]
    the sum of the minima over all keys and over both transitions (12),
    and returns -13; summing across keys transition by transition, as the
    claim and the sub-policy loss [_actor_loss] do, gives -7. *)
Theorem policy_loss_sums_over_batch :
  exists code spec,
    policy_loss Example.sac_network [[0]] [] (sub_q_params Example.training_state)
                1 Example.transitions Example.key = ok code /\
    policy_loss_spec Example.sac_network [[0]] [] (sub_q_params Example.training_state)
                     1 Example.transitions Example.key = ok spec /\
    code == - (13) /\ spec == - (7).
Proof.
  eexists _, _. split; [vm_compute; reflexivity|].
  split; [vm_compute; reflexivity|]. split; reflexivity.
Qed.

(** Claim C1, amended.  One gradient update step calls the four updates
    in the order temperature, sub-critics, sub-policies, shared policy,
    and every one of them is given the parameters of the training state
    the step received: the sub-policy and the shared-policy updates are
    given [training_state.sub_q_params], the sub-Q parameters of the
    previous step.  The step is determined by the results of the four
    updates at these arguments: the first update that raises ends the
    step with its exception, the later ones are not called; when all four
    return, the step still ends with the exception of the target update
    or of the [TrainingState] constructor. *)
Theorem sgd_step_update_order jax locals ts key tr w :
  let alpha := jnp_exp jax (alpha_params ts) in
  let alpha_result :=
    l_alpha_update locals (alpha_params ts)
      (policy_params ts, normalizer_params ts, tr, random_split jax key 5 1)
      (alpha_optimizer_state ts) in
  let sub_q_result :=
    l_sub_q_update locals (sub_q_params ts)
      (sub_policy_params ts, normalizer_params ts, sub_target_q_params ts,
       alpha, tr, random_split jax key 5 2)
      (sub_q_optimizer_state ts) in
  let sub_policy_result :=
    l_sub_policy_update locals (sub_policy_params ts)
      (normalizer_params ts, sub_q_params ts, alpha, tr,
       random_split jax key 5 3)
      (sub_policy_optimizer_state ts) in
  let policy_result :=
    l_policy_update locals (policy_params ts)
      (normalizer_params ts, sub_q_params ts, alpha, tr,
       random_split jax key 5 4)
      (policy_optimizer_state ts) in
  let call_alpha := Call_alpha_update (alpha_params ts) (policy_params ts) in
  let call_sub_q :=
    Call_sub_q_update (sub_q_params ts) (sub_policy_params ts)
                      (sub_target_q_params ts) in
  let call_sub_policy :=
    Call_sub_policy_update (sub_policy_params ts) (sub_q_params ts) in
  let call_policy := Call_policy_update (policy_params ts) (sub_q_params ts) in
  sgd_step jax locals (ts, key) tr w =
  match alpha_result with
  | inl e => (inl e, with_call w [call_alpha])
  | inr _ =>
      match sub_q_result with
      | inl e => (inl e, with_call w [call_alpha; call_sub_q])
      | inr (_, sub_q_params', _) =>
          match sub_policy_result with
          | inl e =>
              (inl e, with_call w [call_alpha; call_sub_q; call_sub_policy])
          | inr _ =>
              let w' :=
                with_call w [call_alpha; call_sub_q; call_sub_policy;
                             call_policy] in
              match policy_result with
              | inl e => (inl e, w')
              | inr _ =>
                  match polyak (l_tau locals) (sub_target_q_params ts)
                               sub_q_params' with
                  | inl e => (inl e, w')
                  | inr _ => (inl missing_sub_alpha, w')
                  end
              end
          end
      end
  end.
Proof.
  cbv zeta. unfold sgd_step, with_call. cbv zeta. rewrite bind_emit.
  destruct (l_alpha_update locals _ _ _) as [e1|[[v1 p1] s1]].
  { rewrite bind_lift_err. reflexivity. }
  rewrite bind_lift_ok, bind_emit.
  destruct (l_sub_q_update locals _ _ _) as [e2|[[v2 p2] s2]].
  { rewrite bind_lift_err. cbn [calls ticks]. rewrite <- app_assoc. reflexivity. }
  rewrite bind_lift_ok, bind_emit.
  destruct (l_sub_policy_update locals _ _ _) as [e3|[[v3 p3] s3]].
  { rewrite bind_lift_err. cbn [calls ticks]. rewrite <- !app_assoc. reflexivity. }
  rewrite bind_lift_ok, bind_emit. cbn [calls ticks]. rewrite <- !app_assoc.
  cbn [app].
  destruct (l_policy_update locals _ _ _) as [e4|[[v4 p4] s4]].
  { rewrite bind_lift_err. reflexivity. }
  rewrite bind_lift_ok.
  destruct (polyak (l_tau locals) (sub_target_q_params ts) p2) as [e5|t'].
  { rewrite bind_lift_err. reflexivity. }
  rewrite bind_lift_ok. reflexivity.
Qed.

(** With a shared-policy update that reports which sub-Q parameters it
    is given, the step reports the previous ones, although the sub-critic
    update has returned others. *)
Lemma policy_update_reads_previous_sub_q :
  let ts := Example.training_state in
  let jax := Example.jax 2 in
  let locals :=
    with_policy_update Example.locals
                       (reporting_policy_update (sub_q_params ts)) in
  let alpha := jnp_exp jax (alpha_params ts) in
  exists loss new_sub_q opt,
    l_sub_q_update locals (sub_q_params ts)
      (sub_policy_params ts, normalizer_params ts, sub_target_q_params ts,
       alpha, Example.transitions, random_split jax Example.key 5 2)
      (sub_q_optimizer_state ts) = ok (loss, new_sub_q, opt) /\
    tree_eqb new_sub_q (sub_q_params ts) = false /\
    l_policy_update locals (policy_params ts)
      (normalizer_params ts, new_sub_q, alpha, Example.transitions,
       random_split jax Example.key 5 4)
      (policy_optimizer_state ts)
    = throw (ValueError "policy_update is given other sub_q_params") /\
    fst (sgd_step jax locals (ts, Example.key) Example.transitions Example.world)
    = inl (ValueError "policy_update is given the previous sub_q_params").
Proof.
  cbv zeta. eexists _, _, _. split; [vm_compute; reflexivity|].
  split; [vm_compute; reflexivity|].
  split; vm_compute; reflexivity.
Qed.

Local Open Scope Z_scope.

Lemma example_well_formed :
  well_formed Example.brax Example.env Example.reward_dict.
Proof.
  repeat split.
  - intros s a. simpl. discriminate.
  - intros s a k [<-|[<-|[]]]; simpl; discriminate.
  - intros s a. simpl. apply length_map.
Defined.

Lemma sgd_step_update_order_witness :
  sgd_step (Example.jax 2) Example.locals
           (Example.training_state, Example.key)
           Example.transitions Example.world
  = (inl missing_sub_alpha,
     {| calls :=
          [Call_alpha_update 0%Q [[0%Q]];
           Call_sub_q_update (sub_q_params Example.training_state)
                             (sub_policy_params Example.training_state)
                             (sub_target_q_params Example.training_state);
           Call_sub_policy_update (sub_policy_params Example.training_state)
                                  (sub_q_params Example.training_state);
           Call_policy_update [[0%Q]] (sub_q_params Example.training_state)];
        ticks := 0 |}).
Proof.
  rewrite (sgd_step_update_order (Example.jax 2) Example.locals
             Example.training_state Example.key Example.transitions
             Example.world).
  vm_compute. reflexivity.
Defined.

Lemma prefill_phase_witness :
  exists tss' ess' bss' key' walltime w',
    train_prefill (Example.jax 2) Example.brax Example.locals
      ([Example.training_state; Example.training_state],
       [reset Example.env [Example.key; Example.key];
        reset Example.env [Example.key; Example.key]],
       [Example.empty_buffer; Example.empty_buffer])
      Example.key Example.world
    = (inr ((tss', ess', bss'), key', walltime), w') /\
    count is_env_step (calls w') = 6%nat /\
    count is_gradient_update (calls w') = 0%nat /\
    map gradient_steps tss' = [0%Q; 0%Q] /\
    10 <= fold_right Z.add 0 (map current_size bss').
Proof.
  destruct (prefill_phase (Example.jax 2) Example.brax Example.config Example.env
              Example.startup Example.replay_buffer
              [Example.training_state; Example.training_state]
              [reset Example.env [Example.key; Example.key];
               reset Example.env [Example.key; Example.key]]
              [Example.empty_buffer; Example.empty_buffer]
              Example.key Example.world 2)
    as (_ & _ & tss' & ess' & bss' & key' & wt & w' & Hrun & Hc & _ & Hg & Hs & Hsum).
  - reflexivity.
  - reflexivity.
  - exact example_well_formed.
  - reflexivity.
  - simpl. lia.
  - reflexivity.
  - reflexivity.
  - reflexivity.
  - repeat constructor.
  - repeat constructor; simpl; lia.
  - reflexivity.
  - simpl. lia.
  - exists tss', ess', bss', key', wt, w'.
    split; [exact Hrun|]. rewrite Hc.
    split; [reflexivity|]. split; [exact Hg|]. split; [exact Hs|exact Hsum].
Defined.


Lemma run_evaluation_returns_no_metrics_witness :
  exists ev w',
    Evaluator_init (Example.jax 2) Example.brax Example.env
      (make_inference_fn Example.brax Example.sac_network)
      {| kw_num_eval_envs := Some 2; kw_episode_length := Some 10;
         kw_action_repeat := Some 1; kw_key := Some Example.key;
         kw_unexpected := [] |} = ok ev /\
    run_evaluation (Example.jax 2) ev ([], [[0%Q]])
                   [("eval/walltime"%string, 99%Q)] Example.world
    = (inl (TypeError "actor_step() missing required argument: 'reward_dict'"), w') /\
    count is_env_step (calls w') = 0%nat.
Proof.
  edestruct (run_evaluation_returns_no_metrics
               (Example.jax 2) Example.brax Example.env
               (make_inference_fn Example.brax Example.sac_network)
               {| kw_num_eval_envs := Some 2; kw_episode_length := Some 10;
                  kw_action_repeat := Some 1; kw_key := Some Example.key;
                  kw_unexpected := [] |} _ ([], [[0%Q]])
               [("eval/walltime"%string, 99%Q)] Example.world eq_refl)
    as (e & w' & Hrun & He & _ & Hc & _).
  eexists _, w'. split; [reflexivity|].
  specialize (He ltac:(discriminate)). subst e.
  split; [exact Hrun|exact Hc].
Defined.

Local Open Scope Q_scope.

Lemma critic_loss_truncation_mask_witness :
  exists q_error row,
    _critic_q_error Example.sac_network (1 # 10) (98 # 100) [[1]] [[0]] [] [[1]] 1
                    Example.transitions [1; 1] Example.key = ok q_error /\
    nth_error q_error 0 = Some row /\
    Forall (fun e => e == 0) row /\
    sum (map square row) == 0.
Proof.
  edestruct (critic_loss_truncation_mask Example.sac_network (1 # 10) (98 # 100)
               [[1]] [[0]] [] [[1]] 1 Example.transitions [1; 1] Example.key)
    as (target_q & truncation & _ & Ht & _ & _ & Hrows).
  - vm_compute. reflexivity.
  - injection Ht as <-.
    destruct (Hrows 0%nat 1 eq_refl) as (q_old & tq & row & _ & _ & Hrow & _ & H1 & _).
    eexists _, row. split; [reflexivity|]. split; [exact Hrow|].
    apply H1. reflexivity.
Defined.

Lemma polyak_target_update_witness :
  exists t' z,
    polyak (1 # 10) Example.zeros Example.ones = ok t' /\
    element t' "ctrl" 0 1 = Some z /\ z == 1 # 10.
Proof.
  destruct (polyak_target_update (1 # 10) Example.zeros Example.ones) as (H1 & _ & _).
  edestruct (H1 _ eq_refl "ctrl"%string 0%nat 1%nat 0 1 eq_refl eq_refl)
    as (z & Hz & _ & Hex).
  eexists _, z. split; [reflexivity|]. split; [exact Hz|].
  apply Hex; reflexivity.
Defined.

Lemma train_rejects_invalid_budget_witness :
  train (Example.jax 2) Example.brax
        (with_budget Example.config 10 50 (Some 64%Z) 4 3)
        Example.env Example.world
  = (inl (ValueError "No train will happen because min_replay_size >= num_timesteps"),
     Example.world) /\
  train (Example.jax 2) Example.brax
        (with_budget Example.config 50 10 (Some 64%Z) 5 3)
        Example.env Example.world
  = (inl (AssertionError "num_envs % device_count == 0"), Example.world) /\
  (exists e,
      train (Example.jax 2) Example.brax
            (with_budget Example.config 50 10 (Some 64%Z) 5 3)
            Example.env Example.world = (inl e, Example.world)) /\
  (forall e w',
      train (Example.jax 2) Example.brax Example.config Example.env Example.world
      = (inl e, w') ->
      e <> ValueError "No train will happen because min_replay_size >= num_timesteps" /\
      e <> AssertionError "num_envs % device_count == 0").
Proof.
  split; [|split; [|split]].
  - destruct (train_rejects_invalid_budget (Example.jax 2) Example.brax
                (with_budget Example.config 10 50 (Some 64%Z) 4 3)
                Example.env Example.world) as (_ & H & _).
    apply (H [("walker2d"%string, Example.reward_dict)] Example.reward_dict).
    + reflexivity.
    + reflexivity.
    + simpl. lia.
  - destruct (train_rejects_invalid_budget (Example.jax 2) Example.brax
                (with_budget Example.config 50 10 (Some 64%Z) 5 3)
                Example.env Example.world) as (_ & _ & H & _).
    apply (H [("walker2d"%string, Example.reward_dict)] Example.reward_dict 1%Z).
    + reflexivity.
    + reflexivity.
    + simpl. lia.
    + simpl. lia.
    + simpl. lia.
    + vm_compute. discriminate.
    + reflexivity.
    + discriminate.
  - destruct (train_rejects_invalid_budget (Example.jax 2) Example.brax
                (with_budget Example.config 50 10 (Some 64%Z) 5 3)
                Example.env Example.world) as [H _].
    destruct H as (e & _ & He).
    + right. vm_compute. discriminate.
    + exists e. exact He.
  - destruct (train_rejects_invalid_budget (Example.jax 2) Example.brax
                Example.config Example.env Example.world) as (_ & _ & _ & H).
    apply H.
    + simpl. lia.
    + reflexivity.
Defined.

Lemma evaluation_path_fails_witness :
  exists ev e w',
    Evaluator_init (Example.jax 2) Example.brax Example.env
      (make_inference_fn Example.brax Example.sac_network)
      {| kw_num_eval_envs := Some 2%Z; kw_episode_length := Some 10%Z;
         kw_action_repeat := Some 1%Z; kw_key := Some Example.key;
         kw_unexpected := [] |} = ok ev /\
    run_evaluation (Example.jax 2) ev ([], [[0]]) [] Example.world = (inl e, w').
Proof.
  destruct evaluation_path_fails as (_ & _ & _ & H).
  edestruct (H (Example.jax 2) Example.brax Example.env
               (make_inference_fn Example.brax Example.sac_network)
               {| kw_num_eval_envs := Some 2%Z; kw_episode_length := Some 10%Z;
                  kw_action_repeat := Some 1%Z; kw_key := Some Example.key;
                  kw_unexpected := [] |} _ eq_refl ([], [[0]]) [] Example.world)
    as (e & w' & He).
  eexists _, e, w'. split; [reflexivity|exact He].
Defined.

(* ================================================================== *)
(** * Further properties of the program *)

Local Open Scope Z_scope.

(** ** The startup of [train] *)

Lemma train_startup_total jax cfg d rd :
  REWARD_DICT cfg = Some d -> dict_get (ENV_NAME cfg) d = Some rd ->
  MIN_REPLAY_SIZE cfg < NUM_TIMESTEPS cfg ->
  NUM_ENVS cfg <> 0 -> ACTION_REPEAT cfg <> 0 ->
  - (- MIN_REPLAY_SIZE cfg / NUM_ENVS cfg) * (ACTION_REPEAT cfg * NUM_ENVS cfg)
  <= NUM_TIMESTEPS cfg ->
  snd (process_bookkeeping jax cfg) <> 0 ->
  NUM_ENVS cfg mod snd (process_bookkeeping jax cfg) = 0 ->
  exists st, train_startup jax cfg = ok st.
Proof.
  intros Hd Hrd Hmin Hn Ha Hp Hdc Hr. unfold train_startup. cbv zeta.
  rewrite Hd. cbn [rbind ok]. unfold dict_index. rewrite Hrd. cbn [rbind ok].
  destruct (process_bookkeeping jax cfg) as [ldu dc]. cbn [snd] in Hdc, Hr.
  destruct (MIN_REPLAY_SIZE cfg >=? NUM_TIMESTEPS cfg) eqn:E.
  { rewrite Z.geb_leb in E. apply Z.leb_le in E. lia. }
  cbn [rbind ok]. unfold floordiv at 1.
  destruct (NUM_ENVS cfg =? 0) eqn:E0; [apply Z.eqb_eq in E0; contradiction|].
  cbn [rbind ok]. unfold assert at 1.
  destruct (_ >=? 0) eqn:E1.
  2:{ rewrite Z.geb_leb in E1. apply Z.leb_gt in E1. lia. }
  cbn [rbind ok]. unfold floordiv.
  destruct (_ * _ =? 0) eqn:E2; [apply Z.eqb_eq in E2; nia|].
  cbn [rbind ok]. unfold pymod.
  destruct (dc =? 0) eqn:E3; [apply Z.eqb_eq in E3; contradiction|].
  cbn [rbind ok]. unfold assert. rewrite Hr. cbn. eexists. reflexivity.
Qed.

(** Property X1.  The startup of [train] passes exactly for the
    configurations that name a reward decomposition for their
    environment, ask for fewer prefill transitions than timesteps, have a
    number of environments and an action repeat other than 0, can afford
    the environment steps of the prefill within [num_timesteps], and run
    on a non-zero number of devices that divides the number of
    environments. *)
Theorem train_startup_succeeds_iff jax cfg :
  (exists st, train_startup jax cfg = ok st) <->
  (exists d rd, REWARD_DICT cfg = Some d /\ dict_get (ENV_NAME cfg) d = Some rd) /\
  MIN_REPLAY_SIZE cfg < NUM_TIMESTEPS cfg /\
  NUM_ENVS cfg <> 0 /\
  ACTION_REPEAT cfg <> 0 /\
  - (- MIN_REPLAY_SIZE cfg / NUM_ENVS cfg) * (ACTION_REPEAT cfg * NUM_ENVS cfg)
  <= NUM_TIMESTEPS cfg /\
  snd (process_bookkeeping jax cfg) <> 0 /\
  NUM_ENVS cfg mod snd (process_bookkeeping jax cfg) = 0.
Proof.
  split.
  - intros [st H].
    destruct (train_startup_ok jax cfg st H)
      as ((d & Hd & Hrd) & Hpb & Hmin & _ & HS & Hn & HN & HP & Hpos & HE & HES & _
          & Hdc & Hr).
    rewrite <- Hpb. cbn [snd].
    split; [exists d, (reward_dict_of st); auto|].
    split; [exact Hmin|]. split; [exact Hn|].
    split; [intros Ha; apply HES; rewrite HS, Ha; lia|].
    split; [rewrite <- HS, <- HN, <- HP; lia|].
    split; assumption.
  - intros ((d & rd & Hd & Hrd) & Hmin & Hn & Ha & Hp & Hdc & Hr).
    exact (train_startup_total jax cfg d rd Hd Hrd Hmin Hn Ha Hp Hdc Hr).
Qed.

(** On two devices, the small budget of the example passes the startup. *)
Lemma train_startup_succeeds_iff_witness :
  exists st, train_startup (Example.jax 2) Example.config = ok st.
Proof.
  apply (proj2 (train_startup_succeeds_iff (Example.jax 2) Example.config)).
  split; [exists [("walker2d"%string, Example.reward_dict)], Example.reward_dict;
          split; reflexivity|].
  cbn. repeat split; try lia; try discriminate.
Defined.

(** Property X2.  [train] reads [cfg.ENV.REWARD_DICT[cfg.ENV.ENV_NAME]]
    before anything else.  A configuration that defines no [REWARD_DICT],
    as the default configuration of config/defaults.py, makes it raise
    [AttributeError]; one whose [REWARD_DICT] has no entry for the
    environment makes it raise [KeyError] with the name of the
    environment.  Both happen whatever the budget, and before any
    collaborator is called. *)
Theorem train_requires_reward_dict jax brax env w :
  (forall cfg, REWARD_DICT cfg = None ->
     train jax brax cfg env w = (inl (AttributeError "REWARD_DICT"), w)) /\
  (forall cfg d, REWARD_DICT cfg = Some d -> dict_get (ENV_NAME cfg) d = None ->
     train jax brax cfg env w = (inl (KeyError (ENV_NAME cfg)), w)) /\
  train jax brax get_config env w = (inl (AttributeError "REWARD_DICT"), w).
Proof.
  assert (H1 : forall cfg, REWARD_DICT cfg = None ->
                 train jax brax cfg env w = (inl (AttributeError "REWARD_DICT"), w)).
  { intros cfg H. apply train_startup_error. unfold train_startup. cbv zeta.
    rewrite H. reflexivity. }
  split; [exact H1|]. split; [|apply H1; reflexivity].
  intros cfg d Hd Hk. apply train_startup_error. unfold train_startup. cbv zeta.
  rewrite Hd. cbn [rbind ok]. unfold dict_index. rewrite Hk. reflexivity.
Qed.

(** The default configuration, and the example with a reward
    decomposition for another environment only. *)
Lemma train_requires_reward_dict_witness :
  train (Example.jax 2) Example.brax get_config Example.env Example.world
  = (inl (AttributeError "REWARD_DICT"), Example.world) /\
  train (Example.jax 2) Example.brax
        (with_reward_dict get_config [("ant"%string, Example.reward_dict)])
        Example.env Example.world
  = (inl (KeyError "walker2d"), Example.world).
Proof.
  destruct (train_requires_reward_dict (Example.jax 2) Example.brax Example.env
              Example.world) as (H1 & H2 & _).
  split.
  - apply H1. reflexivity.
  - apply (H2 (with_reward_dict get_config [("ant"%string, Example.reward_dict)])
              [("ant"%string, Example.reward_dict)]); reflexivity.
Defined.

(** Property X3.  Two more startup failures of [train], both with a
    reward decomposition configured and [min_replay_size < num_timesteps]:
    with [num_envs = 0] the prefill step count divides by zero; and when
    the environment steps of the prefill,
    [ceil(min_replay_size / num_envs) * action_repeat * num_envs], exceed
    [num_timesteps], the assertion on the remaining budget fails.  No
    collaborator has been called by then. *)
Theorem train_rejects_unaffordable_prefill jax brax cfg env w d rd :
  REWARD_DICT cfg = Some d -> dict_get (ENV_NAME cfg) d = Some rd ->
  MIN_REPLAY_SIZE cfg < NUM_TIMESTEPS cfg ->
  (NUM_ENVS cfg = 0 ->
   train jax brax cfg env w = (inl ZeroDivisionError, w)) /\
  (NUM_ENVS cfg <> 0 ->
   NUM_TIMESTEPS cfg
   < - (- MIN_REPLAY_SIZE cfg / NUM_ENVS cfg) * (ACTION_REPEAT cfg * NUM_ENVS cfg) ->
   train jax brax cfg env w
   = (inl (AssertionError "num_timesteps - num_prefill_env_steps >= 0"), w)).
Proof.
  intros Hd Hrd Hmin.
  assert (Hge : (MIN_REPLAY_SIZE cfg >=? NUM_TIMESTEPS cfg) = false).
  { rewrite Z.geb_leb. apply Z.leb_gt. exact Hmin. }
  split.
  - intros Hn. apply train_startup_error. unfold train_startup. cbv zeta.
    rewrite Hd. cbn [rbind ok]. unfold dict_index. rewrite Hrd. cbn [rbind ok].
    destruct (process_bookkeeping jax cfg) as [ldu dc].
    rewrite Hge. cbn [rbind ok]. unfold floordiv at 1. rewrite Hn. reflexivity.
  - intros Hn Hover. apply train_startup_error. unfold train_startup. cbv zeta.
    rewrite Hd. cbn [rbind ok]. unfold dict_index. rewrite Hrd. cbn [rbind ok].
    destruct (process_bookkeeping jax cfg) as [ldu dc].
    rewrite Hge. cbn [rbind ok]. unfold floordiv at 1.
    destruct (NUM_ENVS cfg =? 0) eqn:E0; [apply Z.eqb_eq in E0; contradiction|].
    cbn [rbind ok]. unfold assert at 1.
    destruct (_ >=? 0) eqn:E1; [|reflexivity].
    rewrite Z.geb_leb in E1. apply Z.leb_le in E1. lia.
Qed.

(** Ten transitions of prefill on four environments take twelve
    environment steps, one more than a budget of eleven. *)
Lemma train_rejects_unaffordable_prefill_witness :
  train (Example.jax 2) Example.brax
        (with_budget Example.config 11 10 (Some 64) 4 3) Example.env Example.world
  = (inl (AssertionError "num_timesteps - num_prefill_env_steps >= 0"), Example.world)
  /\ train (Example.jax 2) Example.brax
           (with_budget Example.config 11 10 (Some 64) 0 3) Example.env Example.world
     = (inl ZeroDivisionError, Example.world).
Proof.
  split.
  - apply (train_rejects_unaffordable_prefill (Example.jax 2) Example.brax
             (with_budget Example.config 11 10 (Some 64) 4 3) Example.env Example.world
             [("walker2d"%string, Example.reward_dict)] Example.reward_dict).
    + reflexivity.
    + reflexivity.
    + cbn. lia.
    + cbn. lia.
    + vm_compute. reflexivity.
  - apply (train_rejects_unaffordable_prefill (Example.jax 2) Example.brax
             (with_budget Example.config 11 10 (Some 64) 0 3) Example.env Example.world
             [("walker2d"%string, Example.reward_dict)] Example.reward_dict).
    + reflexivity.
    + reflexivity.
    + cbn. lia.
    + reflexivity.
Defined.

(** ** Reshaping the leading axis *)

Lemma pieces_length {X} (m : nat) : forall g (l : list X), List.length (pieces m g l) = g.
Proof. induction g as [|g IH]; intros l; simpl; [reflexivity|]. rewrite IH. reflexivity. Qed.

Lemma pieces_concat {X} (m : nat) :
  forall g (l : list X), List.length l = (g * m)%nat -> List.concat (pieces m g l) = l.
Proof.
  induction g as [|g IH]; intros l H; simpl in *.
  - destruct l; [reflexivity|discriminate].
  - rewrite IH.
    + apply firstn_skipn.
    + rewrite length_skipn. lia.
Qed.

Lemma pieces_Forall_length {X} (m : nat) :
  forall g (l : list X), List.length l = (g * m)%nat ->
  Forall (fun p => List.length p = m) (pieces m g l).
Proof.
  induction g as [|g IH]; intros l H; simpl in *; constructor.
  - rewrite length_firstn. lia.
  - apply IH. rewrite length_skipn. lia.
Qed.

Lemma reshape_leading_ok {X} (g : Z) (l : list X) (m : nat) :
  0 < g -> Z.of_nat (List.length l) = g * Z.of_nat m ->
  reshape_leading g l = ok (pieces m (Z.to_nat g) l).
Proof.
  intros Hg Hl. unfold reshape_leading.
  destruct (g <=? 0) eqn:E; [apply Z.leb_le in E; lia|].
  rewrite Hl, Z.mul_comm, Z.mod_mul by lia. cbn [Z.eqb].
  rewrite Z.div_mul by lia. rewrite Nat2Z.id. reflexivity.
Qed.

Lemma reshape_leading_inv {X} (g : Z) (l : list X) ps :
  reshape_leading g l = ok ps ->
  0 < g /\ Z.of_nat (List.length l) mod g = 0 /\
  exists m : nat, List.length l = (Z.to_nat g * m)%nat /\ ps = pieces m (Z.to_nat g) l.
Proof.
  unfold reshape_leading.
  destruct (g <=? 0) eqn:E; [discriminate|]. apply Z.leb_gt in E.
  destruct (_ mod _ =? 0) eqn:Em; [|discriminate]. apply Z.eqb_eq in Em.
  intros [= <-]. split; [exact E|]. split; [exact Em|].
  exists (Z.to_nat (Z.of_nat (List.length l) / g)). split; [|reflexivity].
  apply Z.div_exact in Em; [|lia].
  assert (0 <= Z.of_nat (List.length l) / g) by (apply Z.div_pos; lia).
  apply Nat2Z.inj. rewrite Nat2Z.inj_mul, !Z2Nat.id by lia. exact Em.
Qed.

(** Property X4.  After a successful startup, on a positive number of
    local devices and processes, the reset keys of the environments
    reshape without error: each local device gets
    [num_envs / device_count] keys, taken in order from the
    [num_envs // process_count] keys split off [env_key], and over all
    devices of all processes that makes [num_envs] environments. *)
Theorem env_keys_divide_among_devices jax cfg st env_key :
  train_startup jax cfg = ok st ->
  0 < local_devices_to_use st -> 0 < process_count jax -> 0 < NUM_ENVS cfg ->
  exists groups,
    train_env_keys jax cfg st env_key = ok groups /\
    List.length groups = Z.to_nat (local_devices_to_use st) /\
    Forall (fun g => Z.of_nat (List.length g) = NUM_ENVS cfg / device_count st) groups /\
    List.concat groups
    = random_splits jax env_key (Z.to_nat (NUM_ENVS cfg / process_count jax)) /\
    device_count st = local_devices_to_use st * process_count jax /\
    device_count st * (NUM_ENVS cfg / device_count st) = NUM_ENVS cfg.
Proof.
  intros H Hl Hp Hn.
  destruct (train_startup_ok jax cfg st H)
    as (_ & Hpb & _ & _ & _ & _ & _ & _ & _ & _ & _ & _ & Hdc & Hr).
  assert (Edc : device_count st = local_devices_to_use st * process_count jax).
  { unfold process_bookkeeping in Hpb. cbv zeta in Hpb.
    injection Hpb as E1 E2. rewrite E2, <- E1. reflexivity. }
  assert (Hdpos : 0 < device_count st) by (rewrite Edc; nia).
  pose proof (Z.div_exact (NUM_ENVS cfg) (device_count st) Hdc) as [_ Hex].
  specialize (Hex Hr).
  set (m := NUM_ENVS cfg / device_count st) in *.
  assert (Hm : 0 <= m) by (apply Z.div_pos; lia).
  assert (En : NUM_ENVS cfg / process_count jax = local_devices_to_use st * m).
  { rewrite Hex, Edc.
    replace (local_devices_to_use st * process_count jax * m)
      with (local_devices_to_use st * m * process_count jax) by ring.
    apply Z.div_mul. lia. }
  unfold train_env_keys. cbv zeta. unfold floordiv.
  destruct (process_count jax =? 0) eqn:E0; [apply Z.eqb_eq in E0; lia|].
  cbn [rbind ok]. rewrite En.
  rewrite (reshape_leading_ok (local_devices_to_use st) _ (Z.to_nat m) Hl).
  2:{ unfold random_splits. rewrite length_map, length_seq, !Z2Nat.id by nia.
      reflexivity. }
  assert (Hlen : List.length
                   (random_splits jax env_key (Z.to_nat (local_devices_to_use st * m)))
                 = (Z.to_nat (local_devices_to_use st) * Z.to_nat m)%nat).
  { unfold random_splits. rewrite length_map, length_seq. apply Z2Nat.inj_mul; lia. }
  eexists. split; [reflexivity|]. split; [apply pieces_length|].
  split.
  - eapply Forall_impl; [|apply pieces_Forall_length; exact Hlen].
    intros g Hg. cbv beta in Hg. rewrite Hg. apply Z2Nat.id. exact Hm.
  - split; [apply pieces_concat; exact Hlen|].
    split; [exact Edc|]. symmetry. exact Hex.
Qed.

(** Four environments on the two devices of one process: two reset
    keys for each device. *)
Lemma env_keys_divide_among_devices_witness :
  exists groups,
    train_env_keys (Example.jax 2) Example.config Example.startup Example.key
    = ok groups /\
    List.length groups = 2%nat /\
    Forall (fun g => Z.of_nat (List.length g) = 2) groups.
Proof.
  destruct (env_keys_divide_among_devices (Example.jax 2) Example.config
              Example.startup Example.key)
    as (groups & H & Hl & Hf & _).
  - reflexivity.
  - reflexivity.
  - reflexivity.
  - reflexivity.
  - exists groups. split; [exact H|]. split; [exact Hl|exact Hf].
Defined.

Lemma map_nth_seq {X} (d : X) (l : list X) :
  map (fun i => nth i l d) (seq 0 (List.length l)) = l.
Proof.
  induction l as [|x l IH]; simpl; [reflexivity|].
  f_equal. rewrite <- seq_shift, map_map. exact IH.
Qed.

Lemma pieces_nth_length {X} (m g i : nat) (l : list X) :
  List.length l = (g * m)%nat -> (i < g)%nat ->
  List.length (nth i (pieces m g l) []) = m.
Proof.
  intros Hl Hi.
  pose proof (pieces_Forall_length m g l Hl) as F.
  rewrite Forall_forall in F. apply F. apply nth_In. rewrite pieces_length. exact Hi.
Qed.

Lemma concat_slices {X} (m g : nat) (l : list X) :
  List.length l = (g * m)%nat ->
  List.concat (map (fun i => nth i (pieces m g l) []) (seq 0 g)) = l.
Proof.
  intros Hl.
  replace (seq 0 g) with (seq 0 (List.length (pieces m g l)))
    by (rewrite pieces_length; reflexivity).
  rewrite map_nth_seq. apply pieces_concat. exact Hl.
Qed.

Lemma dict_reshape_leading_ok {X} (g : Z) (m : nat) (d : Dict (list X)) :
  0 < g ->
  Forall (fun kv => List.length (snd kv) = (Z.to_nat g * m)%nat) d ->
  dict_reshape_leading g d
  = ok (map (fun kv => (fst kv, pieces m (Z.to_nat g) (snd kv))) d).
Proof.
  intros Hg. unfold dict_reshape_leading, dict_mapM.
  induction d as [|[k v] d IH]; intros F; simpl; [reflexivity|].
  inversion F as [|? ? Hv Fd]; subst. simpl in Hv.
  rewrite (reshape_leading_ok g v m Hg)
    by (rewrite Hv, Nat2Z.inj_mul, Z2Nat.id by lia; reflexivity).
  cbn [rbind ok]. rewrite (IH Fd). reflexivity.
Qed.

Lemma dict_get_map_values {A B} (f : string * A -> B) (k : string) (d : Dict A) :
  dict_get k (map (fun kv => (fst kv, f kv)) d)
  = match dict_get k d with
    | Some v => Some (f (k, v))
    | None => None
    end.
Proof.
  induction d as [|[k1 v1] d IH]; simpl; [reflexivity|].
  destruct (String.eqb_spec k k1) as [->|Hne]; [reflexivity|exact IH].
Qed.

Lemma entry_dict_slice {X} (m g i : nat) (k : string) (d : Dict (list X)) (v : list X) :
  dict_get k d = Some v ->
  entry k (dict_slice i (map (fun kv => (fst kv, pieces m g (snd kv))) d))
  = nth i (pieces m g v) [].
Proof.
  intros H. unfold entry, dict_slice. rewrite map_map. cbn [fst snd].
  rewrite (dict_get_map_values (fun kv => nth i (pieces m g (snd kv)) []) k d).
  rewrite H. reflexivity.
Qed.

Lemma dict_slice_shaped {X} (m g i : nat) (d : Dict (list X)) :
  (i < g)%nat ->
  Forall (fun kv => List.length (snd kv) = (g * m)%nat) d ->
  Forall (fun kv => List.length (snd kv) = m)
         (dict_slice i (map (fun kv => (fst kv, pieces m g (snd kv))) d)).
Proof.
  intros Hi F. unfold dict_slice. rewrite map_map. apply Forall_map.
  eapply Forall_impl; [|exact F]. intros [k v] Hv. cbn [fst snd] in *.
  apply pieces_nth_length; assumption.
Qed.

Lemma reshape_transitions_ok (g : Z) (m : nat) (t : Transition) :
  0 < g -> batch_shaped (Z.to_nat g * m) t ->
  exists slices,
    reshape_transitions g t = ok slices /\
    List.length slices = Z.to_nat g /\
    Forall (batch_shaped m) slices /\
    List.concat (map observation slices) = observation t /\
    List.concat (map action slices) = action t /\
    List.concat (map reward slices) = reward t /\
    List.concat (map discount slices) = discount t /\
    List.concat (map next_observation slices) = next_observation t /\
    (forall k v, dict_get k (sub_rewards t) = Some v ->
       List.concat (map (fun s => entry k (sub_rewards s)) slices) = v) /\
    (forall k v, dict_get k (state_extras (extras t)) = Some v ->
       List.concat (map (fun s => entry k (state_extras (extras s))) slices) = v).
Proof.
  intros Hg (Ho & Ha & Hr & Hs & Hd & Hn & Hp & He).
  set (G := Z.to_nat g) in *.
  assert (Hz : forall X (l : list X), List.length l = (G * m)%nat ->
                 Z.of_nat (List.length l) = g * Z.of_nat m).
  { intros X l Hl. rewrite Hl, Nat2Z.inj_mul. unfold G. rewrite Z2Nat.id by lia.
    reflexivity. }
  unfold reshape_transitions.
  rewrite (reshape_leading_ok g _ m Hg (Hz _ _ Ho)). cbn [rbind ok].
  rewrite (reshape_leading_ok g _ m Hg (Hz _ _ Ha)). cbn [rbind ok].
  rewrite (reshape_leading_ok g _ m Hg (Hz _ _ Hr)). cbn [rbind ok].
  rewrite (dict_reshape_leading_ok g m _ Hg Hs). cbn [rbind ok].
  rewrite (reshape_leading_ok g _ m Hg (Hz _ _ Hd)). cbn [rbind ok].
  rewrite (reshape_leading_ok g _ m Hg (Hz _ _ Hn)). cbn [rbind ok].
  rewrite (dict_reshape_leading_ok g m _ Hg Hp). cbn [rbind ok].
  rewrite (dict_reshape_leading_ok g m _ Hg He). cbn [rbind ok].
  fold G. eexists. split; [reflexivity|].
  split; [rewrite length_map, length_seq; reflexivity|].
  split.
  { apply Forall_map. apply Forall_forall. intros i Hi.
    apply in_seq in Hi. destruct Hi as [_ Hi]. simpl in Hi.
    unfold batch_shaped. cbn [observation action reward sub_rewards discount
                              next_observation extras policy_extras state_extras].
    repeat split; try (apply pieces_nth_length; assumption);
      apply dict_slice_shaped; assumption. }
  rewrite !map_map.
  cbn [observation action reward sub_rewards discount next_observation extras
       state_extras].
  split; [apply concat_slices; exact Ho|].
  split; [apply concat_slices; exact Ha|].
  split; [apply concat_slices; exact Hr|].
  split; [apply concat_slices; exact Hd|].
  split; [apply concat_slices; exact Hn|].
  split.
  - intros k v Hk. rewrite map_map.
    cbn [sub_rewards extras state_extras].
    rewrite (map_ext _ (fun i => nth i (pieces m G v) []))
      by (intros i; apply entry_dict_slice; exact Hk).
    apply concat_slices. rewrite Forall_forall in Hs.
    assert (Hin : In (k, v) (sub_rewards t)).
    { clear -Hk. induction (sub_rewards t) as [|[k1 v1] d IH]; simpl in *;
        [discriminate|].
      destruct (String.eqb_spec k k1) as [->|Hne];
        [injection Hk as ->; left; reflexivity|right; auto]. }
    exact (Hs _ Hin).
  - intros k v Hk. rewrite map_map.
    cbn [sub_rewards extras state_extras].
    rewrite (map_ext _ (fun i => nth i (pieces m G v) []))
      by (intros i; apply entry_dict_slice; exact Hk).
    apply concat_slices. rewrite Forall_forall in He.
    assert (Hin : In (k, v) (state_extras (extras t))).
    { clear -Hk. induction (state_extras (extras t)) as [|[k1 v1] d IH]; simpl in *;
        [discriminate|].
      destruct (String.eqb_spec k k1) as [->|Hne];
        [injection Hk as ->; left; reflexivity|right; auto]. }
    exact (He _ Hin).
Qed.

(** Property X5.  The [jax.tree_map] of [training_step] that gives the
    sampled batch its leading axis [grad_updates_per_step] succeeds
    exactly when that number is positive and divides the batch.  It then
    cuts every array of the batch into [grad_updates_per_step] slices of
    equal size, and the slices, taken in order, make up the batch again:
    no sampled transition is dropped or used twice by the gradient steps
    of one training step. *)
Theorem reshape_transitions_round_trip (g : Z) (n : nat) (t : Transition) :
  batch_shaped n t ->
  (0 < g /\ Z.of_nat n mod g = 0 ->
   exists slices,
     reshape_transitions g t = ok slices /\
     List.length slices = Z.to_nat g /\
     Forall (batch_shaped (n / Z.to_nat g)) slices /\
     List.concat (map observation slices) = observation t /\
     List.concat (map action slices) = action t /\
     List.concat (map reward slices) = reward t /\
     List.concat (map discount slices) = discount t /\
     List.concat (map next_observation slices) = next_observation t /\
     (forall k v, dict_get k (sub_rewards t) = Some v ->
        List.concat (map (fun s => entry k (sub_rewards s)) slices) = v) /\
     (forall k v, dict_get k (state_extras (extras t)) = Some v ->
        List.concat (map (fun s => entry k (state_extras (extras s))) slices) = v))
  /\ (g <= 0 \/ Z.of_nat n mod g <> 0 ->
      exists e, reshape_transitions g t = throw e).
Proof.
  intros Hb. split.
  - intros [Hg Hm].
    assert (Hn : n = (Z.to_nat g * (n / Z.to_nat g))%nat).
    { apply Z.div_exact in Hm; [|lia].
      assert (0 <= Z.of_nat n / g) by (apply Z.div_pos; lia).
      assert (E : n = (Z.to_nat g * Z.to_nat (Z.of_nat n / g))%nat).
      { apply Nat2Z.inj. rewrite Nat2Z.inj_mul, !Z2Nat.id by lia. exact Hm. }
      assert (Ek : (n / Z.to_nat g)%nat = Z.to_nat (Z.of_nat n / g)).
      { rewrite E at 1. rewrite Nat.mul_comm. apply Nat.div_mul. lia. }
      rewrite Ek. exact E. }
    apply reshape_transitions_ok; [exact Hg|]. rewrite <- Hn. exact Hb.
  - intros Hbad. destruct Hb as (Ho & _).
    unfold reshape_transitions, reshape_leading at 1. rewrite Ho.
    destruct (g <=? 0) eqn:E; [eexists; reflexivity|].
    apply Z.leb_gt in E.
    destruct (Z.of_nat n mod g =? 0) eqn:Em; [|eexists; reflexivity].
    apply Z.eqb_eq in Em. destruct Hbad; [lia|contradiction].
Qed.

(** The batch of two transitions of the example, cut for two gradient
    steps; it cannot be cut for three. *)
Lemma reshape_transitions_round_trip_witness :
  (exists slices,
      reshape_transitions 2 Example.transitions = ok slices /\
      List.concat (map observation slices) = observation Example.transitions) /\
  (exists e, reshape_transitions 3 Example.transitions = throw e).
Proof.
  assert (Hb : batch_shaped 2 Example.transitions).
  { unfold batch_shaped. cbn. repeat split; repeat constructor. }
  split.
  - destruct (reshape_transitions_round_trip 2 2 Example.transitions Hb) as [H _].
    destruct H as (slices & Hs & _ & _ & Ho & _); [split; [lia|reflexivity]|].
    exists slices. split; [exact Hs|exact Ho].
  - destruct (reshape_transitions_round_trip 3 2 Example.transitions Hb) as [_ H].
    apply H. right. cbn. discriminate.
Defined.

Lemma train_replay_buffer_sizes cfg env st rb :
  train_replay_buffer cfg env st = ok rb ->
  device_count st <> 0 /\
  max_replay_size rb = max_replay_size_of st / device_count st /\
  sample_batch_size rb
  = BATCH_SIZE cfg * GRAD_UPDATES_PER_STEP cfg / device_count st /\
  sub_rewards (dummy_data_sample rb)
  = map (fun kv => (fst kv, [snd kv])) (reward_dict_of st).
Proof.
  unfold train_replay_buffer. cbv zeta. unfold floordiv.
  destruct (device_count st =? 0) eqn:E; [discriminate|]. apply Z.eqb_neq in E.
  cbn [rbind ok]. intros [= <-]. cbn. auto.
Qed.

(** Property X6.  When the device count divides [batch_size], the batch
    a replica samples for one training step,
    [batch_size * grad_updates_per_step // device_count] transitions,
    reshapes without error into [grad_updates_per_step] slices of
    [batch_size / device_count] transitions: that is the batch every
    [sgd_step] of the step is given, on every replica. *)
Theorem sampled_batch_splits_evenly cfg env st rb t :
  train_replay_buffer cfg env st = ok rb ->
  0 < device_count st -> 0 < GRAD_UPDATES_PER_STEP cfg -> 0 <= BATCH_SIZE cfg ->
  BATCH_SIZE cfg mod device_count st = 0 ->
  batch_shaped (Z.to_nat (sample_batch_size rb)) t ->
  sample_batch_size rb
  = GRAD_UPDATES_PER_STEP cfg * (BATCH_SIZE cfg / device_count st) /\
  exists slices,
    reshape_transitions (GRAD_UPDATES_PER_STEP cfg) t = ok slices /\
    List.length slices = Z.to_nat (GRAD_UPDATES_PER_STEP cfg) /\
    Forall (batch_shaped (Z.to_nat (BATCH_SIZE cfg / device_count st))) slices.
Proof.
  intros Hrb Hd Hg Hb Hdiv Ht.
  destruct (train_replay_buffer_sizes cfg env st rb Hrb) as (_ & _ & Hs & _).
  apply Z.div_exact in Hdiv; [|lia].
  set (q := BATCH_SIZE cfg / device_count st) in *.
  assert (Hq : 0 <= q) by (apply Z.div_pos; lia).
  assert (Es : sample_batch_size rb = GRAD_UPDATES_PER_STEP cfg * q).
  { rewrite Hs, Hdiv.
    replace (device_count st * q * GRAD_UPDATES_PER_STEP cfg)
      with (GRAD_UPDATES_PER_STEP cfg * q * device_count st) by ring.
    apply Z.div_mul. lia. }
  split; [exact Es|].
  rewrite Es, Z2Nat.inj_mul in Ht by lia.
  destruct (reshape_transitions_ok (GRAD_UPDATES_PER_STEP cfg) (Z.to_nat q) t Hg Ht)
    as (slices & H1 & H2 & H3 & _).
  exists slices. auto.
Qed.

(** A batch size of 4 and 2 gradient updates per step on 2 devices: a
    replica samples 4 transitions and each of its 2 gradient steps is
    given 2 of them. *)
Lemma sampled_batch_splits_evenly_witness :
  exists rb slices,
    train_replay_buffer (with_batch Example.config 4 2) Example.env Example.startup
    = ok rb /\
    sample_batch_size rb = 4 /\
    reshape_transitions 2 four_transitions = ok slices /\
    Forall (batch_shaped 2) slices.
Proof.
  pose (rb := match train_replay_buffer (with_batch Example.config 4 2) Example.env
                                       Example.startup with
              | inr r => r
              | inl _ => Example.replay_buffer
              end).
  exists rb.
  destruct (sampled_batch_splits_evenly (with_batch Example.config 4 2) Example.env
              Example.startup rb four_transitions)
    as (Hs & slices & Hr & _ & Hf).
  - reflexivity.
  - reflexivity.
  - reflexivity.
  - discriminate.
  - reflexivity.
  - unfold batch_shaped. cbn. repeat split; repeat constructor.
  - exists slices. split; [reflexivity|]. split; [exact Hs|]. split; [exact Hr|exact Hf].
Defined.

(** ** Acting *)

Lemma sequence_lookup_cases {V} (m : Dict V) (ks : list string) :
  (exists l,
      sequence (map (fun k => rbind (dict_index m k) (fun v => ok (k, v))) ks) = inr l /\
      keys l = ks /\
      (forall k, In k ks -> dict_get k m <> None /\ dict_get k l = dict_get k m) /\
      (forall k, ~ In k ks -> dict_get k l = None))
  \/ (exists k,
        In k ks /\ dict_get k m = None /\
        sequence (map (fun k => rbind (dict_index m k) (fun v => ok (k, v))) ks)
        = inl (KeyError k)).
Proof.
  induction ks as [|k ks IH]; simpl.
  - left. exists []. split; [reflexivity|]. split; [reflexivity|].
    split; intros k0 H0; [destruct H0|reflexivity].
  - unfold dict_index at 1 3. destruct (dict_get k m) as [v|] eqn:E.
    + cbn [rbind ok]. destruct IH as [(l & Hl & Hk & Hin & Hout)|(k' & Hin & Hm & Hf)].
      * left. exists ((k, v) :: l). rewrite Hl. cbn [rbind ok].
        split; [reflexivity|]. split; [simpl; rewrite Hk; reflexivity|]. split.
        -- intros k0 [<-|H0].
           ++ simpl. rewrite String.eqb_refl. split; congruence.
           ++ simpl. destruct (String.eqb_spec k0 k) as [->|Hne].
              ** split; congruence.
              ** apply Hin. exact H0.
        -- intros k0 Hnot. simpl.
           destruct (String.eqb_spec k0 k) as [->|Hne].
           ++ exfalso. apply Hnot. left. reflexivity.
           ++ apply Hout. intros H0. apply Hnot. right. exact H0.
      * right. exists k'. rewrite Hf. cbn [rbind]. auto.
    + right. exists k. cbn [rbind]. auto.
Qed.

Lemma bind_lift_ok' {A B} (a : A) (k : A -> M B) w :
  bind (lift (ok a)) k w = k a w.
Proof. reflexivity. Qed.

(** Property X7.  [actor_step] with a reward decomposition steps the
    environment exactly once with the action of the policy.  When the
    stepped state reports every extra field in [info] and every reward
    key in [metrics], the transition it returns holds the observation
    before the step, the action, the reward, [1 - done], the observation
    after the step, the extras of the policy, and under each reward key
    (and under no other key) the metric of that name.  Otherwise it
    raises [KeyError] for a missing field or key, after the environment
    step.  Only the keys of the reward decomposition are read: its
    weights have no influence. *)
Theorem actor_step_transition env es policy key rd fields w :
  let actions := fst (policy (obs es) key) in
  let nstate := step env es actions in
  let run := actor_step env es policy key (Some rd) (Some fields) w in
  ((forall x, In x fields -> dict_get x (info nstate) <> None) ->
   (forall k, In k (keys rd) -> dict_get k (metrics nstate) <> None) ->
   exists tr,
     run = (inr (nstate, tr), with_call w [Call_env_step]) /\
     observation tr = obs es /\
     action tr = actions /\
     reward tr = env_reward nstate /\
     discount tr = map (fun d => 1 - d)%Q (done nstate) /\
     next_observation tr = obs nstate /\
     policy_extras (extras tr) = snd (policy (obs es) key) /\
     (forall k, In k (keys rd) ->
                dict_get k (sub_rewards tr) = dict_get k (metrics nstate)) /\
     (forall k, ~ In k (keys rd) -> dict_get k (sub_rewards tr) = None) /\
     (forall x, In x fields ->
                dict_get x (state_extras (extras tr)) = dict_get x (info nstate)))
  /\ ((exists x, In x fields /\ dict_get x (info nstate) = None) \/
      (exists k, In k (keys rd) /\ dict_get k (metrics nstate) = None) ->
      exists k,
        run = (inl (KeyError k), with_call w [Call_env_step]) /\
        (In k fields /\ dict_get k (info nstate) = None \/
         In k (keys rd) /\ dict_get k (metrics nstate) = None))
  /\ (forall rd', keys rd' = keys rd ->
        actor_step env es policy key (Some rd') (Some fields) w = run).
Proof.
  cbv zeta. unfold actor_step. cbn [required]. rewrite !bind_lift_ok.
  destruct (policy (obs es) key) as [actions policy_extras]. cbn [fst snd].
  rewrite !bind_emit. fold (with_call w [Call_env_step]).
  destruct (sequence_lookup_cases (info (step env es actions)) fields)
    as [(l1 & H1 & K1 & In1 & Out1)|(x & Hx & Mx & F1)].
  - rewrite H1, bind_lift_ok.
    destruct (sequence_lookup_cases (metrics (step env es actions)) (keys rd))
      as [(l2 & H2 & K2 & In2 & Out2)|(k & Hk & Mk & F2)].
    + rewrite H2, bind_lift_ok. split; [|split].
      * intros _ _. eexists. split; [reflexivity|]. cbn.
        repeat split; try reflexivity.
        -- intros k Hk. apply In2. exact Hk.
        -- exact Out2.
        -- intros x Hx. apply In1. exact Hx.
      * intros [(x & Hx & Mx)|(k & Hk & Mk)].
        -- exfalso. apply (proj1 (In1 x Hx)). exact Mx.
        -- exfalso. apply (proj1 (In2 k Hk)). exact Mk.
      * intros rd' E. rewrite bind_lift_ok', bind_emit, bind_lift_ok.
        rewrite E, H2, bind_lift_ok. reflexivity.
    + rewrite F2, bind_lift_err. split; [|split].
      * intros _ Hall. exfalso. apply (Hall k Hk). exact Mk.
      * intros _. exists k. split; [reflexivity|]. right. auto.
      * intros rd' E. rewrite bind_lift_ok', bind_emit, bind_lift_ok.
        rewrite E, F2, bind_lift_err. reflexivity.
  - rewrite F1, bind_lift_err. split; [|split].
    + intros Hall _. exfalso. apply (Hall x Hx). exact Mx.
    + intros _. exists x. split; [reflexivity|]. left. auto.
    + intros rd' E. reflexivity.
Qed.

(** Two environments of the example: the step returns a transition with
    both sub-rewards, and a reward key the environment does not report
    raises [KeyError]. *)
Lemma actor_step_transition_witness :
  let es := reset Example.env [Example.key; Example.key] in
  let policy := make_inference_fn Example.brax Example.sac_network ([], [[0%Q]]) in
  (exists nstate tr,
      actor_step Example.env es policy Example.key (Some Example.reward_dict)
                 (Some ["truncation"%string]) Example.world
      = (inr (nstate, tr), with_call Example.world [Call_env_step]) /\
      dict_get "forward" (sub_rewards tr) = dict_get "forward" (metrics nstate)) /\
  (exists k,
      actor_step Example.env es policy Example.key (Some [("height"%string, 1%Q)])
                 (Some ["truncation"%string]) Example.world
      = (inl (KeyError k), with_call Example.world [Call_env_step])).
Proof.
  cbv zeta. split.
  - destruct (actor_step_transition Example.env
                (reset Example.env [Example.key; Example.key])
                (make_inference_fn Example.brax Example.sac_network ([], [[0%Q]]))
                Example.key Example.reward_dict ["truncation"%string] Example.world)
      as [H _].
    destruct H as (tr & Hrun & _ & _ & _ & _ & _ & _ & Hsub & _).
    + intros x [<-|[]]. discriminate.
    + intros k [<-|[<-|[]]]; discriminate.
    + eexists _, tr. split; [exact Hrun|]. apply Hsub. right. left. reflexivity.
  - destruct (actor_step_transition Example.env
                (reset Example.env [Example.key; Example.key])
                (make_inference_fn Example.brax Example.sac_network ([], [[0%Q]]))
                Example.key [("height"%string, 1%Q)] ["truncation"%string]
                Example.world)
      as (_ & H & _).
    destruct H as (k & Hrun & _).
    + right. exists "height"%string. split; [left; reflexivity|reflexivity].
    + exists k. exact Hrun.
Defined.

(** ** The prefill *)

Lemma replace_normalizer_env_steps_id ts :
  replace_normalizer_env_steps ts (normalizer_params ts) (env_steps ts) = ts.
Proof. destruct ts; reflexivity. Qed.

Lemma prefill_f_state jax brax locals ts es bs key w :
  well_formed brax (l_env locals) (l_reward_dict locals) ->
  0 < max_replay_size (l_replay_buffer locals) ->
  Z.of_nat (List.length (obs es)) <= max_replay_size (l_replay_buffer locals) ->
  exists norm' es' bs' key' w',
    prefill_replay_buffer_f jax brax locals (ts, es, bs, key) tt w
    = (inr ((replace_normalizer_env_steps
               ts norm'
               (env_steps ts + inject_Z (l_env_steps_per_actor_step locals))%Q,
             es', bs', key'), tt), w') /\
    List.length (obs es') = List.length (obs es).
Proof.
  intros Hwf Hc Hn. unfold prefill_replay_buffer_f, random_split2.
  cbv beta iota zeta.
  destruct (get_experience_ok brax locals (normalizer_params ts) (policy_params ts)
              es bs (random_split jax key 2 0) w Hwf Hc Hn)
    as (norm' & es' & bs' & He & Hl & _).
  erewrite bind_inr by exact He. cbv beta iota zeta.
  eexists _, _, _, _, _. split; [reflexivity|exact Hl].
Qed.

Lemma prefill_scan_state jax brax locals (b : nat) :
  well_formed brax (l_env locals) (l_reward_dict locals) ->
  0 < max_replay_size (l_replay_buffer locals) ->
  Z.of_nat b <= max_replay_size (l_replay_buffer locals) ->
  forall n ts es bs key w,
    List.length (obs es) = b ->
    exists norm' steps' es' bs' key' w',
      scan_loop (prefill_replay_buffer_f jax brax locals) (ts, es, bs, key)
                (repeat tt n) w
      = (inr ((replace_normalizer_env_steps ts norm' steps', es', bs', key'),
              repeat tt n), w') /\
      (steps' == env_steps ts
                 + inject_Z (Z.of_nat n * l_env_steps_per_actor_step locals))%Q.
Proof.
  intros Hwf Hc Hb. induction n as [|n IH]; intros ts es bs key w Hes.
  - exists (normalizer_params ts), (env_steps ts), es, bs, key, w.
    rewrite replace_normalizer_env_steps_id. split; [reflexivity|].
    cbn. ring.
  - cbn [repeat scan_loop].
    destruct (prefill_f_state jax brax locals ts es bs key w Hwf Hc)
      as (norm1 & es1 & bs1 & key1 & w1 & Hf & Hl1).
    { rewrite Hes. exact Hb. }
    erewrite bind_inr by exact Hf. cbv beta iota.
    destruct (IH (replace_normalizer_env_steps
                    ts norm1
                    (env_steps ts + inject_Z (l_env_steps_per_actor_step locals))%Q)
                 es1 bs1 key1 w1)
      as (norm2 & steps2 & es2 & bs2 & key2 & w2 & Hloop & Hsteps).
    { congruence. }
    erewrite bind_inr by exact Hloop. cbv beta iota.
    exists norm2, steps2, es2, bs2, key2, w2. split; [reflexivity|].
    rewrite Hsteps. cbn [env_steps replace_normalizer_env_steps].
    rewrite Nat2Z.inj_succ, Z.mul_succ_l, inject_Z_plus. ring.
Qed.

(** Property X8.  The prefill of one replica changes two fields of the
    training state only, the normaliser statistics and the counter of
    environment steps: every parameter tree, every optimiser state and
    the gradient-step counter are the ones it was given.  The counter of
    environment steps advances by
    [num_prefill_actor_steps * env_steps_per_actor_step]. *)
Theorem prefill_advances_env_steps jax brax locals ts es bs key w :
  well_formed brax (l_env locals) (l_reward_dict locals) ->
  0 < max_replay_size (l_replay_buffer locals) ->
  Z.of_nat (List.length (obs es)) <= max_replay_size (l_replay_buffer locals) ->
  exists norm' steps' es' bs' key' w',
    prefill_replay_buffer jax brax locals (ts, es, bs, key) w
    = (inr (replace_normalizer_env_steps ts norm' steps', es', bs', key'), w') /\
    (steps' == env_steps ts
               + inject_Z (Z.of_nat (Z.to_nat (l_num_prefill_actor_steps locals))
                           * l_env_steps_per_actor_step locals))%Q.
Proof.
  intros Hwf Hc Hn. unfold prefill_replay_buffer, lax_scan_length, lax_scan.
  destruct (prefill_f_state jax brax locals ts es bs key w Hwf Hc Hn)
    as (norm0 & es0 & bs0 & key0 & w0 & Hf & _).
  rewrite bind_assoc.
  assert (Hst : staged (prefill_replay_buffer_f jax brax locals (ts, es, bs, key) tt) w
                = (inr tt, w)).
  { unfold staged. rewrite Hf. reflexivity. }
  erewrite bind_inr by exact Hst.
  destruct (prefill_scan_state jax brax locals (List.length (obs es)) Hwf Hc Hn
              (Z.to_nat (l_num_prefill_actor_steps locals)) ts es bs key w eq_refl)
    as (norm' & steps' & es' & bs' & key' & w' & Hloop & Hsteps).
  erewrite bind_inr by exact Hloop. cbv beta iota.
  exists norm', steps', es', bs', key', w'. split; [reflexivity|exact Hsteps].
Qed.

(** Three prefill steps on a replica of the example with two
    environments, counted as four environment steps each. *)
Lemma prefill_advances_env_steps_witness :
  exists ts' es' bs' key' w',
    prefill_replay_buffer (Example.jax 2) Example.brax Example.locals
      (Example.training_state, reset Example.env [Example.key; Example.key],
       Example.empty_buffer, Example.key) Example.world
    = (inr (ts', es', bs', key'), w') /\
    (env_steps ts' == 12)%Q /\
    sub_q_params ts' = sub_q_params Example.training_state.
Proof.
  destruct (prefill_advances_env_steps (Example.jax 2) Example.brax Example.locals
              Example.training_state (reset Example.env [Example.key; Example.key])
              Example.empty_buffer Example.key Example.world)
    as (norm' & steps' & es' & bs' & key' & w' & Hrun & Hsteps).
  - exact example_well_formed.
  - reflexivity.
  - cbn. lia.
  - eexists _, es', bs', key', w'. split; [exact Hrun|].
    split; [|reflexivity]. cbn [env_steps replace_normalizer_env_steps].
    rewrite Hsteps. reflexivity.
Defined.

(** ** The training step and the training epoch *)

Lemma lax_scan_body_fails {C X Y} (f : C -> X -> M (C * Y)) init x xs w e w' :
  f init x w = (inl e, w') -> lax_scan f init x xs w = (inl e, w).
Proof.
  intros H. unfold lax_scan, bind, staged. rewrite H. reflexivity.
Qed.

Lemma training_step_fails jax brax locals ts es bs key w :
  exists e w', training_step jax brax locals ts es bs key w = (inl e, w').
Proof.
  unfold training_step, random_split2. cbv beta iota zeta.
  apply bind_fails. intros [[norm' es'] bs'] w1.
  apply bind_fails. intros [bs'' tr] w2.
  apply bind_fails. intros trs w3.
  match goal with
  | |- context [lax_scan ?f (?t, ?k) ?x ?xs] =>
      destruct (sgd_step_run jax locals t k x w3) as (e & w4 & n & Hrun & _)
  end.
  exists e, w3. apply bind_inl. eapply lax_scan_body_fails. exact Hrun.
Qed.

Lemma training_epoch_fails jax brax locals args w :
  exists e, training_epoch jax brax locals args w = (inl e, w).
Proof.
  destruct args as [[[ts es] bs] key].
  destruct (training_step_fails jax brax locals ts es bs
              (fst (random_split2 jax key)) w) as (e & w' & H).
  exists e. unfold training_epoch, lax_scan_length. apply bind_inl.
  eapply lax_scan_body_fails. unfold training_epoch_f. 
  destruct (random_split2 jax key) as [k new_key]. cbn [fst] in H.
  apply bind_inl. exact H.
Qed.

Lemma zip4_cons ts tss ess bss keys args :
  zip4 (ts :: tss) ess bss keys = ok args -> exists a args', args = a :: args'.
Proof.
  unfold zip4, zip_strict. intros H.
  rbind_inv H. rbind_inv H.
  apply map2_strict_length in Ha, Ha0, H.
  destruct Ha as [L1 _]. destruct Ha0 as [L2 _]. destruct H as [L3 _].
  destruct args as [|x args']; [|eauto].
  simpl in *. destruct a0; [|discriminate]. destruct a; discriminate.
Qed.

(** Property X9.  No training step can be taken.  [training_step] raises
    on every input, because the [sgd_step] it scans over never returns;
    and since the body of a scan is staged before its first iteration,
    [training_epoch] raises before any environment step, buffer
    insertion or gradient update, even for an epoch of zero steps.  The
    timed epoch of [train], on at least one replica, so fails after one
    reading of the clock and no other effect. *)
Theorem training_epoch_never_runs jax brax locals :
  (forall ts es bs key w,
      exists e w', training_step jax brax locals ts es bs key w = (inl e, w')) /\
  (forall args w,
      exists e, training_epoch jax brax locals args w = (inl e, w)) /\
  (forall walltime ts tss ess bss keys w,
      exists e w',
        training_epoch_with_timing jax brax locals walltime (ts :: tss, ess, bss)
                                   keys w = (inl e, w') /\
        calls w' = calls w /\ ticks w' = S (ticks w)).
Proof.
  split; [|split].
  - apply training_step_fails.
  - apply training_epoch_fails.
  - intros walltime ts tss ess bss keys w.
    unfold training_epoch_with_timing. rewrite bind_time.
    destruct (zip4 (ts :: tss) ess bss keys) as [e|args] eqn:Ez.
    + rewrite bind_lift_err. eexists _, _. split; [reflexivity|]. split; reflexivity.
    + rewrite bind_lift_ok.
      destruct (zip4_cons _ _ _ _ _ _ Ez) as (a & args' & ->).
      match goal with
      | |- context [bind (pmap _ _) ?k ?w1] =>
          destruct (training_epoch_fails jax brax locals a w1) as [e He]
      end.
      exists e. eexists. split.
      * apply bind_inl. unfold pmap. cbn [mapM]. apply bind_inl. exact He.
      * split; reflexivity.
Qed.

(** ** The losses *)

Local Open Scope Q_scope.

Lemma sum_nonneg (l : Array) : Forall (fun x => 0 <= x) l -> 0 <= sum l.
Proof.
  unfold sum. induction 1 as [|x l Hx _ IH]; simpl; [apply Qle_refl|]. lra.
Qed.

Lemma mean_nonneg (l : Array) : Forall (fun x => 0 <= x) l -> 0 <= mean l.
Proof.
  intros H. unfold mean, Qdiv. apply Qmult_le_0_compat; [apply sum_nonneg; exact H|].
  apply Qinv_le_0_compat. change 0 with (inject_Z 0). rewrite <- Zle_Qle. lia.
Qed.

Lemma sum_zero (l : Array) : Forall (fun x => x == 0) l -> sum l == 0.
Proof.
  unfold sum. induction 1 as [|x l Hx _ IH]; simpl; [reflexivity|].
  rewrite Hx, IH. ring.
Qed.

Lemma square_nonneg (x : Q) : 0 <= square x.
Proof. unfold square. nra. Qed.

Lemma dict_mapM_values {A B} (f : A -> Result B) (d : Dict A) z :
  dict_mapM f d = inr z ->
  Forall (fun b => exists a, In a (values d) /\ f a = inr b) (values z).
Proof.
  unfold dict_mapM, values. revert z.
  induction d as [|[k a] d IH]; intros z H; simpl in *.
  - injection H as <-. constructor.
  - rbind_inv H. rbind_inv H. injection H as <-.
    rbind_inv Ha. injection Ha as <-. simpl. constructor.
    + exists a. auto.
    + eapply Forall_impl; [|apply IH; exact Ha0].
      intros b (a' & Hin & Hf). exists a'. auto.
Qed.

Lemma map2_strict_Forall {A B C} (f : A -> B -> Result C) (P : C -> Prop) :
  forall xs ys zs, map2_strict f xs ys = inr zs ->
  (forall x y z, In y ys -> f x y = inr z -> P z) -> Forall P zs.
Proof.
  induction xs as [|x xs IH]; intros [|y ys] zs H HP; simpl in H; try discriminate.
  - injection H as <-. constructor.
  - rbind_inv H. rbind_inv H. injection H as <-. constructor.
    + apply (HP x y); [left; reflexivity|exact Ha].
    + apply (IH ys); [exact Ha0|]. intros x' y' z' Hin. apply HP. right. exact Hin.
Qed.

Lemma critic_loss_nonneg net rs disc q p norm tq alpha tr reward key l :
  _critic_loss net rs disc q p norm tq alpha tr reward key = ok l -> 0 <= l.
Proof.
  unfold _critic_loss. intros H. rbind_inv H. injection H as <-.
  apply Qmult_le_0_compat; [discriminate|].
  apply mean_nonneg. apply Forall_map. apply Forall_forall.
  intros x _. apply square_nonneg.
Qed.

(** Property X10.  On a non-empty batch (the mean of an empty one is
    not a number) the critic loss of a reward key is never negative, and
    it is 0 when every transition of the batch is truncated; the
    sub-critic loss, the sum of the critic losses over the reward keys,
    is never negative either. *)
Theorem sub_q_loss_nonnegative jax net rs disc :
  (forall q p norm tq alpha tr reward key l,
      List.concat (q_network_apply net norm q (observation tr) (action tr)) <> [] ->
      _critic_loss net rs disc q p norm tq alpha tr reward key = ok l ->
      0 <= l /\
      forall truncation,
        dict_get "truncation" (state_extras (extras tr)) = Some truncation ->
        Forall (fun t => t == 1) truncation -> l == 0) /\
  (forall sq sp norm stq alpha tr key l,
      (forall k q, dict_get k sq = Some q ->
         List.concat (q_network_apply net norm q (observation tr) (action tr)) <> []) ->
      sub_q_loss jax net rs disc sq sp norm stq alpha tr key = ok l -> 0 <= l).
Proof.
  split.
  - intros q p norm tq alpha tr reward key l _ H.
    split; [exact (critic_loss_nonneg _ _ _ _ _ _ _ _ _ _ _ _ H)|].
    intros truncation Ht Hall. unfold _critic_loss in H. rbind_inv H.
    injection H as <-. unfold _critic_q_error in Ha.
    rbind_inv Ha. rbind_inv Ha. rbind_inv Ha.
    unfold dict_index in Ha2. rewrite Ht in Ha2. injection Ha2 as <-.
    assert (Hz : Forall (Forall (fun e => e == 0)) a).
    { apply (map2_strict_Forall _ _ _ _ _ Ha).
      intros row t z Hin Hz. injection Hz as <-.
      rewrite Forall_forall in Hall. specialize (Hall t Hin).
      apply Forall_map. apply Forall_forall. intros e _. rewrite Hall. ring. }
    assert (Hs : sum (map square (List.concat a)) == 0).
    { apply sum_zero. apply Forall_map. clear -Hz.
      induction Hz as [|row rows Hrow _ IH]; simpl; [constructor|].
      apply Forall_app. split; [|exact IH].
      eapply Forall_impl; [|exact Hrow].
      intros e He. cbv beta in *. unfold square. rewrite He. ring. }
    unfold mean, Qdiv. rewrite Hs. ring.
  - intros sq sp norm stq alpha tr key l _ H. unfold sub_q_loss in H.
    rbind_inv H. rbind_inv H. rbind_inv H. rbind_inv H. rbind_inv H.
    injection H as <-. apply sum_nonneg.
    eapply Forall_impl; [|apply (dict_mapM_values _ _ _ Ha3)].
    intros b ([[[[k q] p] tq] reward] & _ & Hb). cbv beta iota in Hb.
    exact (critic_loss_nonneg _ _ _ _ _ _ _ _ _ _ _ _ Hb).
Qed.

(** The sub-critic loss of the example on its batch of two transitions. *)
Lemma sub_q_loss_nonnegative_witness :
  exists l,
    sub_q_loss (Example.jax 2) Example.sac_network (1 # 10) (98 # 100)
               (sub_q_params Example.training_state)
               (sub_policy_params Example.training_state) []
               (sub_target_q_params Example.training_state) 1
               Example.transitions Example.key = ok l /\
    0 <= l.
Proof.
  destruct (sub_q_loss (Example.jax 2) Example.sac_network (1 # 10) (98 # 100)
              (sub_q_params Example.training_state)
              (sub_policy_params Example.training_state) []
              (sub_target_q_params Example.training_state) 1
              Example.transitions Example.key) as [e|l] eqn:E.
  - vm_compute in E. discriminate.
  - exists l. split; [reflexivity|].
    refine (proj2 (sub_q_loss_nonnegative (Example.jax 2) Example.sac_network
                     (1 # 10) (98 # 100)) _ _ _ _ _ _ _ l _ E).
    intros k q Hk. cbn. discriminate.
Defined.

Lemma sum_map_affine (f : Q -> Q) (a b : Q) (l : Array) :
  (forall x, f x == a * x + b) ->
  sum (map f l) == a * sum l + b * inject_Z (Z.of_nat (List.length l)).
Proof.
  intros Hf. unfold sum. induction l as [|x l IH]; simpl List.length.
  - simpl. ring.
  - cbn [map fold_right]. rewrite IH, Hf, Nat2Z.inj_succ. unfold Z.succ.
    rewrite inject_Z_plus. ring.
Qed.

Lemma length_positive {X} (l : list X) :
  l <> [] -> ~ inject_Z (Z.of_nat (List.length l)) == 0.
Proof.
  intros Hl H. destruct l as [|x l]; [congruence|].
  unfold Qeq in H. cbn [Qnum Qden inject_Z List.length] in H. lia.
Qed.

Lemma mean_map_affine (f : Q -> Q) (a b : Q) (l : Array) :
  l <> [] -> (forall x, f x == a * x + b) -> mean (map f l) == a * mean l + b.
Proof.
  intros Hl Hf. unfold mean. rewrite length_map, (sum_map_affine f a b l Hf).
  field. apply length_positive. exact Hl.
Qed.

(** Property X11.  On a non-empty batch the temperature loss is
    [exp(log_alpha)] times the gap between the entropy estimate of the
    batch, the mean of [-log_prob], and the target entropy
    [-0.5 * action_size].  It is 0 when the two agree and, for a positive
    [exp(log_alpha)], positive exactly when the entropy estimate is above
    the target; the critics play no part in it. *)
Theorem alpha_loss_value jax net action_size log_alpha pp norm tr key :
  let dist := parametric_action_distribution net in
  let dist_params := policy_network_apply net norm pp (observation tr) in
  let lp := log_prob dist dist_params (sample_no_postprocessing dist dist_params key) in
  let gap := - mean lp - target_entropy action_size in
  lp <> [] ->
  target_entropy action_size == - (1 # 2) * inject_Z action_size /\
  exists l,
    alpha_loss jax net action_size log_alpha pp norm tr key = ok l /\
    l == jnp_exp jax log_alpha * gap /\
    (gap == 0 -> l == 0) /\
    (0 < jnp_exp jax log_alpha -> (0 < l <-> 0 < gap)).
Proof.
  intros dist dist_params lp gap Hl. split; [reflexivity|].
  unfold alpha_loss. fold dist. fold dist_params. fold lp.
  eexists. split; [reflexivity|].
  set (alpha := jnp_exp jax log_alpha).
  assert (E : mean (map (fun x => alpha * (- x - target_entropy action_size)) lp)
              == alpha * gap).
  { rewrite (mean_map_affine _ (- alpha) (- (alpha * target_entropy action_size))
               lp Hl).
    - unfold gap. ring.
    - intros x. ring. }
  split; [exact E|]. split.
  - intros Hg. rewrite E, Hg. ring.
  - intros Hpos. rewrite E. clearbody alpha gap. split; intros H.
    + destruct (Qlt_le_dec 0 gap) as [Hlt|Hle]; [exact Hlt|]. exfalso.
      assert (alpha * gap <= alpha * 0)
        by (apply Qmult_le_l; assumption).
      lra.
    + apply Qmult_lt_0_compat; assumption.
Qed.

(** The example: log-probabilities of -1, one action dimension and a
    temperature of 1 give the loss 3/2. *)
Lemma alpha_loss_value_witness :
  exists l,
    alpha_loss (Example.jax 2) Example.sac_network 1 0 [[0]] [] Example.transitions
               Example.key = ok l /\
    l == 3 # 2.
Proof.
  destruct (alpha_loss_value (Example.jax 2) Example.sac_network 1 0 [[0]] []
              Example.transitions Example.key) as (_ & l & Hrun & Hl & _).
  - discriminate.
  - exists l. split; [exact Hrun|]. rewrite Hl. reflexivity.
Defined.

Lemma sequence_Forall2 {A B} (f : A -> Result B) (l : list A) (r : list B) :
  sequence (map f l) = inr r -> Forall2 (fun x y => f x = inr y) l r.
Proof.
  revert r. induction l as [|x l IH]; intros r H; simpl in H.
  - injection H as <-. constructor.
  - rbind_inv H. rbind_inv H. injection H as <-. constructor; auto.
Qed.

Lemma fold_left_Qmin_spec (r : Array) :
  forall x, In (fold_left Qmin r x) (x :: r) /\
            Forall (fun y => fold_left Qmin r x <= y) (x :: r).
Proof.
  induction r as [|y r IH]; intros x; cbn [fold_left].
  - split; [left; reflexivity|]. constructor; [apply Qle_refl|constructor].
  - destruct (IH (Qmin x y)) as [Hin Hall].
    inversion Hall as [|? ? Hhead Htail]; subst. split.
    + destruct Hin as [Hm|Hm]; [|right; right; exact Hm].
      rewrite <- Hm. unfold Qmin, GenericMinMax.gmin.
      destruct (x ?= y); [left|left|right; left]; reflexivity.
    + constructor; [|constructor; [|exact Htail]].
      * eapply Qle_trans; [exact Hhead|apply Q.le_min_l].
      * eapply Qle_trans; [exact Hhead|apply Q.le_min_r].
Qed.

Lemma array_min_spec (row : Array) (m : Q) :
  array_min row = ok m -> In m row /\ Forall (fun x => m <= x) row.
Proof.
  destruct row as [|x r]; [discriminate|]. intros [= <-].
  apply fold_left_Qmin_spec.
Qed.

Lemma array_map2_minus_sum (a b r : Array) :
  array_map2 Qminus a b = ok r ->
  sum r == sum a - sum b /\
  List.length r = List.length a /\ List.length b = List.length a.
Proof.
  unfold array_map2, sum. revert b r.
  induction a as [|x a IH]; intros [|y b] r H; simpl in H; try discriminate.
  - injection H as <-. simpl. split; [ring|auto].
  - rbind_inv H. injection H as <-.
    destruct (IH _ _ Ha) as (Hs & L1 & L2). simpl. rewrite Hs.
    split; [ring|]. split; congruence.
Qed.

(** Property X12.  The actor loss of a reward key scores every sampled
    action with the smallest value its critic ensemble gives it: on a
    non-empty batch the loss is [alpha] times the mean log-probability
    minus the mean of the row minima of the critic output, and the
    minimum of a row is a member of the row that no member is below. *)
Theorem actor_loss_uses_smallest_q net pp norm qp alpha tr key l :
  let dist := parametric_action_distribution net in
  let dist_params := policy_network_apply net norm pp (observation tr) in
  let a := sample_no_postprocessing dist dist_params key in
  let lp := log_prob dist dist_params a in
  let q := q_network_apply net norm qp (observation tr) (postprocess dist a) in
  _actor_loss net pp norm qp alpha tr key = ok l ->
  lp <> [] ->
  exists min_q,
    min_last_axis q = ok min_q /\
    List.length q = List.length lp /\
    Forall2 (fun row m => In m row /\ Forall (fun x => m <= x) row) q min_q /\
    l == alpha * mean lp - mean min_q.
Proof.
  intros dist dist_params a lp q H Hl.
  unfold _actor_loss in H. fold dist in H. fold dist_params in H. fold a in H.
  fold lp in H. fold q in H.
  rbind_inv H. rbind_inv H. injection H as <-. rename a0 into min_q.
  exists min_q. split; [exact Ha|].
  destruct (array_map2_minus_sum _ _ _ Ha0) as (Hs & L1 & L2).
  rewrite length_map in L1, L2.
  assert (F : Forall2 (fun row m => array_min row = inr m) q min_q)
    by (apply sequence_Forall2; exact Ha).
  split; [rewrite (Forall2_length F); exact L2|]. split.
  - eapply Forall2_impl; [|exact F]. intros row m. apply array_min_spec.
  - unfold mean. rewrite Hs, L1, L2.
    rewrite (sum_map_affine (Qmult alpha) alpha 0 lp) by (intros x; ring).
    field. apply length_positive. exact Hl.
Qed.

(** The example: two critics that differ by 1, so that the smaller one
    scores both transitions. *)
Lemma actor_loss_uses_smallest_q_witness :
  exists l min_q,
    _actor_loss Example.sac_network [[0]] [] [[1]] 1 Example.transitions Example.key
    = ok l /\
    min_last_axis
      (q_network_apply Example.sac_network [] [[1]]
                       (observation Example.transitions) [[1]; [2]]) = ok min_q /\
    l == 1 * mean [- (1); - (1)] - mean min_q.
Proof.
  destruct (_actor_loss Example.sac_network [[0]] [] [[1]] 1 Example.transitions
                        Example.key) as [e|l] eqn:E.
  - vm_compute in E. discriminate.
  - destruct (actor_loss_uses_smallest_q Example.sac_network [[0]] [] [[1]] 1
                Example.transitions Example.key l E)
      as (min_q & Hm & _ & _ & Hl).
    + discriminate.
    + exists l, min_q. split; [reflexivity|]. split; [exact Hm|exact Hl].
Defined.

Lemma dict_zip_inv {A B} (d1 : Dict A) (d2 : Dict B) z :
  dict_zip d1 d2 = inr z ->
  List.length d1 = List.length d2 /\
  keys z = keys d1 /\
  forall k, In k (keys d1) -> dict_get k d2 <> None.
Proof.
  unfold dict_zip. destruct (Nat.eqb _ _) eqn:El; [|discriminate].
  apply Nat.eqb_eq in El. intros H. split; [exact El|]. clear El. revert z H.
  induction d1 as [|[k1 a1] d1 IH]; intros z H; simpl in H.
  - injection H as <-. split; [reflexivity|]. intros k [].
  - rbind_inv H. rbind_inv H. injection H as <-.
    rbind_inv Ha. injection Ha as <-. cbn [fst snd] in *.
    unfold dict_index in Ha1.
    destruct (dict_get k1 d2) as [b1|] eqn:E; [|discriminate].
    destruct (IH _ Ha0) as [Hk Hin]. split.
    + unfold keys in *. simpl. rewrite Hk. reflexivity.
    + intros k Hk'. destruct Hk' as [<-|Hk'].
      * cbn [fst]. congruence.
      * apply Hin. exact Hk'.
Qed.

Lemma keys_length {V} (d : Dict V) : List.length (keys d) = List.length d.
Proof. apply length_map. Qed.

Lemma keys_keydict {V} (f : string -> V) (ks : list string) :
  keys (map (fun k => (k, f k)) ks) = ks.
Proof. unfold keys. rewrite map_map. cbn [fst]. apply map_id. Qed.

(** Property X13.  The sub-critic and the sub-policy losses reject
    trees whose key sets differ.  If the sub-policy parameters lack a key
    of the sub-Q parameters, or have another number of keys, both losses
    raise; and so does the sub-critic loss when the target parameters or
    the sub-rewards of the batch do.  No reward key is skipped
    silently. *)
Theorem sub_losses_need_every_key jax net rs disc sq sp norm stq alpha tr key :
  (keys_differ sp sq ->
   (exists e, sub_q_loss jax net rs disc sq sp norm stq alpha tr key = throw e) /\
   (exists e, sub_policy_loss jax net sp norm sq alpha tr key = throw e)) /\
  (keys_differ stq sq \/ keys_differ (sub_rewards tr) sq ->
   exists e, sub_q_loss jax net rs disc sq sp norm stq alpha tr key = throw e).
Proof.
  assert (Hbad : forall V (d : Dict V) W (z : Dict W),
             keys z = keys sq -> keys_differ d sq ->
             forall z', dict_zip z d <> inr z').
  { intros V d W z Hk Hd z' Hz. destruct (dict_zip_inv _ _ _ Hz) as (Hl & _ & Hin).
    destruct Hd as [Hd|(k & Hkin & Hnone)].
    - apply Hd. rewrite <- Hl, <- !keys_length, Hk. reflexivity.
    - apply (Hin k); [rewrite Hk; exact Hkin|exact Hnone]. }
  split.
  - intros Hsp. split.
    + destruct (sub_q_loss jax net rs disc sq sp norm stq alpha tr key)
        as [e|l] eqn:E; [eauto|]. exfalso. unfold sub_q_loss in E.
      rbind_inv E. rbind_inv E.
      destruct (dict_zip_inv _ _ _ Ha) as (_ & K0 & _). rewrite keys_keydict in K0.
      exact (Hbad _ sp _ a K0 Hsp _ Ha0).
    + destruct (sub_policy_loss jax net sp norm sq alpha tr key)
        as [e|l] eqn:E; [eauto|]. exfalso. unfold sub_policy_loss in E.
      rbind_inv E.
      refine (Hbad _ sp _ _ _ Hsp _ Ha). apply keys_keydict.
  - intros Hd.
    destruct (sub_q_loss jax net rs disc sq sp norm stq alpha tr key)
      as [e|l] eqn:E; [eauto|]. exfalso. unfold sub_q_loss in E.
    rbind_inv E. rbind_inv E. rbind_inv E. rbind_inv E.
    destruct (dict_zip_inv _ _ _ Ha) as (_ & K0 & _). rewrite keys_keydict in K0.
    destruct (dict_zip_inv _ _ _ Ha0) as (_ & K1 & _). rewrite K0 in K1.
    destruct (dict_zip_inv _ _ _ Ha1) as (_ & K2 & _). rewrite K1 in K2.
    destruct Hd as [Hd|Hd].
    + exact (Hbad _ stq _ a0 K1 Hd _ Ha1).
    + exact (Hbad _ (sub_rewards tr) _ a1 K2 Hd _ Ha2).
Qed.

(** Sub-policy parameters for the key ["ctrl"] only, against sub-Q
    parameters for ["ctrl"] and ["forward"]. *)
Lemma sub_losses_need_every_key_witness :
  exists e,
    sub_policy_loss (Example.jax 2) Example.sac_network [("ctrl"%string, [[0]])] []
                    (sub_q_params Example.training_state) 1 Example.transitions
                    Example.key = throw e.
Proof.
  destruct (sub_losses_need_every_key (Example.jax 2) Example.sac_network
              (1 # 10) (98 # 100) (sub_q_params Example.training_state)
              [("ctrl"%string, [[0]])] []
              (sub_target_q_params Example.training_state) 1 Example.transitions
              Example.key) as [H _].
  apply H. left. cbn. discriminate.
Defined.

Lemma array_map2_nth (f : Q -> Q -> Q) (a b r : Array) :
  array_map2 f a b = ok r ->
  forall i x y, nth_error a i = Some x -> nth_error b i = Some y ->
                nth_error r i = Some (f x y).
Proof.
  unfold array_map2. intros H i x y Hx Hy.
  destruct (map2_strict_nth _ _ _ _ H i x y Hx Hy) as (z & Hz & E).
  injection E as <-. exact Hz.
Qed.

Lemma array_map2_length (f : Q -> Q -> Q) (a b r : Array) :
  array_map2 f a b = ok r ->
  List.length a = List.length r /\ List.length b = List.length r.
Proof. unfold array_map2. apply map2_strict_length. Qed.

(** Property X14.  The target of the critic loss of a reward key is, for
    every transition of the batch, the sub-reward of that key times
    [reward_scaling], plus the discount of the transition times
    [discounting] times the soft value of the next observation: the
    smallest value the target critics give the action sampled there,
    minus [alpha] times its log-probability.  A transition that ends its
    episode (discount 0) bootstraps nothing.  The total reward of the
    batch plays no part in the target, nor in the sub-critic loss. *)
Theorem critic_target_value jax net rs disc p norm tq alpha tr sub_reward key target :
  let dist := parametric_action_distribution net in
  let next_dist_params := policy_network_apply net norm p (next_observation tr) in
  let next_action := sample_no_postprocessing dist next_dist_params key in
  let next_log_prob := log_prob dist next_dist_params next_action in
  let next_q :=
    q_network_apply net norm tq (next_observation tr) (postprocess dist next_action) in
  _critic_target_q net rs disc p norm tq alpha tr sub_reward key = ok target ->
  (exists min_next_q,
      min_last_axis next_q = ok min_next_q /\
      List.length target = List.length sub_reward /\
      forall i t, nth_error target i = Some t ->
        exists r d m lp,
          nth_error sub_reward i = Some r /\
          nth_error (discount tr) i = Some d /\
          nth_error min_next_q i = Some m /\
          nth_error next_log_prob i = Some lp /\
          t == r * rs + d * disc * (m - alpha * lp) /\
          (d == 0 -> t == r * rs)) /\
  (forall total,
      _critic_target_q net rs disc p norm tq alpha (with_reward tr total)
                       sub_reward key = ok target /\
      forall sq sp stq,
        sub_q_loss jax net rs disc sq sp norm stq alpha (with_reward tr total) key
        = sub_q_loss jax net rs disc sq sp norm stq alpha tr key).
Proof.
  intros dist next_dist_params next_action next_log_prob next_q H. split.
  - unfold _critic_target_q in H. fold dist in H. fold next_dist_params in H.
    fold next_action in H. fold next_log_prob in H. fold next_q in H.
    rbind_inv H. rbind_inv H. rbind_inv H.
    rename a into min_next_q, a0 into next_v, a1 into bootstrap.
    exists min_next_q. split; [exact Ha|].
    destruct (array_map2_length _ _ _ _ H) as [L1 L2].
    destruct (array_map2_length _ _ _ _ Ha1) as [L3 L4].
    destruct (array_map2_length _ _ _ _ Ha0) as [L5 L6].
    rewrite length_map in L1, L3, L6.
    split; [congruence|].
    intros i t Ht.
    assert (Hi : (i < List.length target)%nat)
      by (apply nth_error_Some; congruence).
    destruct (nth_error sub_reward i) as [r|] eqn:Er;
      [|apply nth_error_None in Er; lia].
    destruct (nth_error (discount tr) i) as [d|] eqn:Ed;
      [|apply nth_error_None in Ed; lia].
    destruct (nth_error min_next_q i) as [m|] eqn:Em;
      [|apply nth_error_None in Em; lia].
    destruct (nth_error next_log_prob i) as [lp|] eqn:Elp;
      [|apply nth_error_None in Elp; lia].
    exists r, d, m, lp. repeat (split; [reflexivity|]).
    pose proof (array_map2_nth _ _ _ _ Ha0 i m (alpha * lp) Em) as Hv.
    rewrite nth_error_map, Elp in Hv. specialize (Hv eq_refl).
    pose proof (array_map2_nth _ _ _ _ Ha1 i (d * disc) (m - alpha * lp)) as Hb.
    rewrite nth_error_map, Ed in Hb. specialize (Hb eq_refl Hv).
    pose proof (array_map2_nth _ _ _ _ H i (r * rs) (d * disc * (m - alpha * lp)))
      as Hf.
    rewrite nth_error_map, Er in Hf. specialize (Hf eq_refl Hb).
    rewrite Ht in Hf. injection Hf as ->.
    split; [reflexivity|]. intros Hd. rewrite Hd. ring.
  - intros total. split; [exact H|]. intros sq sp stq. reflexivity.
Qed.

(** The example batch with the sub-rewards of ["forward"]: two targets,
    each the scaled sub-reward plus the discounted soft value. *)
Lemma critic_target_value_witness :
  exists target t r d m lp,
    _critic_target_q Example.sac_network (1 # 10) (98 # 100) [[0]] [] [[1]] 1
                     Example.transitions [1; 1] Example.key = ok target /\
    nth_error target 0 = Some t /\
    t == r * (1 # 10) + d * (98 # 100) * (m - 1 * lp).
Proof.
  destruct (_critic_target_q Example.sac_network (1 # 10) (98 # 100) [[0]] [] [[1]] 1
                             Example.transitions [1; 1] Example.key)
    as [e|target] eqn:E.
  - vm_compute in E. discriminate.
  - destruct (critic_target_value (Example.jax 2) Example.sac_network (1 # 10)
                (98 # 100) [[0]] [] [[1]] 1 Example.transitions [1; 1] Example.key
                target E) as [(min_next_q & _ & Hlen & Hall) _].
    destruct target as [|t target]; [discriminate|].
    destruct (Hall 0%nat t eq_refl) as (r & d & m & lp & _ & _ & _ & _ & Ht & _).
    exists (t :: target), t, r, d, m, lp.
    split; [reflexivity|]. split; [reflexivity|exact Ht].
Defined.

(** ** The configuration modules *)

Local Open Scope Z_scope.

(** The tree of config/defaults.py holds the values of [get_config], and
    its [ENV] node has no [REWARD_DICT]. *)
Lemma defaults_module_get_config ml :
  exists store env train_node,
    defaults_module ml = (ok tt, store) /\
    config_getattr store "ENV" = ok env /\
    config_getattr env "ENV_NAME" = ok (CStr (ENV_NAME get_config)) /\
    config_getattr env "REWARD_DICT" = throw (AttributeError "REWARD_DICT") /\
    REWARD_DICT get_config = None /\
    config_getattr store "TRAIN" = ok train_node /\
    config_getattr train_node "NUM_TIMESTEPS" = ok (CInt (NUM_TIMESTEPS get_config)) /\
    config_getattr train_node "NUM_ENVS" = ok (CInt (NUM_ENVS get_config)) /\
    config_getattr train_node "MIN_REPLAY_SIZE"
    = ok (CInt (MIN_REPLAY_SIZE get_config)) /\
    config_getattr train_node "NUM_EVALS" = ok (CInt (NUM_EVALS get_config)) /\
    config_getattr train_node "BATCH_SIZE" = ok (CInt (BATCH_SIZE get_config)) /\
    config_getattr train_node "TAU" = ok (CFloat (TAU get_config)) /\
    config_getattr train_node "MAX_DEVICES_PER_HOST" = ok CNone.
Proof.
  eexists _, _, _. split; [reflexivity|]. cbn. repeat split.
Qed.

(** Property X15.  [debug.get_config()] never returns a configuration.
    It works on the configuration tree of config/defaults.py itself, not
    on a copy: it sets [DEBUG], [MOCK_TPU] and [WANDB] there, and then
    raises [AttributeError] on [_C.EBM], a node the defaults do not
    define.  The three assignments stay: whoever asks config/defaults.py
    for its configuration afterwards gets [DEBUG = True] and
    [WANDB = False]. *)
Theorem debug_get_config_fails ml fields debug mock wandb :
  (forall b b', safe_cast ml (CBool b) (CBool b') = ok (CBool b')) ->
  dict_get "DEBUG" fields = Some (CBool debug) ->
  dict_get "MOCK_TPU" fields = Some (CBool mock) ->
  dict_get "WANDB" fields = Some (CBool wandb) ->
  dict_get "EBM" fields = None ->
  exists store',
    debug_get_config ml (CNode fields) = (inl (AttributeError "EBM"), store') /\
    defaults_get_config store' = (ok store', store') /\
    config_getattr store' "DEBUG" = ok (CBool true) /\
    config_getattr store' "MOCK_TPU" = ok (CBool false) /\
    config_getattr store' "WANDB" = ok (CBool false) /\
    forall name,
      name <> "DEBUG"%string -> name <> "MOCK_TPU"%string -> name <> "WANDB"%string ->
      config_getattr store' name = config_getattr (CNode fields) name.
Proof.
  intros Hcast Hd Hm Hw He.
  unfold debug_get_config, defaults_get_config.
  do 4 (cbn [run_assignments config_assign config_setattr config_getattr
             rbind ok throw];
        rewrite ?dict_get_set; cbn [String.eqb Ascii.eqb Bool.eqb];
        rewrite ?Hd, ?Hm, ?Hw, ?He, ?Hcast).
  cbn [rbind ok throw].
  eexists. split; [reflexivity|]. split; [reflexivity|].
  cbn [config_getattr]. rewrite !dict_get_set.
  cbn [String.eqb Ascii.eqb Bool.eqb].
  split; [reflexivity|]. split; [reflexivity|]. split; [reflexivity|].
  intros name H1 H2 H3. rewrite !dict_get_set.
  destruct (String.eqb_spec name "WANDB"); [contradiction|].
  destruct (String.eqb_spec name "MOCK_TPU"); [contradiction|].
  destruct (String.eqb_spec name "DEBUG"); [contradiction|].
  reflexivity.
Qed.

(** The tree of config/defaults.py as the module body builds it. *)
Lemma debug_get_config_fails_witness :
  let ml := {| safe_cast := same_kind_cast |} in
  exists store',
    debug_get_config ml (snd (defaults_module ml))
    = (inl (AttributeError "EBM"), store') /\
    config_getattr (snd (defaults_module ml)) "DEBUG" = ok (CBool false) /\
    config_getattr store' "DEBUG" = ok (CBool true).
Proof.
  cbv zeta.
  pose (ml := {| safe_cast := same_kind_cast |}).
  destruct (snd (defaults_module ml)) as [| | | | |fields] eqn:Es;
    try (vm_compute in Es; discriminate).
  destruct (debug_get_config_fails ml fields false false true)
    as (store' & Hrun & _ & Hdebug & _).
  - intros b b'. reflexivity.
  - vm_compute in Es. injection Es as <-. reflexivity.
  - vm_compute in Es. injection Es as <-. reflexivity.
  - vm_compute in Es. injection Es as <-. reflexivity.
  - vm_compute in Es. injection Es as <-. reflexivity.
  - exists store'. fold ml. rewrite Es. split; [exact Hrun|]. split; [|exact Hdebug].
    vm_compute in Es. injection Es as <-. reflexivity.
Defined.

Local Open Scope Q_scope.

(** Property X16.  For every batch and every set of reward keys, the
    shared-policy loss subtracts one and the same number from the
    [alpha * log_prob] of every transition: the sum, over all reward keys
    and over all transitions of the batch, of the smallest value the
    critics of the key give the sampled action.  On a non-empty batch the
    loss is [alpha] times the mean log-probability minus that sum, so the
    critic term grows with the size of the batch. *)
Theorem policy_loss_value net pp norm sq alpha tr key l :
  let dist := parametric_action_distribution net in
  let dist_params := policy_network_apply net norm pp (observation tr) in
  let a := sample_no_postprocessing dist dist_params key in
  let lp := log_prob dist dist_params a in
  policy_loss net pp norm sq alpha tr key = ok l ->
  lp <> [] ->
  exists min_sub_q : Dict Array,
    (forall k, match dict_get k sq with
               | Some qp =>
                   exists m,
                     min_last_axis (q_network_apply net norm qp (observation tr)
                                                    (postprocess dist a)) = ok m /\
                     dict_get k min_sub_q = Some m
               | None => dict_get k min_sub_q = None
               end) /\
    List.length min_sub_q = List.length sq /\
    l == alpha * mean lp - sum (List.concat (values min_sub_q)).
Proof.
  intros dist dist_params a lp H Hl.
  unfold policy_loss in H. fold dist in H. fold dist_params in H. fold a in H.
  fold lp in H.
  rbind_inv H. rbind_inv H. rbind_inv H. injection H as <-.
  rename a0 into z, a1 into sub_q_action, a2 into min_sub_q.
  exists min_sub_q. split; [|split].
  - intros k.
    pose proof (dict_zip_get _ _ _ Ha k) as Hz.
    pose proof (dict_mapM_get _ _ _ Ha0 k) as Hq.
    pose proof (dict_mapM_get _ _ _ Ha1 k) as Hm.
    destruct (dict_get k sq) as [qp|] eqn:Eq.
    + destruct (dict_get k (map (fun k0 => (k0, 0)) (keys sq))) as [d|] eqn:Ed.
      * rewrite Hz in Hq. destruct Hq as (qa & Hqa & Hget). cbv beta iota in Hqa.
        injection Hqa as <-. rewrite Hget in Hm.
        destruct Hm as (m & Hmin & Hgm). exists m. auto.
      * exfalso. clear -Eq Ed. unfold keys in Ed. rewrite map_map in Ed.
        induction sq as [|[k1 v1] sq IH]; simpl in *; [discriminate|].
        destruct (String.eqb k k1); [discriminate|auto].
    + assert (Hzn : dict_get k z = None).
      { rewrite Hz.
        destruct (dict_get k (map (fun k0 => (k0, 0)) (keys sq))); reflexivity. }
      rewrite Hzn in Hq. rewrite Hq in Hm. exact Hm.
  - destruct (dict_zip_inv _ _ _ Ha) as (L0 & K0 & _).
    unfold dict_mapM in Ha0, Ha1.
    apply sequence_Forall2, Forall2_length in Ha0, Ha1.
    rewrite <- Ha1, <- Ha0.
    rewrite <- (keys_length z), K0, keys_length, L0. reflexivity.
  - rewrite (mean_map_affine _ alpha (- sum (List.concat (values min_sub_q))) lp Hl).
    + ring.
    + intros x. ring.
Qed.

(** The batch of two transitions of the example: the minima 2 and 3 of
    ["ctrl"] and 3 and 4 of ["forward"] add up to 12. *)
Lemma policy_loss_value_witness :
  exists l min_sub_q,
    policy_loss Example.sac_network [[0]] [] (sub_q_params Example.training_state)
                1 Example.transitions Example.key = ok l /\
    dict_get "ctrl" min_sub_q = Some [2; 3] /\
    l == 1 * mean [- (1); - (1)] - sum (List.concat (values min_sub_q)).
Proof.
  destruct (policy_loss Example.sac_network [[0]] []
                        (sub_q_params Example.training_state)
                        1 Example.transitions Example.key) as [e|l] eqn:E.
  - vm_compute in E. discriminate.
  - destruct (policy_loss_value Example.sac_network [[0]] []
                (sub_q_params Example.training_state) 1 Example.transitions
                Example.key l E) as (min_sub_q & Hk & _ & Hl).
    + discriminate.
    + exists l, min_sub_q. split; [reflexivity|]. split; [|exact Hl].
      specialize (Hk "ctrl"%string). cbn in Hk. destruct Hk as (m & Hm & Hget).
      injection Hm as <-. exact Hget.
Defined.

(** ** The prefill against the capacity of the buffer *)

Local Open Scope Z_scope.

Lemma sum_sizes_upper (n : Z) (b : nat) (cap : Z) args outs :
  0 <= cap ->
  Forall2 (prefill_done n b cap) args outs ->
  fold_right Z.add 0
    (map (fun o : TrainingState * EnvState * ReplayBufferState * PRNGKey =>
            current_size (snd (fst o))) outs)
  <= Z.of_nat (List.length args) * cap.
Proof.
  intros Hc Hd. induction Hd as [|a o args outs [_ Hs] Hd IH].
  - simpl. lia.
  - cbn [List.length map fold_right]. rewrite Nat2Z.inj_succ, Hs. lia.
Qed.

Lemma train_prefill_small_capacity jax brax locals tss ess bss local_key w (b : nat) :
  let D := Z.to_nat (l_local_devices_to_use locals) in
  let N := Z.to_nat (l_num_prefill_actor_steps locals) in
  let cap := max_replay_size (l_replay_buffer locals) in
  well_formed brax (l_env locals) (l_reward_dict locals) ->
  0 < cap -> Z.of_nat b <= cap ->
  List.length tss = D -> List.length ess = D -> List.length bss = D ->
  Forall (fun es => List.length (obs es) = b) ess ->
  Forall (fun bs => 0 <= current_size bs <= cap) bss ->
  Z.of_nat D * cap < l_min_replay_size locals ->
  exists w',
    train_prefill jax brax locals (tss, ess, bss) local_key w
    = (inl (AssertionError "replay_size >= min_replay_size"), w') /\
    calls w' = calls w ++ List.concat (repeat (prefill_events b N) D).
Proof.
  intros D N cap Hwf Hc Hb Lt Le Lb Hes Hbs Hsmall.
  unfold train_prefill. rewrite bind_time. unfold random_split2.
  cbv beta iota zeta.
  set (keys := random_splits jax (random_split jax local_key 2 0)
                             (Z.to_nat (l_local_devices_to_use locals))).
  assert (Lk : List.length keys = D).
  { unfold keys, random_splits. rewrite length_map, length_seq. reflexivity. }
  rewrite (zip4_ok tss ess bss keys) by congruence.
  rewrite bind_lift_ok.
  destruct (zip4_facts (fun es => List.length (obs es) = b)
                       (fun bs => 0 <= current_size bs <= cap)
                       tss ess bss keys) as (La & Mp & Fa); try congruence;
    try assumption.
  set (args := combine (combine (combine tss ess) bss) keys) in *.
  destruct (pmap_prefill_ok jax brax locals b Hwf Hc Hb args
              {| calls := calls w; ticks := S (ticks w) |} Fa)
    as (outs & Hp & Hd).
  erewrite bind_inr by exact Hp.
  pose proof (sum_sizes_upper _ b cap args outs ltac:(lia) Hd) as Hsum.
  unfold replay_buffer_size.
  match goal with
  | |- context [assert ?c ?t] => assert (Hassert : c = false)
  end.
  { rewrite Z.geb_leb. apply Z.leb_gt. rewrite map_map.
    rewrite La, Lt in Hsum. fold cap in Hsum. lia. }
  rewrite Hassert. cbn [assert]. rewrite bind_lift_err.
  eexists. split; [reflexivity|].
  cbn [calls with_call]. rewrite La, Lt. reflexivity.
Qed.

(** Property X17.  The startup of [train] does not compare the capacity
    of the replay buffer with [min_replay_size].  With a capacity
    [max_replay_size] below [min_replay_size] the prefill runs to its end
    on every replica, all actor steps and insertions included, and only
    then the assertion on the replay size fails: the buffers cannot hold
    [min_replay_size] transitions. *)
Theorem prefill_fails_on_small_capacity
        jax brax cfg env st rb tss ess bss local_key w (b : nat) (m : Z) :
  train_startup jax cfg = ok st ->
  train_replay_buffer cfg env st = ok rb ->
  MAX_REPLAY_SIZE cfg = Some m -> m < MIN_REPLAY_SIZE cfg ->
  0 < local_devices_to_use st -> 0 < process_count jax ->
  let locals := train_locals jax brax cfg env st rb in
  let D := Z.to_nat (local_devices_to_use st) in
  let N := Z.to_nat (num_prefill_actor_steps st) in
  well_formed brax env (reward_dict_of st) ->
  0 < max_replay_size rb -> Z.of_nat b <= max_replay_size rb ->
  List.length tss = D -> List.length ess = D -> List.length bss = D ->
  Forall (fun es => List.length (obs es) = b) ess ->
  Forall (fun bs => 0 <= current_size bs <= max_replay_size rb) bss ->
  exists w',
    train_prefill jax brax locals (tss, ess, bss) local_key w
    = (inl (AssertionError "replay_size >= min_replay_size"), w') /\
    calls w' = calls w ++ List.concat (repeat (prefill_events b N) D) /\
    count is_env_step (calls w') = (count is_env_step (calls w) + D * N)%nat.
Proof.
  intros Hst Hrb Hmax Hm Hl Hp locals D N Hwf Hc Hb Lt Le Lb Hes Hbs.
  destruct (train_startup_ok jax cfg st Hst)
    as (_ & Hpb & _ & Hcap & _).
  destruct (train_replay_buffer_sizes cfg env st rb Hrb) as (Hdc & Hsize & _).
  assert (Edc : device_count st = local_devices_to_use st * process_count jax).
  { unfold process_bookkeeping in Hpb. cbv zeta in Hpb.
    injection Hpb as E1 E2. rewrite E2, <- E1. reflexivity. }
  rewrite Hmax in Hcap. rewrite Hcap in Hsize.
  assert (Hsmall : Z.of_nat D * max_replay_size rb < MIN_REPLAY_SIZE cfg).
  { unfold D. rewrite Z2Nat.id by lia.
    assert (Hdpos : 0 < device_count st) by (rewrite Edc; nia).
    pose proof (Z.mul_div_le m (device_count st) Hdpos) as Hle.
    rewrite <- Hsize in Hle. rewrite Edc in Hle. nia. }
  destruct (train_prefill_small_capacity jax brax locals tss ess bss local_key w b)
    as (w' & Hrun & Hcalls); try assumption.
  exists w'. split; [exact Hrun|]. split; [exact Hcalls|].
  rewrite Hcalls, count_app, count_concat_repeat.
  destruct (count_prefill_events
              b (Z.to_nat (l_num_prefill_actor_steps locals))) as [-> _].
  reflexivity.
Qed.

(** Room for 4 transitions against a minimum replay size of 10, on two
    devices with two environments each: the prefill takes its 3 actor
    steps on both replicas, and then fails. *)
Lemma prefill_fails_on_small_capacity_witness :
  let cfg := with_budget Example.config 50 10 (Some 4) 4 3 in
  exists st rb w',
    train_startup (Example.jax 2) cfg = ok st /\
    train_replay_buffer cfg Example.env st = ok rb /\
    train_prefill (Example.jax 2) Example.brax
      (train_locals (Example.jax 2) Example.brax cfg Example.env st rb)
      ([Example.training_state; Example.training_state],
       [reset Example.env [Example.key; Example.key];
        reset Example.env [Example.key; Example.key]],
       [Example.empty_buffer; Example.empty_buffer])
      Example.key Example.world
    = (inl (AssertionError "replay_size >= min_replay_size"), w') /\
    count is_env_step (calls w') = 6%nat.
Proof.
  intros cfg.
  pose (st := match train_startup (Example.jax 2) cfg with
              | inr s => s
              | inl _ => Example.startup
              end).
  pose (rb := match train_replay_buffer cfg Example.env st with
              | inr r => r
              | inl _ => Example.replay_buffer
              end).
  exists st, rb.
  destruct (prefill_fails_on_small_capacity (Example.jax 2) Example.brax cfg
              Example.env st rb
              [Example.training_state; Example.training_state]
              [reset Example.env [Example.key; Example.key];
               reset Example.env [Example.key; Example.key]]
              [Example.empty_buffer; Example.empty_buffer]
              Example.key Example.world 2 4)
    as (w' & Hrun & _ & Hcount).
  - reflexivity.
  - reflexivity.
  - reflexivity.
  - cbn. lia.
  - reflexivity.
  - reflexivity.
  - exact example_well_formed.
  - reflexivity.
  - cbn. lia.
  - reflexivity.
  - reflexivity.
  - reflexivity.
  - repeat constructor.
  - repeat constructor; cbn; lia.
  - exists w'. split; [reflexivity|]. split; [reflexivity|].
    split; [exact Hrun|exact Hcount].
Defined.

(** ** What [train] does before it fails *)

Lemma init_training_state_setup jax brax key obs_size n net o1 o2 o3 o4 reward_dict w :
  exists evs,
    _init_training_state jax brax key obs_size n net o1 o2 o3 o4 reward_dict w
    = (inl missing_sub_alpha, with_call w evs) /\
    Forall (fun ev => is_network_setup ev = true) evs /\
    In Call_normalizer_init evs.
Proof.
  unfold _init_training_state.
  rewrite !bind_emit.
  erewrite bind_inr
    by apply (mapM_emit_ret (fun kv => Call_network_init (snd kv))
                (fun kv => (fst kv, policy_network_init net (snd kv)))).
  rewrite !bind_emit.
  erewrite bind_inr
    by apply (mapM_emit_ret (fun kv => Call_network_init (snd kv))
                (fun kv => (fst kv, q_network_init net (snd kv)))).
  rewrite !bind_emit.
  cbn [calls ticks]. unfold with_call. rewrite <- !app_assoc.
  eexists. split; [reflexivity|]. split.
  - repeat (apply Forall_cons; [reflexivity|]).
    apply Forall_app. split.
    { apply Forall_map. apply Forall_forall. intros kv _. reflexivity. }
    repeat (apply Forall_cons; [reflexivity|]).
    apply Forall_app. split.
    { apply Forall_map. apply Forall_forall. intros kv _. reflexivity. }
    repeat (apply Forall_cons; [reflexivity|]). constructor.
  - repeat (apply in_or_app; right). left. reflexivity.
Qed.

(** Property X18.  Whatever the configuration and the environment,
    [train] ends with an exception, and of the calls logged in the world
    it has made by then only initialisations of networks, of optimiser
    states and of the normaliser: it never resets or steps an
    environment, never initialises, fills or samples a replay buffer
    state, never takes a gradient step, never reads the clock, never
    saves parameters and never calls [progress_fn]. *)
Theorem train_only_initialises jax brax cfg env w :
  exists e evs,
    train jax brax cfg env w = (inl e, with_call w evs) /\
    Forall (fun ev => is_network_setup ev = true) evs /\
    count is_env_step evs = 0%nat /\
    count is_gradient_update evs = 0%nat /\
    (forall n, ~ In (Call_env_reset n) evs) /\
    ~ In Call_buffer_init evs /\
    (forall steps metrics, ~ In (Call_progress_fn steps metrics) evs).
Proof.
  assert (Hmain : exists e evs,
             train jax brax cfg env w = (inl e, with_call w evs) /\
             Forall (fun ev => is_network_setup ev = true) evs).
  { unfold train. cbv zeta.
    destruct (train_startup jax cfg) as [e0|st].
    { exists e0, []. rewrite with_call_nil. split; [reflexivity|constructor]. }
    rewrite bind_lift_ok.
    destruct (train_replay_buffer cfg (train_env brax cfg env) st) as [e1|rb].
    { exists e1, []. rewrite with_call_nil. split; [reflexivity|constructor]. }
    rewrite bind_lift_ok.
    unfold random_split2. cbv beta iota zeta.
    match goal with
    | |- context [_init_training_state ?a ?b ?c ?d ?e ?f ?g ?h ?i ?j ?k] =>
        destruct (init_training_state_setup a b c d e f g h i j k w)
          as (evs & H & Hall & _)
    end.
    exists missing_sub_alpha, evs. split; [|exact Hall].
    apply bind_inl. exact H. }
  destruct Hmain as (e & evs & Hrun & Hall).
  exists e, evs. split; [exact Hrun|]. split; [exact Hall|].
  rewrite Forall_forall in Hall.
  assert (Hcount : forall p, (forall ev, is_network_setup ev = true -> p ev = false) ->
                             count p evs = 0%nat).
  { intros p Hp. unfold count. clear Hrun.
    induction evs as [|ev evs IH]; [reflexivity|]. simpl.
    rewrite (Hp ev) by (apply Hall; left; reflexivity).
    apply IH. intros x Hx. apply Hall. right. exact Hx. }
  split; [apply Hcount; intros [] Hs; try discriminate; reflexivity|].
  split; [apply Hcount; intros [] Hs; try discriminate; reflexivity|].
  split; [intros n Hin; specialize (Hall _ Hin); discriminate|].
  split; [intros Hin; specialize (Hall _ Hin); discriminate|].
  intros steps metrics Hin. specialize (Hall _ Hin). discriminate.
Qed.

(** ** Acting and the critic loss together *)

(** Property X19.  The critic loss reads the truncation flags of the
    batch under [extras['state_extras']['truncation']] and never returns
    a loss for a batch without them.  A transition that [actor_step]
    returns carries these flags exactly when ['truncation'] is among the
    extra fields asked for, so a transition collected with the default
    [extra_fields = ()] cannot be used by the critic loss. *)
Theorem critic_loss_needs_truncation :
  (forall net rs disc q p norm tq alpha tr r key,
      dict_get "truncation" (state_extras (extras tr)) = None ->
      exists e, _critic_loss net rs disc q p norm tq alpha tr r key = throw e) /\
  (forall env es policy key rd fields w ns tr w',
      actor_step env es policy key (Some rd) fields w = (inr (ns, tr), w') ->
      (dict_get "truncation" (state_extras (extras tr)) <> None <->
       In "truncation"%string (match fields with Some x => x | None => [] end))) /\
  (forall env es policy key rd w ns tr w' net rs disc q p norm tq alpha r key',
      actor_step env es policy key (Some rd) None w = (inr (ns, tr), w') ->
      exists e, _critic_loss net rs disc q p norm tq alpha tr r key' = throw e).
Proof.
  assert (H1 : forall net rs disc q p norm tq alpha tr r key,
             dict_get "truncation" (state_extras (extras tr)) = None ->
             exists e, _critic_loss net rs disc q p norm tq alpha tr r key = throw e).
  { intros net rs disc q p norm tq alpha tr r key Hnone.
    unfold _critic_loss, _critic_q_error.
    destruct (_critic_target_q net rs disc p norm tq alpha tr r key) as [e|target];
      [eexists; reflexivity|]. cbn [rbind].
    destruct (map2_strict _ _ target) as [e|q_error]; [eexists; reflexivity|].
    cbn [rbind]. unfold dict_index. rewrite Hnone. eexists. reflexivity. }
  assert (H2 : forall env es policy key rd fields w ns tr w',
             actor_step env es policy key (Some rd) fields w = (inr (ns, tr), w') ->
             (dict_get "truncation" (state_extras (extras tr)) <> None <->
              In "truncation"%string
                 (match fields with Some x => x | None => [] end))).
  { intros env es policy key rd fields w ns tr w'.
    unfold actor_step. cbn [required]. rewrite bind_lift_ok'.
    set (fs := match fields with Some x => x | None => [] end).
    destruct (policy (obs es) key) as [actions policy_extras].
    rewrite bind_emit.
    destruct (sequence_lookup_cases (info (step env es actions)) fs)
      as [(l1 & E1 & K1 & In1 & Out1)|(x & Hx & Mx & F1)].
    - rewrite E1, bind_lift_ok.
      destruct (sequence (map _ (keys rd))) as [e|l2];
        [rewrite bind_lift_err; discriminate|].
      rewrite bind_lift_ok. unfold ret. intros [= <- <- <-].
      cbn [extras state_extras]. split.
      + intros Hsome.
        destruct (in_dec string_dec "truncation"%string fs) as [Hin|Hnot];
          [exact Hin|]. exfalso. apply Hsome. apply Out1. exact Hnot.
      + intros Hin. destruct (In1 _ Hin) as [Hinfo Heq]. rewrite Heq. exact Hinfo.
    - rewrite F1, bind_lift_err. discriminate. }
  split; [exact H1|]. split; [exact H2|].
  intros env es policy key rd w ns tr w' net rs disc q p norm tq alpha r key' Hrun.
  apply H1. destruct (dict_get "truncation" _) eqn:E; [|reflexivity].
  exfalso. apply (proj1 (H2 _ _ _ _ _ None _ _ _ _ Hrun)). rewrite E. discriminate.
Qed.

(** A transition of the example collected with the default extra
    fields: the critic loss raises on it. *)
Lemma critic_loss_needs_truncation_witness :
  exists ns tr w' e,
    actor_step Example.env (reset Example.env [Example.key; Example.key])
               (make_inference_fn Example.brax Example.sac_network ([], [[0%Q]]))
               Example.key (Some Example.reward_dict) None Example.world
    = (inr (ns, tr), w') /\
    _critic_loss Example.sac_network (1 # 10) (98 # 100) [[1%Q]] [[0%Q]] [] [[1%Q]] 1
                 tr [1%Q; 1%Q] Example.key = throw e.
Proof.
  destruct (actor_step Example.env (reset Example.env [Example.key; Example.key])
              (make_inference_fn Example.brax Example.sac_network ([], [[0%Q]]))
              Example.key (Some Example.reward_dict) None Example.world)
    as [[e|[ns tr]] w'] eqn:E.
  - vm_compute in E. discriminate.
  - destruct critic_loss_needs_truncation as (_ & _ & H).
    destruct (H _ _ _ _ _ _ _ _ _ Example.sac_network (1 # 10)%Q (98 # 100)%Q
                [[1%Q]] [[0%Q]] [] [[1%Q]] 1%Q [1%Q; 1%Q] Example.key E) as [e He].
    exists ns, tr, w', e. split; [reflexivity|exact He].
Defined.

(** ** Past the startup *)

(** Property X20.  A configuration that passes the startup of [train]
    always gets as far as the construction of the training state, and no
    further: the replay buffer object is built without error, since the
    startup has already divided by the device count, and [train] ends
    with the [TypeError] of the [TrainingState] constructor, after the
    normaliser and the networks were initialised. *)
Theorem train_past_startup_raises_type_error jax brax cfg env w st :
  train_startup jax cfg = ok st ->
  (exists rb, train_replay_buffer cfg (train_env brax cfg env) st = ok rb) /\
  exists evs,
    train jax brax cfg env w
    = (inl (TypeError "__init__() missing required argument: 'sub_alpha_params'"),
       with_call w evs) /\
    In Call_normalizer_init evs.
Proof.
  intros Hst.
  destruct (train_startup_ok jax cfg st Hst)
    as (_ & _ & _ & _ & _ & _ & _ & _ & _ & _ & _ & _ & Hdc & _).
  assert (Hrb : exists rb, train_replay_buffer cfg (train_env brax cfg env) st = ok rb).
  { unfold train_replay_buffer. cbv zeta. unfold floordiv.
    destruct (device_count st =? 0) eqn:E; [apply Z.eqb_eq in E; contradiction|].
    cbn [rbind ok]. eexists. reflexivity. }
  split; [exact Hrb|]. destruct Hrb as [rb Hrb].
  unfold train. cbv zeta. rewrite Hst, bind_lift_ok. rewrite Hrb, bind_lift_ok.
  unfold random_split2. cbv beta iota zeta.
  match goal with
  | |- context [_init_training_state ?a ?b ?c ?d ?e ?f ?g ?h ?i ?j ?k] =>
      destruct (init_training_state_setup a b c d e f g h i j k w)
        as (evs & H & Hall & Hin)
  end.
  exists evs. split; [apply bind_inl; exact H|exact Hin].
Qed.

(** The small budget of the example on two devices. *)
Lemma train_past_startup_raises_type_error_witness :
  exists evs,
    train (Example.jax 2) Example.brax Example.config Example.env Example.world
    = (inl (TypeError "__init__() missing required argument: 'sub_alpha_params'"),
       with_call Example.world evs) /\
    In Call_normalizer_init evs.
Proof.
  destruct (train_past_startup_raises_type_error (Example.jax 2) Example.brax
              Example.config Example.env Example.world Example.startup eq_refl)
    as (_ & evs & Hrun & Hin).
  exists evs. split; [exact Hrun|exact Hin].
Defined.

(** ** Pairing by reward key *)

Local Open Scope Q_scope.

Lemma dict_get_keydict {V} (f : string -> V) (ks : list string) (k : string) :
  In k ks -> dict_get k (map (fun k0 => (k0, f k0)) ks) = Some (f k).
Proof.
  induction ks as [|k1 ks IH]; intros Hin; simpl; [destruct Hin|].
  destruct (String.eqb_spec k k1) as [->|Hne]; [reflexivity|].
  apply IH. destruct Hin as [->|Hin]; [contradiction|exact Hin].
Qed.

Lemma dict_get_In_keys {V} (d : Dict V) (k : string) (v : V) :
  dict_get k d = Some v -> In k (keys d).
Proof.
  induction d as [|[k1 v1] d IH]; simpl; [discriminate|].
  destruct (String.eqb_spec k k1) as [->|Hne]; [left; reflexivity|].
  intros H. right. apply IH. exact H.
Qed.

(** Property X21.  The sub-critic and the sub-policy losses pair the
    networks by reward key.  The term of the sub-critic loss for a key
    [k] is the critic loss of the critic of [k] against the sub-policy of
    [k], the target critic of [k] and the sub-reward of [k], and the term
    of the sub-policy loss for [k] is the actor loss of the sub-policy of
    [k] against the critic of [k]; both are computed with the random key
    [fold_in(key, hash(k))], and each loss is the sum of its terms, one
    for every key of the sub-Q parameters. *)
Theorem sub_losses_pair_by_key jax net rs disc sq sp norm stq alpha tr key :
  (forall l,
      sub_q_loss jax net rs disc sq sp norm stq alpha tr key = ok l ->
      exists losses : Dict Q,
        l = sum (values losses) /\
        List.length losses = List.length sq /\
        forall k q, dict_get k sq = Some q ->
          exists pp tq r lk,
            dict_get k sp = Some pp /\
            dict_get k stq = Some tq /\
            dict_get k (sub_rewards tr) = Some r /\
            _critic_loss net rs disc q pp norm tq alpha tr r
                         (random_fold_in jax key (hash jax k)) = ok lk /\
            dict_get k losses = Some lk) /\
  (forall l,
      sub_policy_loss jax net sp norm sq alpha tr key = ok l ->
      exists losses : Dict Q,
        l = sum (values losses) /\
        List.length losses = List.length sq /\
        forall k q, dict_get k sq = Some q ->
          exists pp lk,
            dict_get k sp = Some pp /\
            _actor_loss net pp norm q alpha tr
                        (random_fold_in jax key (hash jax k)) = ok lk /\
            dict_get k losses = Some lk).
Proof.
  split.
  - intros l H. unfold sub_q_loss in H.
    rbind_inv H. rbind_inv H. rbind_inv H. rbind_inv H. rbind_inv H.
    injection H as <-. rename a into z1, a0 into z2, a1 into z3, a2 into z4,
                              a3 into losses.
    exists losses. split; [reflexivity|]. split.
    { destruct (dict_zip_inv _ _ _ Ha) as (_ & K1 & _).
      destruct (dict_zip_inv _ _ _ Ha0) as (_ & K2 & _).
      destruct (dict_zip_inv _ _ _ Ha1) as (_ & K3 & _).
      destruct (dict_zip_inv _ _ _ Ha2) as (_ & K4 & _).
      unfold dict_mapM in Ha3. apply sequence_Forall2, Forall2_length in Ha3.
      rewrite <- Ha3, <- (keys_length z4), K4, K3, K2, K1, keys_keydict.
      apply keys_length. }
    intros k q Hq.
    pose proof (dict_zip_get _ _ _ Ha k) as G1.
    rewrite (dict_get_keydict _ _ _ (dict_get_In_keys _ _ _ Hq)), Hq in G1.
    pose proof (dict_zip_get _ _ _ Ha0 k) as G2. rewrite G1 in G2.
    pose proof (dict_zip_inv _ _ _ Ha0) as (_ & K2 & N2).
    pose proof (dict_zip_inv _ _ _ Ha1) as (_ & K3 & N3).
    pose proof (dict_zip_inv _ _ _ Ha2) as (_ & K4 & N4).
    assert (Hk1 : In k (keys z1)) by (eapply dict_get_In_keys; exact G1).
    destruct (dict_get k sp) as [pp|] eqn:Epp; [|exfalso; exact (N2 k Hk1 Epp)].
    pose proof (dict_zip_get _ _ _ Ha1 k) as G3. rewrite G2 in G3.
    assert (Hk2 : In k (keys z2)) by (eapply dict_get_In_keys; exact G2).
    destruct (dict_get k stq) as [tq|] eqn:Etq; [|exfalso; exact (N3 k Hk2 Etq)].
    pose proof (dict_zip_get _ _ _ Ha2 k) as G4. rewrite G3 in G4.
    assert (Hk3 : In k (keys z3)) by (eapply dict_get_In_keys; exact G3).
    destruct (dict_get k (sub_rewards tr)) as [r|] eqn:Er;
      [|exfalso; exact (N4 k Hk3 Er)].
    pose proof (dict_mapM_get _ _ _ Ha3 k) as G5. rewrite G4 in G5.
    destruct G5 as (lk & Hlk & Hget). cbv beta iota in Hlk.
    exists pp, tq, r, lk. auto.
  - intros l H. unfold sub_policy_loss in H.
    rbind_inv H. rbind_inv H. rbind_inv H.
    injection H as <-. rename a into z1, a0 into z2, a1 into losses.
    exists losses. split; [reflexivity|].
    pose proof (dict_zip_inv _ _ _ Ha) as (L1 & K1 & N1).
    pose proof (dict_zip_inv _ _ _ Ha0) as (L2 & K2 & N2).
    rewrite keys_keydict in K1.
    split.
    { unfold dict_mapM in Ha1. apply sequence_Forall2, Forall2_length in Ha1.
      rewrite <- Ha1, <- (keys_length z2), K2, K1. apply keys_length. }
    intros k q Hq.
    assert (Hin : In k (keys sq)) by (eapply dict_get_In_keys; exact Hq).
    pose proof (dict_zip_get _ _ _ Ha k) as G1.
    rewrite (dict_get_keydict _ _ _ Hin) in G1.
    destruct (dict_get k sp) as [pp|] eqn:Epp.
    2:{ exfalso. apply (N1 k); [rewrite keys_keydict; exact Hin|exact Epp]. }
    pose proof (dict_zip_get _ _ _ Ha0 k) as G2. rewrite G1, Hq in G2.
    pose proof (dict_mapM_get _ _ _ Ha1 k) as G3. rewrite G2 in G3.
    destruct G3 as (lk & Hlk & Hget). cbv beta iota in Hlk.
    exists pp, lk. auto.
Qed.

(** The example: the term of the sub-policy loss for ["forward"] is the
    actor loss of the sub-policy of ["forward"] against its critic. *)
Lemma sub_losses_pair_by_key_witness :
  exists l losses lk,
    sub_policy_loss (Example.jax 2) Example.sac_network
                    (sub_policy_params Example.training_state) []
                    (sub_q_params Example.training_state) 1 Example.transitions
                    Example.key = ok l /\
    l = sum (values losses) /\
    _actor_loss Example.sac_network [[0]] [] [[2]] 1 Example.transitions
                (random_fold_in (Example.jax 2) Example.key
                                (hash (Example.jax 2) "forward")) = ok lk /\
    dict_get "forward" losses = Some lk.
Proof.
  destruct (sub_policy_loss (Example.jax 2) Example.sac_network
              (sub_policy_params Example.training_state) []
              (sub_q_params Example.training_state) 1 Example.transitions
              Example.key) as [e|l] eqn:E.
  - vm_compute in E. discriminate.
  - destruct (sub_losses_pair_by_key (Example.jax 2) Example.sac_network
                (1 # 10) (98 # 100) (sub_q_params Example.training_state)
                (sub_policy_params Example.training_state) []
                (sub_target_q_params Example.training_state) 1
                Example.transitions Example.key) as [_ H].
    destruct (H l E) as (losses & Hl & _ & Hk).
    destruct (Hk "forward"%string [[2]] eq_refl) as (pp & lk & Hpp & Hlk & Hget).
    injection Hpp as <-.
    exists l, losses, lk. auto.
Defined.
